(** * Unity ONNX inference plugins: a shallow embedding

    Two native bridges live in the repository:
    - [CVPlugin]    embeds  UnityONNXInferenceCVPlugin/dllmain.cpp
    - [YOLOXPlugin] embeds  UnityOnnxYOLOXDetectorPlugin/.../dllmain.cpp

    Both keep their state in process-wide globals and drive the ONNX
    Runtime C API.  The globals become a record that is threaded through
    every exported function; the runtime is an opaque collaborator, so each
    call into it is appended to a log and whatever it hands back (handles,
    names, tensor memory) is an input of the exported function, gathered in
    a per-call record.

    Conventions of the embedding:
    - [int] is a 32-bit signed integer held in [Z]; overflow of a signed
      operation is undefined behaviour in C++ and is reported as
      [Undefined SignedOverflow].  Conversions to [size_t] wrap modulo 2^64.
    - reads and writes outside an array, a use of the null API pointer and a
      read of an uninitialised local are reported as [Undefined _] too.
    - [float] is IEEE binary32, computed with the Standard Library's
      [SpecFloat] at precision 24 and maximal exponent 128. *)

From Stdlib Require Import ZArith String List Strings.Byte SpecFloat Lia Bool.
From stdpp Require Import base list.
Import ListNotations.
Local Open Scope Z_scope.

(** ** Machine integers *)

Definition INT_MIN : Z := - 2 ^ 31.
Definition INT_MAX : Z := 2 ^ 31 - 1.
Definition SIZE_MODULUS : Z := 2 ^ 64.

Definition in_int (z : Z) : bool := (INT_MIN <=? z) && (z <=? INT_MAX).

(** [(size_t) x] for an [int] x. *)
Definition to_size_t (x : Z) : Z := x mod SIZE_MODULUS.

Definition sizeof_float : Z := 4.
(** [sizeof(float* )] of the 64-bit build the plugins target. *)
Definition sizeof_pointer : Z := 8.

(** ** binary32 *)

Definition float : Type := spec_float.

Definition float_of_int (z : Z) : float := binary_normalize 24 128 z 0 false.
Definition float_div (x y : float) : float := SFdiv 24 128 x y.
Definition float_zero : float := S754_zero false.

(** [b / 255.0f] for a byte [b]: the byte is promoted to [int], converted to
    [float] and divided in single precision. *)
Definition normalize (b : byte) : float :=
  float_div (float_of_int (Z.of_N (Byte.to_N b))) (float_of_int 255).

(** ** Handles of the inference runtime *)

Inductive ptr : Type :=
| nullptr
| handle (id : nat).

Definition is_null (p : ptr) : bool :=
  match p with nullptr => true | handle _ => false end.

Definition ptr_eqb (p q : ptr) : bool :=
  match p, q with
  | nullptr, nullptr => true
  | handle a, handle b => Nat.eqb a b
  | _, _ => false
  end.

Inductive OrtLoggingLevel := ORT_LOGGING_LEVEL_WARNING.
Inductive ExecutionMode := ORT_SEQUENTIAL | ORT_PARALLEL.

(** One constructor per runtime entry point the plugins use; an argument
    named [out] is the value the runtime left in the out-parameter, and a
    name is [None] when the [char*] passed for it is null. *)
Inductive ort_call : Type :=
| GetAvailableProviders
| CreateEnv (level : OrtLoggingLevel) (logid : string) (out : ptr)
| DisableTelemetryEvents (e : ptr)
| CreateSessionOptions (out : ptr)
| DisableMemPattern (options : ptr)
| SetSessionExecutionMode (options : ptr) (mode : ExecutionMode)
| OrtSessionOptionsAppendExecutionProvider_DML (options : ptr) (device_id : Z)
| CreateSession (e : ptr) (model_path : string) (options : ptr) (out : ptr)
| ReleaseSessionOptions (options : ptr)
| SessionGetInputName (s : ptr) (index : Z)
| SessionGetOutputName (s : ptr) (index : Z)
| CreateCpuMemoryInfo (out : ptr)
| CreateTensorWithDataAsOrtValue
    (info : ptr) (data : list float) (data_bytes : Z) (shape : list Z) (out : ptr)
| ReleaseMemoryInfo (info : ptr)
| Run (s : ptr) (input_names : list (option string)) (inputs : list ptr)
      (output_names : list (option string)) (out : ptr)
| GetTensorTypeAndShape (value : ptr)
| GetDimensionsCount
| GetDimensions
| GetTensorMutableData (value : ptr)
| ReleaseValue (value : ptr)
| ReleaseSession (s : ptr)
| ReleaseEnv (e : ptr).

(** Handles that a log has created and not yet released. *)
Fixpoint remove_ptr (p : ptr) (l : list ptr) : list ptr :=
  match l with
  | [] => []
  | q :: l' => if ptr_eqb p q then l' else q :: remove_ptr p l'
  end.

Definition track_env (live : list ptr) (c : ort_call) : list ptr :=
  match c with
  | CreateEnv _ _ (handle i) => live ++ [handle i]
  | ReleaseEnv p => remove_ptr p live
  | _ => live
  end.

Definition track_session (live : list ptr) (c : ort_call) : list ptr :=
  match c with
  | CreateSession _ _ _ (handle i) => live ++ [handle i]
  | ReleaseSession p => remove_ptr p live
  | _ => live
  end.

Definition live_envs (log : list ort_call) : list ptr := fold_left track_env log [].
Definition live_sessions (log : list ort_call) : list ptr := fold_left track_session log [].

Definition is_release (c : ort_call) : bool :=
  match c with
  | ReleaseSession _ | ReleaseEnv _ => true
  | _ => false
  end.

(** ** Outcomes of a native call *)

Inductive fault : Type :=
| NullDereference
| OutOfBounds
| SignedOverflow
| UninitializedRead
| UseAfterFree.

Inductive std_exception : Type :=
| length_error
| bad_alloc.

Inductive outcome (S A : Type) : Type :=
| Normal (a : A) (s : S)
| Raised (e : std_exception) (s : S)
| Undefined (f : fault).
Arguments Normal {S A} a s.
Arguments Raised {S A} e s.
Arguments Undefined {S A} f.

Definition M (S A : Type) : Type := S -> outcome S A.

Definition ret {S A} (a : A) : M S A := fun s => Normal a s.

Definition bind {S A B} (m : M S A) (k : A -> M S B) : M S B :=
  fun s =>
    match m s with
    | Normal a s' => k a s'
    | Raised e s' => Raised e s'
    | Undefined f => Undefined f
    end.

Definition undefined {S A} (f : fault) : M S A := fun _ => Undefined f.
Definition throw {S A} (e : std_exception) : M S A := fun s => Raised e s.
Definition get {S} : M S S := fun s => Normal s s.
Definition gets {S A} (f : S -> A) : M S A := fun s => Normal (f s) s.
Definition modify {S} (f : S -> S) : M S unit := fun s => Normal tt (f s).

Notation "x <- m ;; k" := (bind m (fun x => k))
  (at level 100, m at next level, right associativity).
Notation "m ;; k" := (bind m (fun _ => k))
  (at level 100, right associativity).

(** [int] arithmetic. *)
Definition checked {S} (z : Z) : M S Z :=
  if in_int z then ret z else undefined SignedOverflow.
Definition int_mul {S} (a b : Z) : M S Z := checked (a * b).
Definition int_add {S} (a b : Z) : M S Z := checked (a + b).

(** [for (int i = start; i < start + count; i++) body(i)], with the trip
    count already decided. *)
Fixpoint for_loop {S} (count : nat) (i : Z) (body : Z -> M S unit) : M S unit :=
  match count with
  | O => ret tt
  | Datatypes.S k => body i ;; for_loop k (i + 1) body
  end.

(** [for (int i = 0; i < n; i++) body(i)]. *)
Definition for_upto {S} (n : Z) (body : Z -> M S unit) : M S unit :=
  for_loop (Z.to_nat n) 0 body.

(** Array accesses. *)
Definition read_at {S A} (l : list A) (i : Z) : M S A :=
  if (0 <=? i) && (i <? Z.of_nat (length l)) then
    match l !! Z.to_nat i with
    | Some x => ret x
    | None => undefined OutOfBounds
    end
  else undefined OutOfBounds.

Definition write_at {A} (l : list A) (i : Z) (x : A) : option (list A) :=
  if (0 <=? i) && (i <? Z.of_nat (length l)) then Some (<[Z.to_nat i := x]> l)
  else None.

(** [std::string::find(key) != std::string::npos]. *)
Definition contains (s key : string) : bool :=
  match String.index 0%nat key s with
  | Some _ => true
  | None => false
  end.

(** [static_cast<int>(n)] for a [size_t] n. *)
Definition to_int (z : Z) : Z := (z + 2 ^ 31) mod 2 ^ 32 - 2 ^ 31.

(** A [const char*] returned by [LoadModel]: the address of a string literal
    of the source, or the pointer that [e.what()] gave for the exception [e]
    caught by the handler.  The text behind the latter is kept by the
    exception object, and the pointer stays valid only as long as that object
    lives. *)
Inductive c_string : Type :=
| literal (text : string)
| what (e : std_exception).

(** What the caller of [LoadModel] reads through the returned pointer.  A
    literal has static storage.  The exception object is destroyed when the
    handler is left, which is before the caller gets the pointer: reading
    through it is a use of released storage. *)
Definition read_c_string {S} (p : c_string) : M S string :=
  match p with
  | literal text => ret text
  | what _ => undefined UseAfterFree
  end.

(** [try { body } catch (const std::exception& e) { return e.what(); }]:
    the handler returns the pointer, not a copy of the text, and leaving the
    handler destroys [e]; the value [what e] is that pointer, already
    dangling (see [read_c_string]).  Nothing in the body throws anything but
    a [std::exception], so the handler [catch (...)] of the source is never
    entered. *)
Definition try_catch {S} (body : M S c_string) : M S c_string :=
  fun s =>
    match body s with
    | Raised e s' => Normal (what e) s'
    | o => o
    end.

(** [max_size()] of a [std::vector<float>]: the smaller of [PTRDIFF_MAX] and
    [SIZE_MAX / sizeof(float)].  A vector never holds more elements, and a
    [resize] beyond it raises [length_error]. *)
Definition vector_max_size : Z :=
  Z.min (2 ^ 63 - 1) ((SIZE_MODULUS - 1) / sizeof_float).

(** The contents after [std::vector<float>::resize(n)] on the contents [v],
    for [n] already converted to [size_t]: the first [n] elements are kept
    and the ones added are value-initialised. *)
Definition resized (n : Z) (v : list float) : list float :=
  resize (Z.to_nat n) float_zero v.

(** [std::memcpy(dst, src, bytes)] between two [float] arrays. *)
Definition memcpy {S} (dst src : list float) (bytes : Z) : M S (list float) :=
  let count := Z.to_nat (bytes / sizeof_float) in
  if (bytes <=? sizeof_float * Z.of_nat (length src))
     && (bytes <=? sizeof_float * Z.of_nat (length dst))
  then ret (take count src ++ drop count dst)
  else undefined OutOfBounds.

(** * UnityONNXInferenceCVPlugin/dllmain.cpp *)
Module CVPlugin.

(** The globals of the translation unit, and the log of runtime calls. *)
Record globals : Type := {
  input_w : Z;
  input_h : Z;
  n_pixels : Z;
  ort : ptr;
  provider_names : list string;
  env : ptr;
  session_options : ptr;
  session : ptr;
  input_name : string;
  output_name : string;
  input_data : list float;
  calls : list ort_call
}.

Definition n_channels : Z := 3.

(** Static initialisation. *)
Definition initial : globals := {|
  input_w := 0; input_h := 0; n_pixels := 0;
  ort := nullptr; provider_names := [];
  env := nullptr; session_options := nullptr; session := nullptr;
  input_name := EmptyString; output_name := EmptyString;
  input_data := []; calls := []
|}.

Definition set_input_w (v : Z) (g : globals) : globals :=
  {| input_w := v; input_h := input_h g; n_pixels := n_pixels g; ort := ort g;
     provider_names := provider_names g; env := env g;
     session_options := session_options g; session := session g;
     input_name := input_name g; output_name := output_name g;
     input_data := input_data g; calls := calls g |}.

Definition set_input_h (v : Z) (g : globals) : globals :=
  {| input_w := input_w g; input_h := v; n_pixels := n_pixels g; ort := ort g;
     provider_names := provider_names g; env := env g;
     session_options := session_options g; session := session g;
     input_name := input_name g; output_name := output_name g;
     input_data := input_data g; calls := calls g |}.

Definition set_n_pixels (v : Z) (g : globals) : globals :=
  {| input_w := input_w g; input_h := input_h g; n_pixels := v; ort := ort g;
     provider_names := provider_names g; env := env g;
     session_options := session_options g; session := session g;
     input_name := input_name g; output_name := output_name g;
     input_data := input_data g; calls := calls g |}.

Definition set_ort (v : ptr) (g : globals) : globals :=
  {| input_w := input_w g; input_h := input_h g; n_pixels := n_pixels g; ort := v;
     provider_names := provider_names g; env := env g;
     session_options := session_options g; session := session g;
     input_name := input_name g; output_name := output_name g;
     input_data := input_data g; calls := calls g |}.

Definition set_provider_names (v : list string) (g : globals) : globals :=
  {| input_w := input_w g; input_h := input_h g; n_pixels := n_pixels g; ort := ort g;
     provider_names := v; env := env g;
     session_options := session_options g; session := session g;
     input_name := input_name g; output_name := output_name g;
     input_data := input_data g; calls := calls g |}.

Definition set_env (v : ptr) (g : globals) : globals :=
  {| input_w := input_w g; input_h := input_h g; n_pixels := n_pixels g; ort := ort g;
     provider_names := provider_names g; env := v;
     session_options := session_options g; session := session g;
     input_name := input_name g; output_name := output_name g;
     input_data := input_data g; calls := calls g |}.

Definition set_session_options (v : ptr) (g : globals) : globals :=
  {| input_w := input_w g; input_h := input_h g; n_pixels := n_pixels g; ort := ort g;
     provider_names := provider_names g; env := env g;
     session_options := v; session := session g;
     input_name := input_name g; output_name := output_name g;
     input_data := input_data g; calls := calls g |}.

Definition set_session (v : ptr) (g : globals) : globals :=
  {| input_w := input_w g; input_h := input_h g; n_pixels := n_pixels g; ort := ort g;
     provider_names := provider_names g; env := env g;
     session_options := session_options g; session := v;
     input_name := input_name g; output_name := output_name g;
     input_data := input_data g; calls := calls g |}.

Definition set_input_name (v : string) (g : globals) : globals :=
  {| input_w := input_w g; input_h := input_h g; n_pixels := n_pixels g; ort := ort g;
     provider_names := provider_names g; env := env g;
     session_options := session_options g; session := session g;
     input_name := v; output_name := output_name g;
     input_data := input_data g; calls := calls g |}.

Definition set_output_name (v : string) (g : globals) : globals :=
  {| input_w := input_w g; input_h := input_h g; n_pixels := n_pixels g; ort := ort g;
     provider_names := provider_names g; env := env g;
     session_options := session_options g; session := session g;
     input_name := input_name g; output_name := v;
     input_data := input_data g; calls := calls g |}.

Definition set_input_data (v : list float) (g : globals) : globals :=
  {| input_w := input_w g; input_h := input_h g; n_pixels := n_pixels g; ort := ort g;
     provider_names := provider_names g; env := env g;
     session_options := session_options g; session := session g;
     input_name := input_name g; output_name := output_name g;
     input_data := v; calls := calls g |}.

Definition set_calls (v : list ort_call) (g : globals) : globals :=
  {| input_w := input_w g; input_h := input_h g; n_pixels := n_pixels g; ort := ort g;
     provider_names := provider_names g; env := env g;
     session_options := session_options g; session := session g;
     input_name := input_name g; output_name := output_name g;
     input_data := input_data g; calls := v |}.

(** A call through the API table: [ort->f(...)]. *)
Definition via_ort (c : ort_call) : M globals unit :=
  fun g =>
    if is_null (ort g) then Undefined NullDereference
    else Normal tt (set_calls (calls g ++ [c]) g).

(** A call of a function the runtime exports by name. *)
Definition direct (c : ort_call) : M globals unit :=
  modify (fun g => set_calls (calls g ++ [c]) g).

(** *** InitOrtAPI *)

Record init_world : Type := {
  api : ptr;                          (* OrtGetApiBase()->GetApi(ORT_API_VERSION) *)
  available_providers : list string   (* raw_provider_names[0 .. provider_count) *)
}.

Definition InitOrtAPI (w : init_world) : M globals unit :=
  modify (set_ort (api w)) ;;
  via_ort GetAvailableProviders ;;
  modify (set_provider_names (available_providers w)).

(** *** GetProviderCount *)
Definition GetProviderCount (g : globals) : Z :=
  to_int (Z.of_nat (length (provider_names g))).

(** *** GetProviderName: [None] is the returned [nullptr]. *)
Definition GetProviderName (g : globals) (index : Z) : option string :=
  if (0 <=? index) && (to_size_t index <? Z.of_nat (length (provider_names g)))
  then provider_names g !! Z.to_nat index
  else None.

(** *** FreeResources *)
Definition FreeResources : M globals unit :=
  s <- gets session ;;
  (if is_null s then ret tt else via_ort (ReleaseSession s)) ;;
  e <- gets env ;;
  (if is_null e then ret tt else via_ort (ReleaseEnv e)).

(** *** LoadModel *)

(** What the runtime, the allocator and the standard library contribute to
    one call of [LoadModel]. *)
Record load_world : Type := {
  new_env : ptr;                       (* left in [env] by CreateEnv *)
  new_session_options : ptr;           (* left in [session_options] by CreateSessionOptions *)
  new_session : ptr;                   (* left in [session] by CreateSession *)
  model_input_name : option string;    (* left in [temp_input_name], if anything *)
  model_output_name : option string;   (* left in [temp_output_name], if anything *)
  allocation_succeeds : bool;          (* can the vector grow *)
  dml_iterated_first : bool            (* iteration order of the unordered_map *)
}.

Definition stringToWstring (str : string) : string := str.

(** The lambda stored under the key "Dml". *)
Definition dml_settings : M globals unit :=
  o <- gets session_options ;;
  via_ort (DisableMemPattern o) ;;
  via_ort (SetSessionExecutionMode o ORT_SEQUENTIAL) ;;
  direct (OrtSessionOptionsAppendExecutionProvider_DML o 0).

(** The lambda stored under the key "CPU". *)
Definition cpu_settings : M globals unit := ret tt.

(** The map, as the sequence of pairs its iteration yields. *)
Definition execution_provider_actions (w : load_world)
  : list (string * M globals unit) :=
  if dml_iterated_first w
  then [("Dml"%string, dml_settings); ("CPU"%string, cpu_settings)]
  else [("CPU"%string, cpu_settings); ("Dml"%string, dml_settings)].

(** The loop over the map: the first key found in [provider_name] has its
    action run, and the loop breaks. *)
Fixpoint apply_settings (provider_name : string)
    (actions : list (string * M globals unit)) : M globals bool :=
  match actions with
  | [] => ret false
  | (key, action) :: rest =>
      if contains provider_name key then action ;; ret true
      else apply_settings provider_name rest
  end.

(** [input_data.resize(n)] for an [int] n. *)
Definition resize_input_data (w : load_world) (n : Z) : M globals unit :=
  let newsize := to_size_t n in
  v <- gets input_data ;;
  if vector_max_size <? newsize then throw length_error
  else if newsize <=? Z.of_nat (length v) then modify (set_input_data (resized newsize v))
  else if allocation_succeeds w then modify (set_input_data (resized newsize v))
  else throw bad_alloc.

Definition LoadModel (w : load_world) (model_path execution_provider : string)
    (image_dims : Z * Z) : M globals c_string :=
  try_catch (
    let instance_name := "inference-session"%string in
    via_ort (CreateEnv ORT_LOGGING_LEVEL_WARNING instance_name (new_env w)) ;;
    modify (set_env (new_env w)) ;;
    e <- gets env ;;
    via_ort (DisableTelemetryEvents e) ;;
    via_ort (CreateSessionOptions (new_session_options w)) ;;
    modify (set_session_options (new_session_options w)) ;;
    let provider_name := execution_provider in
    action_taken <- apply_settings provider_name (execution_provider_actions w) ;;
    if negb action_taken then ret (literal "Unknown execution provider specified.")
    else
      e <- gets env ;;
      o <- gets session_options ;;
      via_ort (CreateSession e (stringToWstring model_path) o (new_session w)) ;;
      modify (set_session (new_session w)) ;;
      via_ort (ReleaseSessionOptions o) ;;
      s <- gets session ;;
      via_ort (SessionGetInputName s 0) ;;
      match model_input_name w with
      | None => undefined UninitializedRead
      | Some temp_input_name =>
          modify (set_input_name temp_input_name) ;;
          via_ort (SessionGetOutputName s 0) ;;
          match model_output_name w with
          | None => undefined UninitializedRead
          | Some temp_output_name =>
              modify (set_output_name temp_output_name) ;;
              modify (set_input_w (fst image_dims)) ;;
              modify (set_input_h (snd image_dims)) ;;
              iw <- gets input_w ;;
              ih <- gets input_h ;;
              n <- int_mul iw ih ;;
              modify (set_n_pixels n) ;;
              size <- int_mul n n_channels ;;
              resize_input_data w size ;;
              ret (literal "Model loaded successfully.")
          end
      end).

(** *** PerformInference *)

Record run_world : Type := {
  new_memory_info : ptr;                     (* left by CreateCpuMemoryInfo *)
  new_input_tensor : ptr;                    (* left in [input_tensor] *)
  new_output_tensor : ptr;                   (* left in [output_tensor] by Run *)
  output_tensor_data : option (list float)   (* the memory [out_data] is pointed at *)
}.

(** The assignment in the inner loop:
    [input_data[ch * n_pixels + p] = image_data[p * n_channels + ch] / 255.0f]. *)
Definition preprocess_channel (image_data : list byte) (p ch : Z) : M globals unit :=
  x <- int_mul p n_channels ;;
  src <- int_add x ch ;;
  b <- read_at image_data src ;;
  n <- gets n_pixels ;;
  y <- int_mul ch n ;;
  dst <- int_add y p ;;
  v <- gets input_data ;;
  match write_at v dst (normalize b) with
  | Some v' => modify (set_input_data v')
  | None => undefined OutOfBounds
  end.

(** The inner loop: the three channels of pixel [p]. *)
Definition preprocess_pixel (image_data : list byte) (p : Z) : M globals unit :=
  for_upto n_channels (preprocess_channel image_data p).

(** The outer loop. *)
Definition preprocess (image_data : list byte) : M globals unit :=
  n <- gets n_pixels ;;
  for_upto n (preprocess_pixel image_data).

(** The value is the content of [output_array] when the call returns. *)
Definition PerformInference (w : run_world) (image_data : list byte)
    (output_array : list float) (length : Z) : M globals (list float) :=
  preprocess image_data ;;
  iname <- gets input_name ;;
  oname <- gets output_name ;;
  ih <- gets input_h ;;
  iw <- gets input_w ;;
  let input_shape := [1; 3; ih; iw] in
  let memory_info := new_memory_info w in
  via_ort (CreateCpuMemoryInfo memory_info) ;;
  v <- gets input_data ;;
  let input_tensor := new_input_tensor w in
  via_ort (CreateTensorWithDataAsOrtValue memory_info v
             ((Z.of_nat (List.length v) * sizeof_float) mod SIZE_MODULUS)
             input_shape input_tensor) ;;
  via_ort (ReleaseMemoryInfo memory_info) ;;
  s <- gets session ;;
  let output_tensor := new_output_tensor w in
  via_ort (Run s [Some iname] [input_tensor] [Some oname] output_tensor) ;;
  if is_null output_tensor then
    via_ort (ReleaseValue input_tensor) ;;
    ret output_array
  else
    via_ort (GetTensorMutableData output_tensor) ;;
    match output_tensor_data w with
    | None => undefined UninitializedRead
    | Some out_data =>
        copied <- memcpy output_array out_data
                    ((to_size_t length * sizeof_float) mod SIZE_MODULUS) ;;
        via_ort (ReleaseValue input_tensor) ;;
        via_ort (ReleaseValue output_tensor) ;;
        ret copied
    end.

End CVPlugin.

(** * UnityOnnxYOLOXDetectorPlugin/dllmain.cpp *)
Module YOLOXPlugin.

(** What a [float*] obtained from [malloc] designates. *)
Inductive block : Type :=
| null_block
| allocated (cells : list float)
| freed.

Record globals : Type := {
  input_w : Z;
  input_h : Z;
  n_pixels : Z;
  ort : ptr;
  provider_names : option (list string);   (* [None]: the null [char**] *)
  provider_count : Z;
  env : ptr;
  session_options : ptr;
  session : ptr;
  input_name : option string;
  output_name : option string;
  input_data : block;
  input_size : Z;
  calls : list ort_call
}.

(** [int n_channels = 3;] is never assigned. *)
Definition n_channels : Z := 3.

(** Static initialisation: every global without an initialiser is zeroed. *)
Definition initial : globals := {|
  input_w := 0; input_h := 0; n_pixels := 0;
  ort := nullptr; provider_names := None; provider_count := 0;
  env := nullptr; session_options := nullptr; session := nullptr;
  input_name := None; output_name := None;
  input_data := null_block; input_size := 0; calls := []
|}.

Definition set_input_w (v : Z) (g : globals) : globals :=
  {| input_w := v; input_h := input_h g; n_pixels := n_pixels g; ort := ort g;
     provider_names := provider_names g; provider_count := provider_count g;
     env := env g; session_options := session_options g; session := session g;
     input_name := input_name g; output_name := output_name g;
     input_data := input_data g; input_size := input_size g; calls := calls g |}.

Definition set_input_h (v : Z) (g : globals) : globals :=
  {| input_w := input_w g; input_h := v; n_pixels := n_pixels g; ort := ort g;
     provider_names := provider_names g; provider_count := provider_count g;
     env := env g; session_options := session_options g; session := session g;
     input_name := input_name g; output_name := output_name g;
     input_data := input_data g; input_size := input_size g; calls := calls g |}.

Definition set_n_pixels (v : Z) (g : globals) : globals :=
  {| input_w := input_w g; input_h := input_h g; n_pixels := v; ort := ort g;
     provider_names := provider_names g; provider_count := provider_count g;
     env := env g; session_options := session_options g; session := session g;
     input_name := input_name g; output_name := output_name g;
     input_data := input_data g; input_size := input_size g; calls := calls g |}.

Definition set_ort (v : ptr) (g : globals) : globals :=
  {| input_w := input_w g; input_h := input_h g; n_pixels := n_pixels g; ort := v;
     provider_names := provider_names g; provider_count := provider_count g;
     env := env g; session_options := session_options g; session := session g;
     input_name := input_name g; output_name := output_name g;
     input_data := input_data g; input_size := input_size g; calls := calls g |}.

Definition set_providers (names : list string) (count : Z) (g : globals) : globals :=
  {| input_w := input_w g; input_h := input_h g; n_pixels := n_pixels g; ort := ort g;
     provider_names := Some names; provider_count := count;
     env := env g; session_options := session_options g; session := session g;
     input_name := input_name g; output_name := output_name g;
     input_data := input_data g; input_size := input_size g; calls := calls g |}.

Definition set_env (v : ptr) (g : globals) : globals :=
  {| input_w := input_w g; input_h := input_h g; n_pixels := n_pixels g; ort := ort g;
     provider_names := provider_names g; provider_count := provider_count g;
     env := v; session_options := session_options g; session := session g;
     input_name := input_name g; output_name := output_name g;
     input_data := input_data g; input_size := input_size g; calls := calls g |}.

Definition set_session_options (v : ptr) (g : globals) : globals :=
  {| input_w := input_w g; input_h := input_h g; n_pixels := n_pixels g; ort := ort g;
     provider_names := provider_names g; provider_count := provider_count g;
     env := env g; session_options := v; session := session g;
     input_name := input_name g; output_name := output_name g;
     input_data := input_data g; input_size := input_size g; calls := calls g |}.

Definition set_session (v : ptr) (g : globals) : globals :=
  {| input_w := input_w g; input_h := input_h g; n_pixels := n_pixels g; ort := ort g;
     provider_names := provider_names g; provider_count := provider_count g;
     env := env g; session_options := session_options g; session := v;
     input_name := input_name g; output_name := output_name g;
     input_data := input_data g; input_size := input_size g; calls := calls g |}.

Definition set_input_name (v : option string) (g : globals) : globals :=
  {| input_w := input_w g; input_h := input_h g; n_pixels := n_pixels g; ort := ort g;
     provider_names := provider_names g; provider_count := provider_count g;
     env := env g; session_options := session_options g; session := session g;
     input_name := v; output_name := output_name g;
     input_data := input_data g; input_size := input_size g; calls := calls g |}.

Definition set_output_name (v : option string) (g : globals) : globals :=
  {| input_w := input_w g; input_h := input_h g; n_pixels := n_pixels g; ort := ort g;
     provider_names := provider_names g; provider_count := provider_count g;
     env := env g; session_options := session_options g; session := session g;
     input_name := input_name g; output_name := v;
     input_data := input_data g; input_size := input_size g; calls := calls g |}.

Definition set_input_data (v : block) (g : globals) : globals :=
  {| input_w := input_w g; input_h := input_h g; n_pixels := n_pixels g; ort := ort g;
     provider_names := provider_names g; provider_count := provider_count g;
     env := env g; session_options := session_options g; session := session g;
     input_name := input_name g; output_name := output_name g;
     input_data := v; input_size := input_size g; calls := calls g |}.

Definition set_input_size (v : Z) (g : globals) : globals :=
  {| input_w := input_w g; input_h := input_h g; n_pixels := n_pixels g; ort := ort g;
     provider_names := provider_names g; provider_count := provider_count g;
     env := env g; session_options := session_options g; session := session g;
     input_name := input_name g; output_name := output_name g;
     input_data := input_data g; input_size := v; calls := calls g |}.

Definition set_calls (v : list ort_call) (g : globals) : globals :=
  {| input_w := input_w g; input_h := input_h g; n_pixels := n_pixels g; ort := ort g;
     provider_names := provider_names g; provider_count := provider_count g;
     env := env g; session_options := session_options g; session := session g;
     input_name := input_name g; output_name := output_name g;
     input_data := input_data g; input_size := input_size g; calls := v |}.

Definition via_ort (c : ort_call) : M globals unit :=
  fun g =>
    if is_null (ort g) then Undefined NullDereference
    else Normal tt (set_calls (calls g ++ [c]) g).

Definition direct (c : ort_call) : M globals unit :=
  modify (fun g => set_calls (calls g ++ [c]) g).

(** [free(input_data)] *)
Definition free_input_data : M globals unit :=
  b <- gets input_data ;;
  match b with
  | null_block => ret tt
  | allocated _ => modify (set_input_data freed)
  | freed => undefined UseAfterFree
  end.

(** *** InitOrtAPI *)

Record init_world : Type := {
  api : ptr;
  available_providers : list string
}.

Definition InitOrtAPI (w : init_world) : M globals unit :=
  modify (set_ort (api w)) ;;
  via_ort GetAvailableProviders ;;
  modify (set_providers (available_providers w)
            (Z.of_nat (length (available_providers w)))).

(** *** GetProviderCount *)
Definition GetProviderCount (g : globals) : Z := provider_count g.

(** *** GetProviderName: the element is read with no test on [index]. *)
Definition GetProviderName (index : Z) : M globals string :=
  names <- gets provider_names ;;
  match names with
  | None => undefined NullDereference
  | Some l => read_at l index
  end.

(** *** RefreshMemory *)
Definition RefreshMemory : M globals unit :=
  b <- gets input_data ;;
  (match b with null_block => ret tt | _ => free_input_data end) ;;
  s <- gets session ;;
  (if is_null s then ret tt else via_ort (ReleaseSession s)) ;;
  e <- gets env ;;
  (if is_null e then ret tt else via_ort (ReleaseEnv e)).

(** *** FreeResources *)
Definition FreeResources : M globals unit :=
  free_input_data ;;
  s <- gets session ;;
  via_ort (ReleaseSession s) ;;
  e <- gets env ;;
  via_ort (ReleaseEnv e).

(** *** LoadModel *)

Record load_world : Type := {
  new_env : ptr;                       (* left in [env] by CreateEnv *)
  new_session_options : ptr;           (* left in [session_options] *)
  new_session : ptr;                   (* left in [session] by CreateSession *)
  model_input_name : option string;    (* stored in [input_name], if anything *)
  model_output_name : option string;   (* stored in [output_name], if anything *)
  malloc_succeeds : bool;
  junk : nat -> float                  (* what a fresh block happens to hold *)
}.

Definition charToWChar (text : string) : string := text.

(** [malloc(bytes)] followed by [if (input_data != NULL) memset(input_data, 0, count)]. *)
Definition malloc_and_clear (w : load_world) (bytes count : Z) : M globals unit :=
  if malloc_succeeds w then
    let cells := map (junk w) (seq 0 (Z.to_nat (bytes / sizeof_float))) in
    if count <=? bytes then
      let cleared := Z.to_nat (count / sizeof_float) in
      modify (set_input_data
                (allocated (replicate cleared float_zero ++ drop cleared cells)))
    else undefined OutOfBounds
  else modify (set_input_data null_block).

(** The value is the returned [int]. *)
Definition LoadModel (w : load_world) (model_path execution_provider : string)
    (image_dims : Z * Z) : M globals Z :=
  let return_val := 0 in
  let instance_name := "yolox-inference"%string in
  via_ort (CreateEnv ORT_LOGGING_LEVEL_WARNING instance_name (new_env w)) ;;
  modify (set_env (new_env w)) ;;
  e <- gets env ;;
  via_ort (DisableTelemetryEvents e) ;;
  via_ort (CreateSessionOptions (new_session_options w)) ;;
  modify (set_session_options (new_session_options w)) ;;
  let provider_name := execution_provider in
  return_val <-
    (if contains provider_name "CPU" then ret 1
     else if contains provider_name "Dml" then
       o <- gets session_options ;;
       via_ort (DisableMemPattern o) ;;
       via_ort (SetSessionExecutionMode o ORT_SEQUENTIAL) ;;
       direct (OrtSessionOptionsAppendExecutionProvider_DML o 0) ;;
       ret return_val
     else ret 1) ;;
  e <- gets env ;;
  o <- gets session_options ;;
  via_ort (CreateSession e (charToWChar model_path) o (new_session w)) ;;
  modify (set_session (new_session w)) ;;
  via_ort (ReleaseSessionOptions o) ;;
  s <- gets session ;;
  via_ort (SessionGetInputName s 0) ;;
  (match model_input_name w with
   | Some name => modify (set_input_name (Some name))
   | None => ret tt
   end) ;;
  via_ort (SessionGetOutputName s 0) ;;
  (match model_output_name w with
   | Some name => modify (set_output_name (Some name))
   | None => ret tt
   end) ;;
  modify (set_input_w (fst image_dims)) ;;
  modify (set_input_h (snd image_dims)) ;;
  iw <- gets input_w ;;
  ih <- gets input_h ;;
  n <- int_mul iw ih ;;
  modify (set_n_pixels n) ;;
  x <- int_mul n n_channels ;;
  size <- int_mul x sizeof_float ;;
  modify (set_input_size size) ;;
  malloc_and_clear w ((to_size_t size * sizeof_pointer) mod SIZE_MODULUS)
                     (to_size_t size) ;;
  ret return_val.

(** *** PerformInference *)

Record run_world : Type := {
  new_memory_info : ptr;
  new_input_tensor : ptr;
  new_output_tensor : ptr;
  output_dimensions : Z;                     (* left in [output_length[0]] *)
  output_tensor_data : option (list float)
}.

(** [input_data[i] = x] *)
Definition store_input_data (i : Z) (x : float) : M globals unit :=
  b <- gets input_data ;;
  match b with
  | null_block => undefined NullDereference
  | freed => undefined UseAfterFree
  | allocated cells =>
      match write_at cells i x with
      | Some cells' => modify (set_input_data (allocated cells'))
      | None => undefined OutOfBounds
      end
  end.

Definition preprocess_channel (image_data : list byte) (p ch : Z) : M globals unit :=
  x <- int_mul p n_channels ;;
  src <- int_add x ch ;;
  b <- read_at image_data src ;;
  n <- gets n_pixels ;;
  y <- int_mul ch n ;;
  dst <- int_add y p ;;
  store_input_data dst (normalize b).

Definition preprocess_pixel (image_data : list byte) (p : Z) : M globals unit :=
  for_upto n_channels (preprocess_channel image_data p).

Definition preprocess (image_data : list byte) : M globals unit :=
  n <- gets n_pixels ;;
  for_upto n (preprocess_pixel image_data).

(** The part of the block that the input tensor is told about. *)
Definition tensor_view (b : block) (bytes : Z) : list float :=
  match b with
  | allocated cells => take (Z.to_nat (bytes / sizeof_float)) cells
  | _ => []
  end.

Definition PerformInference (w : run_world) (image_data : list byte)
    (output_array : list float) (length : Z) : M globals (list float) :=
  preprocess image_data ;;
  iname <- gets input_name ;;
  oname <- gets output_name ;;
  ih <- gets input_h ;;
  iw <- gets input_w ;;
  let input_shape := [1; 3; ih; iw] in
  let memory_info := new_memory_info w in
  via_ort (CreateCpuMemoryInfo memory_info) ;;
  b <- gets input_data ;;
  size <- gets input_size ;;
  let input_tensor := new_input_tensor w in
  via_ort (CreateTensorWithDataAsOrtValue memory_info
             (tensor_view b (to_size_t size)) (to_size_t size)
             input_shape input_tensor) ;;
  via_ort (ReleaseMemoryInfo memory_info) ;;
  s <- gets session ;;
  let output_tensor := new_output_tensor w in
  via_ort (Run s [iname] [input_tensor] [oname] output_tensor) ;;
  if is_null output_tensor then
    via_ort (ReleaseValue input_tensor) ;;
    via_ort (ReleaseValue output_tensor) ;;
    ret output_array
  else
    via_ort (GetTensorTypeAndShape output_tensor) ;;
    via_ort GetDimensionsCount ;;
    via_ort GetDimensions ;;
    (* [output_dims] has room for three dimensions *)
    if 3 <? output_dimensions w then undefined OutOfBounds
    else
      via_ort (GetTensorMutableData output_tensor) ;;
      match output_tensor_data w with
      | None => undefined UninitializedRead
      | Some out_data =>
          copied <- memcpy output_array out_data
                      ((to_size_t length * sizeof_float) mod SIZE_MODULUS) ;;
          via_ort (ReleaseValue input_tensor) ;;
          via_ort (ReleaseValue output_tensor) ;;
          ret copied
      end.

End YOLOXPlugin.

(** * A host driving the plugins *)

(** The host calls the exported functions one after the other, on one
    thread. *)
Module CVHost.
Import CVPlugin.

Inductive request : Type :=
| CallInitOrtAPI (w : init_world)
| CallGetProviderCount
| CallGetProviderName (index : Z)
| CallFreeResources
| CallLoadModel (w : load_world) (model_path execution_provider : string)
    (image_dims : Z * Z)
| CallPerformInference (w : run_world) (image_data : list byte)
    (output_array : list float) (length : Z).

Definition serve (r : request) : M globals unit :=
  match r with
  | CallInitOrtAPI w => InitOrtAPI w
  | CallGetProviderCount => n <- gets GetProviderCount ;; ret tt
  | CallGetProviderName index => name <- gets (fun g => GetProviderName g index) ;; ret tt
  | CallFreeResources => FreeResources
  | CallLoadModel w model_path execution_provider image_dims =>
      LoadModel w model_path execution_provider image_dims ;; ret tt
  | CallPerformInference w image_data output_array length =>
      PerformInference w image_data output_array length ;; ret tt
  end.

Fixpoint serve_all (rs : list request) : M globals unit :=
  match rs with
  | [] => ret tt
  | r :: rs' => serve r ;; serve_all rs'
  end.

Definition is_init (r : request) : bool :=
  match r with CallInitOrtAPI _ => true | _ => false end.

End CVHost.

Module YOLOXHost.
Import YOLOXPlugin.

Inductive request : Type :=
| CallInitOrtAPI (w : init_world)
| CallGetProviderCount
| CallGetProviderName (index : Z)
| CallRefreshMemory
| CallFreeResources
| CallLoadModel (w : load_world) (model_path execution_provider : string)
    (image_dims : Z * Z)
| CallPerformInference (w : run_world) (image_data : list byte)
    (output_array : list float) (length : Z).

Definition serve (r : request) : M globals unit :=
  match r with
  | CallInitOrtAPI w => InitOrtAPI w
  | CallGetProviderCount => n <- gets GetProviderCount ;; ret tt
  | CallGetProviderName index => GetProviderName index ;; ret tt
  | CallRefreshMemory => RefreshMemory
  | CallFreeResources => FreeResources
  | CallLoadModel w model_path execution_provider image_dims =>
      LoadModel w model_path execution_provider image_dims ;; ret tt
  | CallPerformInference w image_data output_array length =>
      PerformInference w image_data output_array length ;; ret tt
  end.

Fixpoint serve_all (rs : list request) : M globals unit :=
  match rs with
  | [] => ret tt
  | r :: rs' => serve r ;; serve_all rs'
  end.

Definition is_init (r : request) : bool :=
  match r with CallInitOrtAPI _ => true | _ => false end.

End YOLOXHost.

(** * Frame conditions *)

(** [m] leaves the component [f] of the state as it found it, whether it
    returns or throws. *)
Definition preserves {S A X : Type} (f : S -> X) (m : M S A) : Prop :=
  forall s,
    match m s with
    | Normal _ s' | Raised _ s' => f s' = f s
    | Undefined _ => True
    end.

(** The state an outcome ends in ([d] when there is none). *)
Definition final_state {S A : Type} (d : S) (o : outcome S A) : S :=
  match o with
  | Normal _ s | Raised _ s => s
  | Undefined _ => d
  end.

(** * The layout transform in closed form *)

(** The byte at index [i] of the image (a filler outside it, where the code
    does not read). *)
Definition byte_at (image : list byte) (i : Z) : byte :=
  default "000"%byte (image !! Z.to_nat i).

(** [image[p*3 + c] / 255.0]. *)
Definition channel_value (image : list byte) (p c : Z) : float :=
  normalize (byte_at image (p * 3 + c)).

(** The three stores made for pixel [p]. *)
Definition write_pixel (image : list byte) (n p : Z) (buf : list float) : list float :=
  <[Z.to_nat (2 * n + p) := channel_value image p 2]>
    (<[Z.to_nat (1 * n + p) := channel_value image p 1]>
       (<[Z.to_nat (0 * n + p) := channel_value image p 0]> buf)).

(** The stores made for the [count] pixels from [p] on. *)
Fixpoint fill (image : list byte) (n : Z) (count : nat) (p : Z) (buf : list float)
  : list float :=
  match count with
  | O => buf
  | Datatypes.S k => fill image n k (p + 1) (write_pixel image n p buf)
  end.

(** * The outcome of [LoadModel] in closed form *)

Module CVOutcome.
Import CVPlugin.

Definition success : c_string := literal "Model loaded successfully.".
Definition unknown : c_string := literal "Unknown execution provider specified.".

(** The calls every [LoadModel] starts with. *)
Definition prologue (w : load_world) : list ort_call :=
  [CreateEnv ORT_LOGGING_LEVEL_WARNING "inference-session" (new_env w);
   DisableTelemetryEvents (new_env w);
   CreateSessionOptions (new_session_options w)].

(** The calls of the "Dml" action on the options [o]. *)
Definition dml_calls (o : ptr) : list ort_call :=
  [DisableMemPattern o;
   SetSessionExecutionMode o ORT_SEQUENTIAL;
   OrtSessionOptionsAppendExecutionProvider_DML o 0].

(** The calls that create the session and fetch its names. *)
Definition session_calls (w : load_world) (path : string) : list ort_call :=
  [CreateSession (new_env w) path (new_session_options w) (new_session w);
   ReleaseSessionOptions (new_session_options w);
   SessionGetInputName (new_session w) 0;
   SessionGetOutputName (new_session w) 0].

(** The settings calls of the action that the loop over the map runs, or
    [None] when no key is found in the selector. *)
Definition selection (w : load_world) (provider_name : string)
  : option (list ort_call) :=
  let o := new_session_options w in
  let cpu := contains provider_name "CPU" in
  let dml := contains provider_name "Dml" in
  if dml_iterated_first w then
    if dml then Some (dml_calls o) else if cpu then Some [] else None
  else
    if cpu then Some [] else if dml then Some (dml_calls o) else None.

Definition LoadModel_outcome (w : load_world) (path prov : string)
    (dims : Z * Z) (g : globals) : outcome globals c_string :=
  if is_null (ort g) then Undefined NullDereference else
  let g1 := set_session_options (new_session_options w) (set_env (new_env w) g) in
  match selection w prov with
  | None => Normal unknown (set_calls (calls g ++ prologue w) g1)
  | Some settings =>
      match model_input_name w, model_output_name w with
      | Some iname, Some oname =>
          let log := calls g ++ prologue w ++ settings ++ session_calls w path in
          let n := fst dims * snd dims in
          if negb (in_int n) then Undefined SignedOverflow else
          if negb (in_int (n * 3)) then Undefined SignedOverflow else
          let g3 :=
            set_n_pixels n (set_input_h (snd dims) (set_input_w (fst dims)
              (set_output_name oname (set_input_name iname
                (set_calls log (set_session (new_session w) g1)))))) in
          let newsize := to_size_t (n * 3) in
          if vector_max_size <? newsize then Normal (what length_error) g3
          else if (newsize <=? Z.of_nat (length (input_data g)))
                  || allocation_succeeds w
          then Normal success (set_input_data (resized newsize (input_data g)) g3)
          else Normal (what bad_alloc) g3
      | _, _ => Undefined UninitializedRead
      end
  end.

(** The state in which inference may run: what a successful [LoadModel]
    with dimensions [(wd, ht)] establishes and [PerformInference] keeps. *)
Definition loaded (wd ht : Z) (g : globals) : Prop :=
  input_w g = wd /\ input_h g = ht /\ n_pixels g = wd * ht /\
  0 <= wd * ht * 3 <= INT_MAX /\
  length (input_data g) = Z.to_nat (wd * ht * 3).

(** The log shows at most one live environment and one live session. *)
Definition at_most_one_live (log : list ort_call) : Prop :=
  (length (live_envs log) <= 1)%nat /\ (length (live_sessions log) <= 1)%nat.

End CVOutcome.

Module YOLOXOutcome.
Import YOLOXPlugin.

Definition prologue (w : load_world) : list ort_call :=
  [CreateEnv ORT_LOGGING_LEVEL_WARNING "yolox-inference" (new_env w);
   DisableTelemetryEvents (new_env w);
   CreateSessionOptions (new_session_options w)].

Definition dml_calls (o : ptr) : list ort_call :=
  [DisableMemPattern o;
   SetSessionExecutionMode o ORT_SEQUENTIAL;
   OrtSessionOptionsAppendExecutionProvider_DML o 0].

Definition session_calls (w : load_world) (path : string) : list ort_call :=
  [CreateSession (new_env w) path (new_session_options w) (new_session w);
   ReleaseSessionOptions (new_session_options w);
   SessionGetInputName (new_session w) 0;
   SessionGetOutputName (new_session w) 0].

(** The returned value and the settings calls of the branch taken by the
    [if / else if / else] on the selector. *)
Definition selection (w : load_world) (provider_name : string) : Z * list ort_call :=
  if contains provider_name "CPU" then (1, [])
  else if contains provider_name "Dml" then (0, dml_calls (new_session_options w))
  else (1, []).

(** The block left by [malloc] and [memset] for [size] bytes requested as
    [size * sizeof(float* )]. *)
Definition fresh_block (w : load_world) (size : Z) : list float :=
  let bytes := (to_size_t size * sizeof_pointer) mod SIZE_MODULUS in
  let cells := map (junk w) (seq 0 (Z.to_nat (bytes / sizeof_float))) in
  let cleared := Z.to_nat (to_size_t size / sizeof_float) in
  replicate cleared float_zero ++ drop cleared cells.

Definition LoadModel_outcome (w : load_world) (path prov : string)
    (dims : Z * Z) (g : globals) : outcome globals Z :=
  if is_null (ort g) then Undefined NullDereference else
  let '(return_val, settings) := selection w prov in
  let log := calls g ++ prologue w ++ settings ++ session_calls w path in
  let iname := match model_input_name w with Some x => Some x | None => input_name g end in
  let oname := match model_output_name w with Some x => Some x | None => output_name g end in
  let n := fst dims * snd dims in
  if negb (in_int n) then Undefined SignedOverflow else
  if negb (in_int (n * 3)) then Undefined SignedOverflow else
  if negb (in_int (n * 3 * 4)) then Undefined SignedOverflow else
  let size := n * 3 * 4 in
  let g3 :=
    set_input_size size (set_n_pixels n (set_input_h (snd dims)
      (set_input_w (fst dims) (set_output_name oname (set_input_name iname
        (set_calls log (set_session (new_session w)
          (set_session_options (new_session_options w)
            (set_env (new_env w) g))))))))) in
  if malloc_succeeds w then
    if to_size_t size <=? (to_size_t size * sizeof_pointer) mod SIZE_MODULUS
    then Normal return_val (set_input_data (allocated (fresh_block w size)) g3)
    else Undefined OutOfBounds
  else Normal return_val (set_input_data null_block g3).

(** The state in which inference may run: the block is there and holds (at
    least) the [wd * ht * 3] cells that the input tensor covers. *)
Definition loaded (wd ht : Z) (g : globals) : Prop :=
  input_w g = wd /\ input_h g = ht /\ n_pixels g = wd * ht /\
  0 <= wd * ht * 3 /\ wd * ht * 3 * 4 <= INT_MAX /\
  input_size g = wd * ht * 3 * 4 /\
  exists cells, input_data g = allocated cells /\
                wd * ht * 3 <= Z.of_nat (length cells).

End YOLOXOutcome.

(** * Concrete runs *)

Module Examples.

Definition providers : list string :=
  ["DmlExecutionProvider"%string; "CPUExecutionProvider"%string].

Definition image_2x1 : list byte := ["a"; "b"; "c"; "d"; "e"; "f"]%byte.

Definition ones (k : nat) : list float := replicate k (float_of_int 1).

Module CV.
Import CVPlugin.

Definition runtime : init_world :=
  {| api := handle 1; available_providers := providers |}.

Definition first_load : load_world :=
  {| new_env := handle 2; new_session_options := handle 3;
     new_session := handle 4;
     model_input_name := Some "input"%string;
     model_output_name := Some "output"%string;
     allocation_succeeds := true; dml_iterated_first := false |}.

Definition second_load : load_world :=
  {| new_env := handle 5; new_session_options := handle 6;
     new_session := handle 7;
     model_input_name := Some "input"%string;
     model_output_name := Some "output"%string;
     allocation_succeeds := true; dml_iterated_first := false |}.

Definition dml_first_load : load_world :=
  {| new_env := handle 2; new_session_options := handle 3;
     new_session := handle 4;
     model_input_name := Some "input"%string;
     model_output_name := Some "output"%string;
     allocation_succeeds := true; dml_iterated_first := true |}.

Definition no_output : run_world :=
  {| new_memory_info := handle 8; new_input_tensor := handle 9;
     new_output_tensor := nullptr; output_tensor_data := None |}.

Definition some_output : run_world :=
  {| new_memory_info := handle 8; new_input_tensor := handle 9;
     new_output_tensor := handle 10;
     output_tensor_data := Some [float_zero; float_zero] |}.

(** The globals once [InitOrtAPI] has run. *)
Definition initialised : globals :=
  {| input_w := 0; input_h := 0; n_pixels := 0;
     ort := handle 1; provider_names := providers;
     env := nullptr; session_options := nullptr; session := nullptr;
     input_name := EmptyString; output_name := EmptyString;
     input_data := []; calls := [GetAvailableProviders] |}.

(** The globals once a 2x1 model has been loaded on the CPU. *)
Definition loaded_2x1 : globals :=
  {| input_w := 2; input_h := 1; n_pixels := 2;
     ort := handle 1; provider_names := providers;
     env := handle 2; session_options := handle 3; session := handle 4;
     input_name := "input"%string; output_name := "output"%string;
     input_data := replicate 6 float_zero;
     calls :=
       [GetAvailableProviders;
        CreateEnv ORT_LOGGING_LEVEL_WARNING "inference-session" (handle 2);
        DisableTelemetryEvents (handle 2);
        CreateSessionOptions (handle 3);
        CreateSession (handle 2) "model.onnx" (handle 3) (handle 4);
        ReleaseSessionOptions (handle 3);
        SessionGetInputName (handle 4) 0;
        SessionGetOutputName (handle 4) 0] |}.
End CV.

Module YOLOX.
Import YOLOXPlugin.

Definition runtime : init_world :=
  {| api := handle 1; available_providers := providers |}.

Definition first_load : load_world :=
  {| new_env := handle 2; new_session_options := handle 3;
     new_session := handle 4;
     model_input_name := Some "input"%string;
     model_output_name := Some "output"%string;
     malloc_succeeds := true; junk := fun _ => float_of_int 7 |}.

Definition second_load : load_world :=
  {| new_env := handle 5; new_session_options := handle 6;
     new_session := handle 7;
     model_input_name := Some "input"%string;
     model_output_name := Some "output"%string;
     malloc_succeeds := true; junk := fun _ => float_of_int 7 |}.

Definition no_output : run_world :=
  {| new_memory_info := handle 8; new_input_tensor := handle 9;
     new_output_tensor := nullptr; output_dimensions := 0;
     output_tensor_data := None |}.

Definition initialised : globals :=
  {| input_w := 0; input_h := 0; n_pixels := 0;
     ort := handle 1; provider_names := Some providers; provider_count := 2;
     env := nullptr; session_options := nullptr; session := nullptr;
     input_name := None; output_name := None;
     input_data := null_block; input_size := 0;
     calls := [GetAvailableProviders] |}.

(** The globals once a 2x1 model has been loaded with DirectML. *)
Definition loaded_2x1 : globals :=
  {| input_w := 2; input_h := 1; n_pixels := 2;
     ort := handle 1; provider_names := Some providers; provider_count := 2;
     env := handle 2; session_options := handle 3; session := handle 4;
     input_name := Some "input"%string; output_name := Some "output"%string;
     input_data :=
       allocated (replicate 6 float_zero ++ replicate 42 (float_of_int 7));
     input_size := 24;
     calls :=
       [GetAvailableProviders;
        CreateEnv ORT_LOGGING_LEVEL_WARNING "yolox-inference" (handle 2);
        DisableTelemetryEvents (handle 2);
        CreateSessionOptions (handle 3);
        DisableMemPattern (handle 3);
        SetSessionExecutionMode (handle 3) ORT_SEQUENTIAL;
        OrtSessionOptionsAppendExecutionProvider_DML (handle 3) 0;
        CreateSession (handle 2) "model.onnx" (handle 3) (handle 4);
        ReleaseSessionOptions (handle 3);
        SessionGetInputName (handle 4) 0;
        SessionGetOutputName (handle 4) 0] |}.
End YOLOX.

(** The two loaded states once the 2x1 image has been preprocessed. *)
Definition cv_preprocessed_2x1 : CVPlugin.globals :=
  Eval vm_compute in
    final_state CV.loaded_2x1 (CVPlugin.preprocess image_2x1 CV.loaded_2x1).

Definition yolox_preprocessed_2x1 : YOLOXPlugin.globals :=
  Eval vm_compute in
    final_state YOLOX.loaded_2x1 (YOLOXPlugin.preprocess image_2x1 YOLOX.loaded_2x1).

(** A second load, for 1x1, on top of the preprocessed state. *)
Definition cv_reloaded_1x1 : CVPlugin.globals :=
  Eval vm_compute in
    final_state CV.initialised
      (CVPlugin.LoadModel CV.second_load "model.onnx" "CPUExecutionProvider" (1, 1)
         cv_preprocessed_2x1).

(** The same load when the buffer held zeros. *)
Definition cv_reloaded_1x1_from_zeros : CVPlugin.globals :=
  Eval vm_compute in
    final_state CV.initialised
      (CVPlugin.LoadModel CV.second_load "model.onnx" "CPUExecutionProvider" (1, 1)
         (CVPlugin.set_input_data (replicate 6 float_zero) cv_preprocessed_2x1)).

(** A load with a negative width. *)
Definition cv_failed_load : CVPlugin.globals :=
  Eval vm_compute in
    final_state CV.initialised
      (CVPlugin.LoadModel CV.first_load "model.onnx" "CPUExecutionProvider" (-1, 1)
         CV.initialised).

(** A load with a selector that names both backends. *)
Definition cv_loaded_both : CVPlugin.globals :=
  Eval vm_compute in
    final_state CV.initialised
      (CVPlugin.LoadModel CV.first_load "model.onnx" "Dml,CPU" (2, 1) CV.initialised).

(** The same when the map yields "Dml" first. *)
Definition cv_loaded_both_dml_first : CVPlugin.globals :=
  Eval vm_compute in
    final_state CV.initialised
      (CVPlugin.LoadModel CV.dml_first_load "model.onnx" "Dml,CPU" (2, 1)
         CV.initialised).

(** The YOLOX plugin after a load with a selector that names both. *)
Definition yolox_loaded_both : YOLOXPlugin.globals :=
  Eval vm_compute in
    final_state YOLOX.initialised
      (YOLOXPlugin.LoadModel YOLOX.first_load "model.onnx" "Dml,CPU" (2, 1)
         YOLOX.initialised).

(** The YOLOX plugin after a load with a selector it does not know. *)
Definition yolox_loaded_unknown : YOLOXPlugin.globals :=
  Eval vm_compute in
    final_state YOLOX.initialised
      (YOLOXPlugin.LoadModel YOLOX.first_load "model.onnx" "TensorRT" (1, 1)
         YOLOX.initialised).

(** The YOLOX plugin loaded twice in a row. *)
Definition yolox_reloaded : YOLOXPlugin.globals :=
  Eval vm_compute in
    final_state YOLOX.initialised
      (YOLOXPlugin.LoadModel YOLOX.second_load "model.onnx" "DmlExecutionProvider"
         (1, 1) YOLOX.loaded_2x1).

End Examples.

(** "Divide by 255.0", said without the operations of the code: [x] is a
    single-precision number nearest to the quotient [num / den] of two
    integers, [num >= 0] and [den > 0].  For a zero numerator that is +0.
    Otherwise it is a positive normal number [m * 2^e], with [m] of 24 bits,
    that lies at most half a unit of its last place from the quotient:
    [2 * |den * m * 2^e - num| <= den * 2^e], both sides scaled by [2^k] to
    stay in the integers. *)
Definition is_rounded_quotient (x : float) (num den : Z) : bool :=
  match x with
  | S754_zero false => num =? 0
  | S754_finite false m e =>
      let k := Z.max 0 (- e) in
      (2 ^ 23 <=? Z.pos m) && (Z.pos m <? 2 ^ 24) &&
      (Z.abs (2 * (den * Z.pos m * 2 ^ (e + k) - num * 2 ^ k))
         <=? den * 2 ^ (e + k))
  | _ => false
  end.

(** The layout the specification asks of the preprocessing buffer, for an
    image of [n] pixels: [buf] has [n * 3] elements, the element at
    [c * n + p] is the byte at [p * 3 + c] of the image divided by 255 (the
    value the code computes for it, which is the single-precision number
    nearest to the quotient), and every element is at such an index. *)
Definition planar_layout (n : Z) (image : list byte) (buf : list float) : Prop :=
  length buf = Z.to_nat (n * 3) /\
  (forall p c, 0 <= p < n -> 0 <= c < 3 ->
     exists b, image !! Z.to_nat (p * 3 + c) = Some b /\
               buf !! Z.to_nat (c * n + p) = Some (normalize b) /\
               is_rounded_quotient (normalize b) (Z.of_N (Byte.to_N b)) 255
               = true) /\
  (forall j, (j < length buf)%nat ->
     exists p c, 0 <= p < n /\ 0 <= c < 3 /\ j = Z.to_nat (c * n + p)).

(** [PerformInference] on the image, from the state [g] loaded for
    [wd] x [ht]: the preprocessing loop runs to its end, the buffer it leaves
    is the one the rest of the call works with and leaves behind, and it has
    the planar layout. *)
Definition cv_transform_done (wd ht : Z) (g : CVPlugin.globals)
    (image : list byte) : Prop :=
  exists g1,
    CVPlugin.preprocess image g = Normal tt g1 /\
    (forall w out len r g2,
       CVPlugin.PerformInference w image out len g = Normal r g2 ->
       CVPlugin.input_data g2 = CVPlugin.input_data g1) /\
    planar_layout (wd * ht) image (CVPlugin.input_data g1).

(** The same for the YOLOX plugin, whose buffer is the part of the block
    that the input tensor is created over. *)
Definition yolox_transform_done (wd ht : Z) (g : YOLOXPlugin.globals)
    (image : list byte) : Prop :=
  exists g1,
    YOLOXPlugin.preprocess image g = Normal tt g1 /\
    (forall w out len r g2,
       YOLOXPlugin.PerformInference w image out len g = Normal r g2 ->
       YOLOXPlugin.input_data g2 = YOLOXPlugin.input_data g1) /\
    planar_layout (wd * ht) image
      (YOLOXPlugin.tensor_view (YOLOXPlugin.input_data g1)
         (to_size_t (YOLOXPlugin.input_size g1))).

(** The calls [PerformInference] makes from the preprocessed state [g1] up
    to and including [Run]. *)
Definition cv_calls_until_run (w : CVPlugin.run_world) (g1 : CVPlugin.globals)
  : list ort_call :=
  [CreateCpuMemoryInfo (CVPlugin.new_memory_info w);
   CreateTensorWithDataAsOrtValue (CVPlugin.new_memory_info w)
     (CVPlugin.input_data g1)
     ((Z.of_nat (length (CVPlugin.input_data g1)) * sizeof_float) mod SIZE_MODULUS)
     [1; 3; CVPlugin.input_h g1; CVPlugin.input_w g1]
     (CVPlugin.new_input_tensor w);
   ReleaseMemoryInfo (CVPlugin.new_memory_info w);
   Run (CVPlugin.session g1) [Some (CVPlugin.input_name g1)]
     [CVPlugin.new_input_tensor w] [Some (CVPlugin.output_name g1)]
     (CVPlugin.new_output_tensor w)].

Definition yolox_calls_until_run (w : YOLOXPlugin.run_world)
    (g1 : YOLOXPlugin.globals) : list ort_call :=
  [CreateCpuMemoryInfo (YOLOXPlugin.new_memory_info w);
   CreateTensorWithDataAsOrtValue (YOLOXPlugin.new_memory_info w)
     (YOLOXPlugin.tensor_view (YOLOXPlugin.input_data g1)
        (to_size_t (YOLOXPlugin.input_size g1)))
     (to_size_t (YOLOXPlugin.input_size g1))
     [1; 3; YOLOXPlugin.input_h g1; YOLOXPlugin.input_w g1]
     (YOLOXPlugin.new_input_tensor w);
   ReleaseMemoryInfo (YOLOXPlugin.new_memory_info w);
   Run (YOLOXPlugin.session g1) [YOLOXPlugin.input_name g1]
     [YOLOXPlugin.new_input_tensor w] [YOLOXPlugin.output_name g1]
     (YOLOXPlugin.new_output_tensor w)].

(** * The claims about [LoadModel] as the specification words them *)

Module AsStated.

(** "Resizes it exactly, discarding old contents": the buffer a successful
    load leaves does not depend on what the buffer held before. *)
Definition cv_load_discards_old_contents (w : CVPlugin.load_world)
    (path prov : string) (dims : Z * Z) (g : CVPlugin.globals) : Prop :=
  forall old g1 g2,
    CVPlugin.LoadModel w path prov dims g = Normal CVOutcome.success g1 ->
    CVPlugin.LoadModel w path prov dims (CVPlugin.set_input_data old g)
      = Normal CVOutcome.success g2 ->
    CVPlugin.input_data g2 = CVPlugin.input_data g1.

(** "For every call that fails, the Session remains unset". *)
Definition cv_failed_load_leaves_session_unset (w : CVPlugin.load_world)
    (path prov : string) (dims : Z * Z) (g : CVPlugin.globals) : Prop :=
  forall r g',
    CVPlugin.LoadModel w path prov dims g = Normal r g' ->
    r <> CVOutcome.success ->
    CVPlugin.session g' = nullptr.

(** "At every point at most one ExecutionEnvironment and one Session handle
    are live": in particular once a load has returned. *)
Definition cv_load_keeps_one_live (w : CVPlugin.load_world)
    (path prov : string) (dims : Z * Z) (g : CVPlugin.globals) : Prop :=
  forall r g',
    CVPlugin.LoadModel w path prov dims g = Normal r g' ->
    CVOutcome.at_most_one_live (CVPlugin.calls g').

End AsStated.

(** The calls that set flags on session options. *)
Definition is_setting (c : ort_call) : bool :=
  match c with
  | DisableMemPattern _
  | SetSessionExecutionMode _ _
  | OrtSessionOptionsAppendExecutionProvider_DML _ _ => true
  | _ => false
  end.

(** The settings among the calls made between the log [before] and the
    log [after]. *)
Definition settings_applied (before after : list ort_call) : list ort_call :=
  List.filter is_setting (drop (length before) after).

(** "Every Load whose selector matches CPU applies no accelerated-path
    flags, and every Load whose selector matches Dml applies exactly the
    three flags", for a load that took the log from [before] to [after]
    with the session options [o]. *)
Definition configuration_by_match (provider_name : string) (o : ptr)
    (before after : list ort_call) : Prop :=
  (contains provider_name "CPU" = true -> settings_applied before after = []) /\
  (contains provider_name "Dml" = true ->
   settings_applied before after =
     [DisableMemPattern o; SetSessionExecutionMode o ORT_SEQUENTIAL;
      OrtSessionOptionsAppendExecutionProvider_DML o 0]).

Definition cv_configuration_by_match (w : CVPlugin.load_world)
    (path prov : string) (dims : Z * Z) (g : CVPlugin.globals) : Prop :=
  forall r g',
    CVPlugin.LoadModel w path prov dims g = Normal r g' ->
    configuration_by_match prov (CVPlugin.new_session_options w)
      (CVPlugin.calls g) (CVPlugin.calls g').

Definition yolox_configuration_by_match (w : YOLOXPlugin.load_world)
    (path prov : string) (dims : Z * Z) (g : YOLOXPlugin.globals) : Prop :=
  forall r g',
    YOLOXPlugin.LoadModel w path prov dims g = Normal r g' ->
    configuration_by_match prov (YOLOXPlugin.new_session_options w)
      (YOLOXPlugin.calls g) (YOLOXPlugin.calls g').

(** * Further concrete runs *)

Module MoreExamples.

(** A run of the YOLOX runtime in which the output tensor is there. *)
Definition yolox_some_output : YOLOXPlugin.run_world :=
  {| YOLOXPlugin.new_memory_info := handle 8;
     YOLOXPlugin.new_input_tensor := handle 9;
     YOLOXPlugin.new_output_tensor := handle 10;
     YOLOXPlugin.output_dimensions := 3;
     YOLOXPlugin.output_tensor_data := Some [float_zero; float_zero] |}.

(** A load of the CV plugin in which the vector cannot grow. *)
Definition cv_no_memory : CVPlugin.load_world :=
  {| CVPlugin.new_env := handle 2; CVPlugin.new_session_options := handle 3;
     CVPlugin.new_session := handle 4;
     CVPlugin.model_input_name := Some "input"%string;
     CVPlugin.model_output_name := Some "output"%string;
     CVPlugin.allocation_succeeds := false;
     CVPlugin.dml_iterated_first := false |}.

Definition cv_out_of_memory : CVPlugin.globals :=
  Eval vm_compute in
    final_state Examples.CV.initialised
      (CVPlugin.LoadModel cv_no_memory "model.onnx" "CPUExecutionProvider" (2, 1)
         Examples.CV.initialised).

(** A load of the YOLOX plugin in which [malloc] returns null. *)
Definition yolox_no_memory : YOLOXPlugin.load_world :=
  {| YOLOXPlugin.new_env := handle 2; YOLOXPlugin.new_session_options := handle 3;
     YOLOXPlugin.new_session := handle 4;
     YOLOXPlugin.model_input_name := Some "input"%string;
     YOLOXPlugin.model_output_name := Some "output"%string;
     YOLOXPlugin.malloc_succeeds := false;
     YOLOXPlugin.junk := fun _ => float_of_int 7 |}.

End MoreExamples.

(** The calls [PerformInference] of the CV plugin makes after [Run] when the
    output tensor is there. *)
Definition cv_calls_after_run (w : CVPlugin.run_world) : list ort_call :=
  [GetTensorMutableData (CVPlugin.new_output_tensor w);
   ReleaseValue (CVPlugin.new_input_tensor w);
   ReleaseValue (CVPlugin.new_output_tensor w)].

Definition yolox_calls_after_run (w : YOLOXPlugin.run_world) : list ort_call :=
  [GetTensorTypeAndShape (YOLOXPlugin.new_output_tensor w);
   GetDimensionsCount;
   GetDimensions;
   GetTensorMutableData (YOLOXPlugin.new_output_tensor w);
   ReleaseValue (YOLOXPlugin.new_input_tensor w);
   ReleaseValue (YOLOXPlugin.new_output_tensor w)].

(** The release calls the guards of [FreeResources] let through. *)
Definition guarded_releases (s e : ptr) : list ort_call :=
  (if is_null s then [] else [ReleaseSession s])
  ++ (if is_null e then [] else [ReleaseEnv e]).

(** The environments and sessions a log shows as live. *)
Definition live_handles (log : list ort_call) : list ptr * list ptr :=
  (live_envs log, live_sessions log).

(** The number of cells of the block that [input_data] of the YOLOX plugin
    points to, when it points to one. *)
Definition yolox_capacity (g : YOLOXPlugin.globals) : option nat :=
  match YOLOXPlugin.input_data g with
  | YOLOXPlugin.allocated cells => Some (length cells)
  | _ => None
  end.

(** A call that neither creates nor releases an environment or a session. *)
Definition is_neutral (c : ort_call) : bool :=
  match c with
  | CreateEnv _ _ _ | CreateSession _ _ _ _ | ReleaseSession _ | ReleaseEnv _ => false
  | _ => true
  end.

(** Comparisons of [float] values. *)
Definition float_le (x y : float) : bool := SFleb x y.
Definition float_lt (x y : float) : bool := SFltb x y.

(** [n / 255.0f] for the value [n] of a byte. *)
Definition normalize_value (n : N) : float :=
  float_div (float_of_int (Z.of_N n)) (float_of_int 255).

(** The 256 values the normalisation can produce, in the order of the bytes. *)
Definition normalized_values : list float :=
  Eval vm_compute in map (fun i => normalize_value (N.of_nat i)) (seq 0 256).

(** Every element is below all the elements after it. *)
Fixpoint increasing (l : list float) : bool :=
  match l with
  | [] => true
  | x :: rest => forallb (float_lt x) rest && increasing rest
  end.

(** * Properties *)

Section Layout.
Variable image : list byte.
Variable n : Z.

Lemma length_write_pixel p buf :
  length (write_pixel image n p buf) = length buf.
Proof. unfold write_pixel. by rewrite !length_insert. Qed.

Lemma length_fill k : forall p buf, length (fill image n k p buf) = length buf.
Proof.
  induction k as [|k IH]; intros p buf; simpl; [done|].
  by rewrite IH, length_write_pixel.
Qed.

Lemma write_pixel_other p buf (j : nat) :
  (forall c, 0 <= c < 3 -> j <> Z.to_nat (c * n + p)) ->
  write_pixel image n p buf !! j = buf !! j.
Proof.
  intros Hj. unfold write_pixel.
  rewrite !list_lookup_insert_ne; [done| | |];
    apply not_eq_sym, Hj; lia.
Qed.

Lemma fill_other k : forall p buf (j : nat),
  (forall q c, p <= q < p + Z.of_nat k -> 0 <= c < 3 -> j <> Z.to_nat (c * n + q)) ->
  fill image n k p buf !! j = buf !! j.
Proof.
  induction k as [|k IH]; intros p buf j Hj; simpl; [done|].
  rewrite IH.
  - apply write_pixel_other. intros c Hc. apply Hj; lia.
  - intros q c Hq Hc. apply Hj; lia.
Qed.

Lemma write_pixel_written p buf c :
  0 <= p < n -> 3 * n <= Z.of_nat (length buf) -> 0 <= c < 3 ->
  write_pixel image n p buf !! Z.to_nat (c * n + p) = Some (channel_value image p c).
Proof.
  intros Hp Hlen Hc. unfold write_pixel.
  assert (c = 0 \/ c = 1 \/ c = 2) as [-> | [-> | ->]] by lia.
  - rewrite !list_lookup_insert_ne by lia.
    apply list_lookup_insert_eq. lia.
  - rewrite list_lookup_insert_ne by lia.
    apply list_lookup_insert_eq. rewrite length_insert. lia.
  - apply list_lookup_insert_eq. rewrite !length_insert. lia.
Qed.

Lemma fill_written k : forall p buf q c,
  0 <= p -> p + Z.of_nat k <= n -> 3 * n <= Z.of_nat (length buf) ->
  p <= q < p + Z.of_nat k -> 0 <= c < 3 ->
  fill image n k p buf !! Z.to_nat (c * n + q) = Some (channel_value image q c).
Proof.
  induction k as [|k IH]; intros p buf q c Hp Hk Hlen Hq Hc; simpl; [lia|].
  destruct (Z.eq_dec q p) as [->|Hne].
  - rewrite fill_other.
    + apply write_pixel_written; lia.
    + intros q' c' Hq' Hc' Heq.
      assert (c = 0 \/ c = 1 \/ c = 2) as Hcc by lia.
      assert (c' = 0 \/ c' = 1 \/ c' = 2) as Hcc' by lia.
      apply Z2Nat.inj in Heq; [|lia|lia].
      destruct Hcc as [-> | [-> | ->]], Hcc' as [-> | [-> | ->]]; lia.
  - apply IH; try lia. rewrite length_write_pixel. lia.
Qed.

(** Every cell below [3 * n] is the target of one store. *)
Lemma cell_decomposition (j : Z) :
  0 <= j < 3 * n ->
  0 <= j mod n < n /\ 0 <= j / n < 3 /\ j = (j / n) * n + j mod n.
Proof.
  intros Hj. assert (0 < n) by lia.
  split; [apply Z.mod_pos_bound; lia|].
  split; [split; [apply Z.div_pos; lia | apply Z.div_lt_upper_bound; lia]|].
  rewrite (Z.div_mod j n) at 1 by lia. lia.
Qed.
End Layout.

(** ** Stepping through the monad *)

Section Stepping.
Context {S : Type}.

Lemma bind_normal {A B} (m : M S A) (k : A -> M S B) s a s' :
  m s = Normal a s' -> bind m k s = k a s'.
Proof. unfold bind. by intros ->. Qed.

Lemma bind_undefined {A B} (m : M S A) (k : A -> M S B) s f :
  m s = Undefined f -> bind m k s = Undefined f.
Proof. unfold bind. by intros ->. Qed.

Lemma bind_raised {A B} (m : M S A) (k : A -> M S B) s e s' :
  m s = Raised e s' -> bind m k s = Raised e s'.
Proof. unfold bind. by intros ->. Qed.

Lemma in_int_true z : INT_MIN <= z <= INT_MAX -> in_int z = true.
Proof. unfold in_int. intros [H1 H2]. apply andb_true_iff. lia. Qed.

Lemma in_int_inv z : in_int z = true -> INT_MIN <= z <= INT_MAX.
Proof. unfold in_int. intros [H1 H2]%andb_true_iff. lia. Qed.

Lemma checked_normal z (s : S) :
  INT_MIN <= z <= INT_MAX -> checked z s = Normal z s.
Proof. intros H. unfold checked. by rewrite in_int_true. Qed.

Lemma int_mul_normal a b (s : S) :
  INT_MIN <= a * b <= INT_MAX -> int_mul a b s = Normal (a * b) s.
Proof. apply checked_normal. Qed.

Lemma int_add_normal a b (s : S) :
  INT_MIN <= a + b <= INT_MAX -> int_add a b s = Normal (a + b) s.
Proof. apply checked_normal. Qed.

Lemma read_at_normal {A} (l : list A) i x (s : S) :
  0 <= i -> l !! Z.to_nat i = Some x -> read_at l i s = Normal x s.
Proof.
  intros Hi Hx. unfold read_at.
  assert (Z.to_nat i < length l)%nat by (apply lookup_lt_is_Some; eauto).
  replace ((0 <=? i) && (i <? Z.of_nat (length l))) with true
    by (symmetry; apply andb_true_iff; lia).
  by rewrite Hx.
Qed.

Lemma read_at_outside {A} (l : list A) i (s : S) :
  ~ (0 <= i < Z.of_nat (length l)) -> read_at l i s = Undefined OutOfBounds.
Proof.
  intros Hi. unfold read_at.
  replace ((0 <=? i) && (i <? Z.of_nat (length l))) with false; [done|].
  symmetry. apply andb_false_iff. lia.
Qed.

Lemma write_at_inside {A} (l : list A) i x :
  0 <= i < Z.of_nat (length l) -> write_at l i x = Some (<[Z.to_nat i := x]> l).
Proof.
  intros Hi. unfold write_at.
  by replace ((0 <=? i) && (i <? Z.of_nat (length l))) with true
    by (symmetry; apply andb_true_iff; lia).
Qed.

Lemma for_loop_succ k i (body : Z -> M S unit) :
  for_loop (Datatypes.S k) i body = bind (body i) (fun _ => for_loop k (i + 1) body).
Proof. reflexivity. Qed.
End Stepping.

Lemma byte_at_lookup image i :
  0 <= i < Z.of_nat (length image) -> image !! Z.to_nat i = Some (byte_at image i).
Proof.
  intros Hi. unfold byte_at.
  destruct (lookup_lt_is_Some_2 image (Z.to_nat i)) as [b Hb]; [lia|].
  by rewrite Hb.
Qed.

Lemma INT_MAX_value : INT_MAX = 2147483647.
Proof. reflexivity. Qed.

Lemma INT_MIN_value : INT_MIN = -2147483648.
Proof. reflexivity. Qed.

Lemma vector_max_size_value : vector_max_size = 4611686018427387903.
Proof. reflexivity. Qed.

(** ** The preprocessing loop of the CV plugin *)

Module CVLayout.
Import CVPlugin.

Lemma preprocess_channel_run image p ch g :
  0 <= p < n_pixels g -> 0 <= ch < 3 ->
  3 * n_pixels g <= INT_MAX ->
  3 * n_pixels g <= Z.of_nat (length image) ->
  3 * n_pixels g <= Z.of_nat (length (input_data g)) ->
  preprocess_channel image p ch g =
    Normal tt (set_input_data
                 (<[Z.to_nat (ch * n_pixels g + p) := channel_value image p ch]>
                    (input_data g)) g).
Proof.
  intros Hp Hch Hmax Himg Hbuf.
  rewrite INT_MAX_value in Hmax.
  unfold preprocess_channel, n_channels.
  erewrite bind_normal
    by (apply int_mul_normal; rewrite INT_MAX_value, INT_MIN_value; lia).
  erewrite bind_normal
    by (apply int_add_normal; rewrite INT_MAX_value, INT_MIN_value; lia).
  erewrite bind_normal
    by (apply read_at_normal; [lia | apply byte_at_lookup; lia]).
  erewrite bind_normal by reflexivity.
  erewrite bind_normal
    by (apply int_mul_normal; rewrite INT_MAX_value, INT_MIN_value; nia).
  erewrite bind_normal
    by (apply int_add_normal; rewrite INT_MAX_value, INT_MIN_value; nia).
  erewrite bind_normal by reflexivity.
  rewrite write_at_inside by nia.
  reflexivity.
Qed.

Lemma preprocess_pixel_run image p g :
  0 <= p < n_pixels g ->
  3 * n_pixels g <= INT_MAX ->
  3 * n_pixels g <= Z.of_nat (length image) ->
  3 * n_pixels g <= Z.of_nat (length (input_data g)) ->
  preprocess_pixel image p g =
    Normal tt (set_input_data (write_pixel image (n_pixels g) p (input_data g)) g).
Proof.
  intros Hp Hmax Himg Hbuf.
  unfold preprocess_pixel, for_upto, n_channels.
  change (Z.to_nat 3) with 3%nat.
  rewrite !for_loop_succ.
  erewrite bind_normal by (apply preprocess_channel_run; lia).
  erewrite bind_normal
    by (apply preprocess_channel_run; simpl; rewrite ?length_insert; lia).
  erewrite bind_normal
    by (apply preprocess_channel_run; simpl; rewrite ?length_insert; lia).
  reflexivity.
Qed.

Lemma preprocess_loop_run image k : forall p g,
  0 <= p -> p + Z.of_nat k <= n_pixels g ->
  3 * n_pixels g <= INT_MAX ->
  3 * n_pixels g <= Z.of_nat (length image) ->
  3 * n_pixels g <= Z.of_nat (length (input_data g)) ->
  for_loop k p (preprocess_pixel image) g =
    Normal tt (set_input_data (fill image (n_pixels g) k p (input_data g)) g).
Proof.
  induction k as [|k IH]; intros p g Hp Hk Hmax Himg Hbuf.
  - simpl. unfold ret. by destruct g.
  - rewrite for_loop_succ.
    erewrite bind_normal by (apply preprocess_pixel_run; lia).
    rewrite IH; simpl; rewrite ?length_write_pixel; try lia.
    reflexivity.
Qed.

Lemma preprocess_run image g :
  0 <= n_pixels g ->
  3 * n_pixels g <= INT_MAX ->
  3 * n_pixels g <= Z.of_nat (length image) ->
  3 * n_pixels g <= Z.of_nat (length (input_data g)) ->
  preprocess image g =
    Normal tt (set_input_data
                 (fill image (n_pixels g) (Z.to_nat (n_pixels g)) 0 (input_data g)) g).
Proof.
  intros Hn Hmax Himg Hbuf. unfold preprocess.
  erewrite bind_normal by reflexivity.
  unfold for_upto. apply preprocess_loop_run; lia.
Qed.
End CVLayout.

(** ** [LoadModel] of the CV plugin, step by step *)

Module CVFacts.
Import CVPlugin CVOutcome.

Ltac proj :=
  cbn [input_w input_h n_pixels ort provider_names env session_options session
       input_name output_name input_data calls
       set_input_w set_input_h set_n_pixels set_ort set_provider_names set_env
       set_session_options set_session set_input_name set_output_name
       set_input_data set_calls fst snd].

(** The decisions of [LoadModel_outcome], in the order they are taken. *)
Ltac split_on t := destruct t eqn:?.
Ltac split_int :=
  lazymatch goal with
  | |- context [if negb (in_int ?z) then _ else _] => split_on (in_int z); cbn [negb]
  end.
Ltac load_cases w prov :=
  lazymatch goal with
  | |- context [is_null (ort ?g)] => split_on (is_null (ort g))
  end;
  [| destruct (selection w prov) as [?settings|] eqn:?;
     [ destruct (model_input_name w) as [?iname|] eqn:?;
       [ destruct (model_output_name w) as [?oname|] eqn:?;
         [ split_int;
           [ split_int;
             [ lazymatch goal with
               | |- context [vector_max_size <? ?z] => split_on (vector_max_size <? z)
               end;
               [| lazymatch goal with
                  | |- context [if ?a || ?b then _ else _] => split_on (a || b)
                  end ]
             | ]
           | ]
         | ]
       | ]
     | ] ].

Lemma via_ort_run c g :
  is_null (ort g) = false -> via_ort c g = Normal tt (set_calls (calls g ++ [c]) g).
Proof. unfold via_ort. by intros ->. Qed.

Lemma via_ort_null c g :
  is_null (ort g) = true -> via_ort c g = Undefined NullDereference.
Proof. unfold via_ort. by intros ->. Qed.

Lemma dml_settings_run g :
  is_null (ort g) = false ->
  dml_settings g = Normal tt (set_calls (calls g ++ dml_calls (session_options g)) g).
Proof.
  intros Hort. unfold dml_settings.
  erewrite bind_normal by reflexivity.
  erewrite bind_normal by (apply via_ort_run; exact Hort).
  erewrite bind_normal by (apply via_ort_run; exact Hort).
  unfold direct, modify. cbn [calls set_calls].
  rewrite <- !app_assoc. destruct g; reflexivity.
Qed.

Lemma apply_settings_run w prov g :
  is_null (ort g) = false -> session_options g = new_session_options w ->
  apply_settings prov (execution_provider_actions w) g =
    match selection w prov with
    | Some settings => Normal true (set_calls (calls g ++ settings) g)
    | None => Normal false g
    end.
Proof.
  intros Hort Ho. unfold execution_provider_actions, selection.
  destruct (dml_iterated_first w); cbn [apply_settings];
    destruct (contains prov "Dml"), (contains prov "CPU");
    try reflexivity;
    try (erewrite bind_normal by (apply dml_settings_run; exact Hort);
         rewrite Ho; reflexivity);
    try (unfold cpu_settings, bind, ret; rewrite app_nil_r; by destruct g).
Qed.

Lemma resize_input_data_run w n g :
  resize_input_data w n g =
    if vector_max_size <? to_size_t n then Raised length_error g
    else if (to_size_t n <=? Z.of_nat (length (input_data g))) || allocation_succeeds w
    then Normal tt (set_input_data (resized (to_size_t n) (input_data g)) g)
    else Raised bad_alloc g.
Proof.
  unfold resize_input_data, bind, gets, throw, modify.
  destruct (vector_max_size <? to_size_t n); [reflexivity|].
  destruct (to_size_t n <=? Z.of_nat (length (input_data g))); [reflexivity|].
  by destruct (allocation_succeeds w).
Qed.

Lemma checked_run {S} z (s : S) :
  checked z s = if in_int z then Normal z s else Undefined SignedOverflow.
Proof. unfold checked. by destruct (in_int z). Qed.

(** [LoadModel] computes [LoadModel_outcome]. *)
Lemma LoadModel_closed w path prov dims g :
  LoadModel w path prov dims g = LoadModel_outcome w path prov dims g.
Proof.
  unfold LoadModel_outcome, LoadModel, try_catch, stringToWstring, n_channels.
  destruct (is_null (ort g)) eqn:Hort.
  { erewrite bind_undefined; [reflexivity|]. by apply via_ort_null. }
  erewrite bind_normal by (apply via_ort_run; exact Hort).
  erewrite bind_normal by reflexivity.
  erewrite bind_normal by reflexivity. proj.
  erewrite bind_normal by (apply via_ort_run; exact Hort). proj.
  erewrite bind_normal by (apply via_ort_run; exact Hort). proj.
  erewrite bind_normal by reflexivity. proj.
  unfold bind at 1. rewrite apply_settings_run by (proj; done). proj.
  destruct (selection w prov) as [settings|]; cbn [negb].
  2:{ unfold ret, unknown, prologue. rewrite <- !app_assoc. by destruct g. }
  erewrite bind_normal by reflexivity. proj.
  erewrite bind_normal by reflexivity. proj.
  erewrite bind_normal by (apply via_ort_run; exact Hort). proj.
  erewrite bind_normal by reflexivity. proj.
  erewrite bind_normal by (apply via_ort_run; exact Hort). proj.
  erewrite bind_normal by reflexivity. proj.
  erewrite bind_normal by (apply via_ort_run; exact Hort). proj.
  destruct (model_input_name w) as [iname|]; [|reflexivity].
  erewrite bind_normal by reflexivity. proj.
  erewrite bind_normal by (apply via_ort_run; exact Hort). proj.
  destruct (model_output_name w) as [oname|]; [|reflexivity].
  erewrite bind_normal by reflexivity. proj.
  erewrite bind_normal by reflexivity. proj.
  erewrite bind_normal by reflexivity. proj.
  erewrite bind_normal by reflexivity. proj.
  erewrite bind_normal by reflexivity. proj.
  unfold bind at 1, int_mul. rewrite checked_run.
  destruct (in_int (dims.1 * dims.2)); cbn [negb]; [|reflexivity].
  erewrite bind_normal by reflexivity. proj.
  unfold bind at 1. rewrite checked_run.
  destruct (in_int (dims.1 * dims.2 * 3)); cbn [negb]; [|reflexivity].
  unfold bind at 1. rewrite resize_input_data_run. proj.
  unfold session_calls, prologue, success.
  rewrite <- !app_assoc. cbn [app].
  destruct (vector_max_size <? to_size_t (dims.1 * dims.2 * 3)); [by destruct g|].
  destruct (_ || _); by destruct g.
Qed.
End CVFacts.

(** ** [LoadModel] of the YOLOX plugin, step by step *)

Module YOLOXFacts.
Import YOLOXPlugin YOLOXOutcome.

Ltac proj :=
  cbn [input_w input_h n_pixels ort provider_names provider_count env
       session_options session input_name output_name input_data input_size calls
       set_input_w set_input_h set_n_pixels set_ort set_providers set_env
       set_session_options set_session set_input_name set_output_name
       set_input_data set_input_size set_calls fst snd].

Lemma yolox_via_ort_run c g :
  is_null (ort g) = false -> via_ort c g = Normal tt (set_calls (calls g ++ [c]) g).
Proof. unfold via_ort. by intros ->. Qed.

Lemma yolox_via_ort_null c g :
  is_null (ort g) = true -> via_ort c g = Undefined NullDereference.
Proof. unfold via_ort. by intros ->. Qed.

Lemma yolox_checked_run z (g : globals) :
  checked z g = if in_int z then Normal z g else Undefined SignedOverflow.
Proof. unfold checked. by destruct (in_int z). Qed.

Lemma malloc_and_clear_run w size g :
  malloc_and_clear w ((to_size_t size * sizeof_pointer) mod SIZE_MODULUS)
      (to_size_t size) g =
    if malloc_succeeds w then
      if to_size_t size <=? (to_size_t size * sizeof_pointer) mod SIZE_MODULUS
      then Normal tt (set_input_data (allocated (fresh_block w size)) g)
      else Undefined OutOfBounds
    else Normal tt (set_input_data null_block g).
Proof.
  unfold malloc_and_clear, fresh_block.
  destruct (malloc_succeeds w); [|reflexivity].
  by destruct (_ <=? _).
Qed.

Lemma yolox_LoadModel_closed w path prov dims g :
  LoadModel w path prov dims g = LoadModel_outcome w path prov dims g.
Proof.
  unfold LoadModel_outcome, LoadModel, charToWChar, n_channels, sizeof_float.
  destruct (is_null (ort g)) eqn:Hort.
  { erewrite bind_undefined; [reflexivity|]. by apply yolox_via_ort_null. }
  erewrite bind_normal by (apply yolox_via_ort_run; exact Hort).
  erewrite bind_normal by reflexivity.
  erewrite bind_normal by reflexivity. proj.
  erewrite bind_normal by (apply yolox_via_ort_run; exact Hort). proj.
  erewrite bind_normal by (apply yolox_via_ort_run; exact Hort). proj.
  erewrite bind_normal by reflexivity. proj.
  unfold selection.
  set (g1 := set_session_options _ _).
  assert (exists rv settings,
    (if contains prov "CPU" then (1, [])
     else if contains prov "Dml"
          then (0, dml_calls (new_session_options w)) else (1, []))
    = (rv, settings) /\
    (if contains prov "CPU" then ret 1
     else if contains prov "Dml" then
       o <- gets session_options ;;
       via_ort (DisableMemPattern o) ;;
       via_ort (SetSessionExecutionMode o ORT_SEQUENTIAL) ;;
       direct (OrtSessionOptionsAppendExecutionProvider_DML o 0) ;;
       ret 0
     else ret 1) g1 = Normal rv (set_calls (calls g1 ++ settings) g1))
    as (rv & settings & -> & Hsel).
  { destruct (contains prov "CPU").
    - exists 1, []. split; [done|]. unfold ret. rewrite app_nil_r. by destruct g.
    - destruct (contains prov "Dml").
      + exists 0, (dml_calls (new_session_options w)). split; [done|].
        erewrite bind_normal by reflexivity.
        erewrite bind_normal by (apply yolox_via_ort_run; exact Hort).
        erewrite bind_normal by (apply yolox_via_ort_run; exact Hort).
        unfold direct. erewrite bind_normal by reflexivity.
        unfold ret, dml_calls. subst g1. proj. rewrite <- !app_assoc.
        by destruct g.
      + exists 1, []. split; [done|]. unfold ret. rewrite app_nil_r. by destruct g. }
  erewrite bind_normal by exact Hsel. subst g1. proj.
  erewrite bind_normal by reflexivity. proj.
  erewrite bind_normal by reflexivity. proj.
  erewrite bind_normal by (apply yolox_via_ort_run; exact Hort). proj.
  erewrite bind_normal by reflexivity. proj.
  erewrite bind_normal by (apply yolox_via_ort_run; exact Hort). proj.
  erewrite bind_normal by reflexivity. proj.
  erewrite bind_normal by (apply yolox_via_ort_run; exact Hort). proj.
  erewrite bind_normal
    by (instantiate (1 := set_input_name
          match model_input_name w with Some x => Some x | None => input_name g end _);
        destruct (model_input_name w); [reflexivity | unfold ret; by destruct g]).
  proj.
  erewrite bind_normal by (apply yolox_via_ort_run; exact Hort). proj.
  erewrite bind_normal
    by (instantiate (1 := set_output_name
          match model_output_name w with Some x => Some x | None => output_name g end _);
        destruct (model_output_name w); [reflexivity | unfold ret; by destruct g]).
  proj.
  erewrite bind_normal by reflexivity. proj.
  erewrite bind_normal by reflexivity. proj.
  erewrite bind_normal by reflexivity. proj.
  erewrite bind_normal by reflexivity. proj.
  unfold bind at 1, int_mul. rewrite yolox_checked_run.
  destruct (in_int (dims.1 * dims.2)); cbn [negb]; [|reflexivity].
  erewrite bind_normal by reflexivity. proj.
  unfold bind at 1. rewrite yolox_checked_run.
  destruct (in_int (dims.1 * dims.2 * 3)); cbn [negb]; [|reflexivity].
  unfold bind at 1. rewrite yolox_checked_run.
  destruct (in_int (dims.1 * dims.2 * 3 * 4)); cbn [negb]; [|reflexivity].
  erewrite bind_normal by reflexivity. proj.
  unfold bind at 1. rewrite malloc_and_clear_run. proj.
  unfold session_calls, prologue.
  rewrite <- !app_assoc. cbn [app].
  destruct (malloc_succeeds w); [|by destruct g].
  destruct (_ <=? _); [by destruct g | reflexivity].
Qed.
End YOLOXFacts.

(** ** The provider registry *)

Module RegistryFacts.

Lemma cv_initialised :
  CVPlugin.InitOrtAPI Examples.CV.runtime CVPlugin.initial
  = Normal tt Examples.CV.initialised.
Proof. reflexivity. Qed.

Lemma yolox_initialised :
  YOLOXPlugin.InitOrtAPI Examples.YOLOX.runtime YOLOXPlugin.initial
  = Normal tt Examples.YOLOX.initialised.
Proof. reflexivity. Qed.

(** The CV plugin tests the index: inside the list it returns the name, *)
Lemma cv_GetProviderName_inside g index :
  index <= INT_MAX ->
  0 <= index < Z.of_nat (length (CVPlugin.provider_names g)) ->
  exists name, CVPlugin.provider_names g !! Z.to_nat index = Some name /\
               CVPlugin.GetProviderName g index = Some name.
Proof.
  rewrite INT_MAX_value.
  intros Hint Hi. unfold CVPlugin.GetProviderName, to_size_t, SIZE_MODULUS.
  destruct (lookup_lt_is_Some_2 (CVPlugin.provider_names g) (Z.to_nat index))
    as [name Hname]; [lia|].
  exists name. split; [done|].
  rewrite Z.mod_small by lia.
  replace ((0 <=? index) && (index <? _)) with true
    by (symmetry; apply andb_true_iff; lia).
  done.
Qed.

(** and outside it returns [nullptr] without touching the list. *)
Lemma cv_GetProviderName_outside g index :
  ~ (0 <= index < Z.of_nat (length (CVPlugin.provider_names g))) ->
  CVPlugin.GetProviderName g index = None.
Proof.
  intros Hi. unfold CVPlugin.GetProviderName.
  destruct ((0 <=? index) && _) eqn:Hguard; [|done].
  apply andb_true_iff in Hguard as [H0 _].
  apply lookup_ge_None_2. lia.
Qed.

End RegistryFacts.

(** C4, for the YOLOX plugin.  [GetProviderName] indexes the array of names
    with whatever index it is given: for every index outside
    [0, provider_count) the read falls outside the array, and no sentinel is
    returned. *)
Theorem yolox_GetProviderName_outside (g : YOLOXPlugin.globals)
    (names : list string) (index : Z) :
  YOLOXPlugin.provider_names g = Some names ->
  ~ (0 <= index < Z.of_nat (length names)) ->
  YOLOXPlugin.GetProviderName index g = Undefined OutOfBounds.
Proof.
  intros Hnames Hi. unfold YOLOXPlugin.GetProviderName.
  erewrite bind_normal by reflexivity.
  rewrite Hnames. by apply read_at_outside.
Qed.

Lemma yolox_GetProviderName_outside_witness :
  YOLOXPlugin.GetProviderName 2 Examples.YOLOX.initialised = Undefined OutOfBounds.
Proof.
  apply (yolox_GetProviderName_outside Examples.YOLOX.initialised Examples.providers 2).
  - reflexivity.
  - simpl. lia.
Defined.

(** ** Releasing resources *)

Module ReleaseFacts.

(** The CV plugin guards both releases: with no session and no environment
    nothing is done, whether or not the API pointer has been set. *)
Lemma cv_FreeResources_nothing_loaded g :
  CVPlugin.session g = nullptr -> CVPlugin.env g = nullptr ->
  CVPlugin.FreeResources g = Normal tt g.
Proof.
  intros Hs He. unfold CVPlugin.FreeResources.
  erewrite bind_normal by reflexivity. rewrite Hs. cbn [is_null].
  erewrite bind_normal by reflexivity.
  erewrite bind_normal by reflexivity. rewrite He. reflexivity.
Qed.

(** With both present, the session is released first. *)
Lemma cv_FreeResources_order g s e :
  is_null (CVPlugin.ort g) = false ->
  CVPlugin.session g = handle s -> CVPlugin.env g = handle e ->
  CVPlugin.FreeResources g =
    Normal tt (CVPlugin.set_calls
                 (CVPlugin.calls g ++ [ReleaseSession (handle s); ReleaseEnv (handle e)]) g).
Proof.
  intros Hort Hs He. unfold CVPlugin.FreeResources.
  erewrite bind_normal by reflexivity. rewrite Hs. cbn [is_null].
  erewrite bind_normal by (apply CVFacts.via_ort_run; exact Hort).
  erewrite bind_normal by reflexivity. CVFacts.proj. rewrite He. cbn [is_null].
  rewrite CVFacts.via_ort_run by exact Hort. CVFacts.proj.
  rewrite <- app_assoc. by destruct g.
Qed.

(** [RefreshMemory] of the YOLOX plugin is guarded in the same way. *)
Lemma yolox_RefreshMemory_nothing_loaded g :
  YOLOXPlugin.input_data g = YOLOXPlugin.null_block ->
  YOLOXPlugin.session g = nullptr -> YOLOXPlugin.env g = nullptr ->
  YOLOXPlugin.RefreshMemory g = Normal tt g.
Proof.
  intros Hd Hs He. unfold YOLOXPlugin.RefreshMemory.
  erewrite bind_normal by reflexivity. rewrite Hd.
  erewrite bind_normal by reflexivity.
  erewrite bind_normal by reflexivity. rewrite Hs. cbn [is_null].
  erewrite bind_normal by reflexivity.
  erewrite bind_normal by reflexivity. rewrite He. reflexivity.
Qed.

(** [FreeResources] of the YOLOX plugin releases the session before the
    environment as well. *)
Lemma yolox_FreeResources_order g cells :
  is_null (YOLOXPlugin.ort g) = false ->
  YOLOXPlugin.input_data g = YOLOXPlugin.allocated cells ->
  YOLOXPlugin.FreeResources g =
    Normal tt
      (YOLOXPlugin.set_calls
         (YOLOXPlugin.calls g ++
            [ReleaseSession (YOLOXPlugin.session g); ReleaseEnv (YOLOXPlugin.env g)])
         (YOLOXPlugin.set_input_data YOLOXPlugin.freed g)).
Proof.
  intros Hort Hd. unfold YOLOXPlugin.FreeResources, YOLOXPlugin.free_input_data.
  erewrite bind_normal
    by (erewrite bind_normal by reflexivity; rewrite Hd; reflexivity).
  erewrite bind_normal by reflexivity. YOLOXFacts.proj.
  erewrite bind_normal by (apply YOLOXFacts.yolox_via_ort_run; exact Hort).
  erewrite bind_normal by reflexivity. YOLOXFacts.proj.
  rewrite YOLOXFacts.yolox_via_ort_run by exact Hort. YOLOXFacts.proj.
  rewrite <- app_assoc. by destruct g.
Qed.

End ReleaseFacts.

(** C9, for the YOLOX plugin.  [FreeResources] has no test on [session] or
    [env]: called before anything is loaded it goes through the null API
    pointer, and once the API pointer is set it passes the null session and
    the null environment to the release functions. *)
Theorem yolox_FreeResources_unguarded :
  YOLOXPlugin.FreeResources YOLOXPlugin.initial = Undefined NullDereference /\
  YOLOXPlugin.FreeResources Examples.YOLOX.initialised =
    Normal tt
      (YOLOXPlugin.set_calls
         [GetAvailableProviders; ReleaseSession nullptr; ReleaseEnv nullptr]
         Examples.YOLOX.initialised).
Proof. split; reflexivity. Qed.

(** ** Unrecognised selectors *)

Module SelectorFacts.

(** The CV plugin returns before any session is created: the log gains the
    three opening calls only, and [session] is left as it was. *)
Lemma cv_LoadModel_unrecognized w path prov dims g :
  is_null (CVPlugin.ort g) = false ->
  contains prov "CPU" = false -> contains prov "Dml" = false ->
  CVPlugin.LoadModel w path prov dims g =
    Normal CVOutcome.unknown
      (CVPlugin.set_calls (CVPlugin.calls g ++ CVOutcome.prologue w)
         (CVPlugin.set_session_options (CVPlugin.new_session_options w)
            (CVPlugin.set_env (CVPlugin.new_env w) g))).
Proof.
  intros Hort Hcpu Hdml. rewrite CVFacts.LoadModel_closed.
  unfold CVOutcome.LoadModel_outcome, CVOutcome.selection.
  rewrite Hort, Hcpu, Hdml. by destruct (CVPlugin.dml_iterated_first w).
Qed.

End SelectorFacts.

(** C2, for the YOLOX plugin.  A selector that contains neither "CPU" nor
    "Dml" makes [LoadModel] return 1, but only at its end: the session has
    been created from the model with the default options by then. *)
Theorem yolox_unrecognized_selector_creates_session
    (w : YOLOXPlugin.load_world) (path prov : string) (dims : Z * Z)
    (g g' : YOLOXPlugin.globals) (r : Z) :
  contains prov "CPU" = false -> contains prov "Dml" = false ->
  YOLOXPlugin.LoadModel w path prov dims g = Normal r g' ->
  r = 1 /\
  YOLOXPlugin.session g' = YOLOXPlugin.new_session w /\
  YOLOXPlugin.calls g' =
    YOLOXPlugin.calls g ++ YOLOXOutcome.prologue w ++ YOLOXOutcome.session_calls w path.
Proof.
  intros Hcpu Hdml. rewrite YOLOXFacts.yolox_LoadModel_closed.
  unfold YOLOXOutcome.LoadModel_outcome, YOLOXOutcome.selection.
  rewrite Hcpu, Hdml.
  destruct (is_null _); [discriminate|].
  destruct (negb _); [discriminate|].
  destruct (negb _); [discriminate|].
  destruct (negb _); [discriminate|].
  destruct (YOLOXPlugin.malloc_succeeds w).
  - destruct (_ <=? _); [|discriminate].
    intros [= <- <-]. by destruct g.
  - intros [= <- <-]. by destruct g.
Qed.

Lemma yolox_unrecognized_selector_creates_session_witness :
  1 = 1 /\
  YOLOXPlugin.session Examples.yolox_loaded_unknown
  = YOLOXPlugin.new_session Examples.YOLOX.first_load /\
  YOLOXPlugin.calls Examples.yolox_loaded_unknown =
    YOLOXPlugin.calls Examples.YOLOX.initialised
      ++ YOLOXOutcome.prologue Examples.YOLOX.first_load
      ++ YOLOXOutcome.session_calls Examples.YOLOX.first_load "model.onnx".
Proof.
  apply (yolox_unrecognized_selector_creates_session Examples.YOLOX.first_load
           "model.onnx" "TensorRT" (1, 1) Examples.YOLOX.initialised
           Examples.yolox_loaded_unknown 1).
  - reflexivity.
  - reflexivity.
  - vm_compute. reflexivity.
Defined.

(** ** Frame conditions of the monad's operations *)

Section Preserves.
Context {S X : Type} (f : S -> X).

Lemma preserves_ret {A} (a : A) : preserves f (ret a).
Proof. intros s. reflexivity. Qed.

Lemma preserves_gets {A} (h : S -> A) : preserves f (gets h).
Proof. intros s. reflexivity. Qed.

Lemma preserves_undefined {A} u : preserves f (@undefined S A u).
Proof. intros s. exact I. Qed.

Lemma preserves_throw {A} e : preserves f (@throw S A e).
Proof. intros s. reflexivity. Qed.

Lemma preserves_modify (h : S -> S) :
  (forall s, f (h s) = f s) -> preserves f (modify h).
Proof. intros Hh s. apply Hh. Qed.

Lemma preserves_bind {A B} (m : M S A) (k : A -> M S B) :
  preserves f m -> (forall a, preserves f (k a)) -> preserves f (bind m k).
Proof.
  intros Hm Hk s. unfold bind. specialize (Hm s).
  destruct (m s) as [a s1|e s1|u]; [|done..].
  specialize (Hk a s1). destruct (k a s1); congruence.
Qed.

Lemma preserves_checked z : preserves f (checked z).
Proof. intros s. unfold checked. by destruct (in_int z). Qed.

Lemma preserves_read_at {A} (l : list A) i : preserves f (read_at l i).
Proof.
  intros s. unfold read_at.
  destruct (_ && _); [|done]. by destruct (l !! Z.to_nat i).
Qed.

Lemma preserves_memcpy dst src bytes : preserves f (memcpy dst src bytes).
Proof. intros s. unfold memcpy. by destruct (_ && _). Qed.

Lemma preserves_for_loop (body : Z -> M S unit) k :
  (forall i, preserves f (body i)) -> forall i, preserves f (for_loop k i body).
Proof.
  intros Hbody. induction k as [|k IH]; intros i; simpl.
  - apply preserves_ret.
  - apply preserves_bind; [apply Hbody | intros _; apply IH].
Qed.

Lemma preserves_for_upto (body : Z -> M S unit) n :
  (forall i, preserves f (body i)) -> preserves f (for_upto n body).
Proof. intros Hbody. by apply preserves_for_loop. Qed.

Lemma preserves_try_catch (body : M S c_string) :
  preserves f body -> preserves f (try_catch body).
Proof.
  intros Hb s. unfold try_catch. specialize (Hb s). by destruct (body s).
Qed.

Lemma preserves_normal {A} (m : M S A) s a s' :
  preserves f m -> m s = Normal a s' -> f s' = f s.
Proof. intros Hm Hs. specialize (Hm s). by rewrite Hs in Hm. Qed.
End Preserves.

Ltac preserve_step :=
  lazymatch goal with
  | |- preserves _ (bind _ _) => apply preserves_bind; [|intros ?]
  | |- preserves _ (ret _) => apply preserves_ret
  | |- preserves _ (gets _) => apply preserves_gets
  | |- preserves _ (modify _) => apply preserves_modify; intros ?; reflexivity
  | |- preserves _ (undefined _) => apply preserves_undefined
  | |- preserves _ (throw _) => apply preserves_throw
  | |- preserves _ (checked _) => apply preserves_checked
  | |- preserves _ (int_mul _ _) => apply preserves_checked
  | |- preserves _ (int_add _ _) => apply preserves_checked
  | |- preserves _ (read_at _ _) => apply preserves_read_at
  | |- preserves _ (memcpy _ _ _) => apply preserves_memcpy
  | |- preserves _ (for_upto _ _) => apply preserves_for_upto; intros ?
  | |- preserves _ (try_catch _) => apply preserves_try_catch
  | |- preserves _ (if ?b then _ else _) => destruct b
  | |- preserves _ (match ?o with _ => _ end) => destruct o
  end.

(** ** What the exported functions of the CV plugin leave alone *)

Module CVFrame.
Import CVPlugin.

Section Frame.
Context {X : Type} (f : globals -> X).
Hypothesis f_calls : forall l g, f (set_calls l g) = f g.

Lemma via_ort_frame c : preserves f (via_ort c).
Proof.
  intros g. unfold via_ort. destruct (is_null (ort g)); [done|]. apply f_calls.
Qed.

Lemma direct_frame c : preserves f (direct c).
Proof. intros g. apply f_calls. Qed.

Ltac frame :=
  repeat first
    [ apply via_ort_frame | apply direct_frame | preserve_step ].

Lemma FreeResources_frame : preserves f FreeResources.
Proof. unfold FreeResources. frame. Qed.

(** What follows the preprocessing in [PerformInference] only calls the
    runtime. *)
Lemma PerformInference_after_preprocess w image out len g g1 :
  preprocess image g = Normal tt g1 ->
  match PerformInference w image out len g with
  | Normal _ g2 | Raised _ g2 => f g2 = f g1
  | Undefined _ => True
  end.
Proof.
  intros Hpre. unfold PerformInference. unfold bind at 1. rewrite Hpre.
  refine ((_ : preserves f _) g1). frame.
Qed.

Hypothesis f_input_data : forall v g, f (set_input_data v g) = f g.

Lemma preprocess_frame image : preserves f (preprocess image).
Proof.
  unfold preprocess, preprocess_pixel, preprocess_channel. frame.
  apply preserves_modify. intros g. apply f_input_data.
Qed.

Lemma PerformInference_frame w image out len :
  preserves f (PerformInference w image out len).
Proof.
  unfold PerformInference.
  apply preserves_bind; [apply preprocess_frame | intros _].
  frame.
Qed.
End Frame.

(** Only [InitOrtAPI] assigns [ort] and [provider_names]. *)
Lemma LoadModel_provider_names w path prov dims :
  preserves provider_names (LoadModel w path prov dims).
Proof.
  intros g. rewrite CVFacts.LoadModel_closed.
  unfold CVOutcome.LoadModel_outcome.
  CVFacts.load_cases w prov; first [exact I | reflexivity].
Qed.

Lemma LoadModel_ort w path prov dims :
  preserves ort (LoadModel w path prov dims).
Proof.
  intros g. rewrite CVFacts.LoadModel_closed.
  unfold CVOutcome.LoadModel_outcome.
  CVFacts.load_cases w prov; first [exact I | reflexivity].
Qed.
End CVFrame.

(** ** The preprocessing loop of the YOLOX plugin *)

Module YOLOXLayout.
Import YOLOXPlugin.

Lemma store_input_data_run g cells i x :
  input_data g = allocated cells ->
  0 <= i < Z.of_nat (length cells) ->
  store_input_data i x g =
    Normal tt (set_input_data (allocated (<[Z.to_nat i := x]> cells)) g).
Proof.
  intros Hd Hi. unfold store_input_data.
  erewrite bind_normal by reflexivity.
  rewrite Hd, write_at_inside by exact Hi. reflexivity.
Qed.

Lemma yolox_preprocess_channel_run image p ch g cells :
  input_data g = allocated cells ->
  0 <= p < n_pixels g -> 0 <= ch < 3 ->
  3 * n_pixels g <= INT_MAX ->
  3 * n_pixels g <= Z.of_nat (length image) ->
  3 * n_pixels g <= Z.of_nat (length cells) ->
  preprocess_channel image p ch g =
    Normal tt (set_input_data
                 (allocated
                    (<[Z.to_nat (ch * n_pixels g + p) := channel_value image p ch]>
                       cells)) g).
Proof.
  intros Hd Hp Hch Hmax Himg Hbuf.
  rewrite INT_MAX_value in Hmax.
  unfold preprocess_channel, n_channels.
  erewrite bind_normal
    by (apply int_mul_normal; rewrite INT_MAX_value, INT_MIN_value; lia).
  erewrite bind_normal
    by (apply int_add_normal; rewrite INT_MAX_value, INT_MIN_value; lia).
  erewrite bind_normal
    by (apply read_at_normal; [lia | apply byte_at_lookup; lia]).
  erewrite bind_normal by reflexivity.
  erewrite bind_normal
    by (apply int_mul_normal; rewrite INT_MAX_value, INT_MIN_value; nia).
  erewrite bind_normal
    by (apply int_add_normal; rewrite INT_MAX_value, INT_MIN_value; nia).
  erewrite store_input_data_run; [reflexivity | exact Hd | nia].
Qed.

Lemma yolox_preprocess_pixel_run image p g cells :
  input_data g = allocated cells ->
  0 <= p < n_pixels g ->
  3 * n_pixels g <= INT_MAX ->
  3 * n_pixels g <= Z.of_nat (length image) ->
  3 * n_pixels g <= Z.of_nat (length cells) ->
  preprocess_pixel image p g =
    Normal tt (set_input_data (allocated (write_pixel image (n_pixels g) p cells)) g).
Proof.
  intros Hd Hp Hmax Himg Hbuf.
  unfold preprocess_pixel, for_upto, n_channels.
  change (Z.to_nat 3) with 3%nat.
  rewrite !for_loop_succ.
  erewrite bind_normal by (eapply yolox_preprocess_channel_run; [exact Hd | lia..]).
  erewrite bind_normal
    by (eapply yolox_preprocess_channel_run;
        [reflexivity | simpl; rewrite ?length_insert; lia..]).
  erewrite bind_normal
    by (eapply yolox_preprocess_channel_run;
        [reflexivity | simpl; rewrite ?length_insert; lia..]).
  reflexivity.
Qed.

Lemma yolox_preprocess_loop_run image k : forall p g cells,
  input_data g = allocated cells ->
  0 <= p -> p + Z.of_nat k <= n_pixels g ->
  3 * n_pixels g <= INT_MAX ->
  3 * n_pixels g <= Z.of_nat (length image) ->
  3 * n_pixels g <= Z.of_nat (length cells) ->
  for_loop k p (preprocess_pixel image) g =
    Normal tt (set_input_data (allocated (fill image (n_pixels g) k p cells)) g).
Proof.
  induction k as [|k IH]; intros p g cells Hd Hp Hk Hmax Himg Hbuf.
  - simpl. unfold ret. rewrite <- Hd. by destruct g.
  - rewrite for_loop_succ.
    erewrite bind_normal by (eapply yolox_preprocess_pixel_run; [exact Hd | lia..]).
    erewrite IH; [reflexivity | reflexivity | simpl; rewrite ?length_write_pixel; lia..].
Qed.

Lemma yolox_preprocess_run image g cells :
  input_data g = allocated cells ->
  0 <= n_pixels g ->
  3 * n_pixels g <= INT_MAX ->
  3 * n_pixels g <= Z.of_nat (length image) ->
  3 * n_pixels g <= Z.of_nat (length cells) ->
  preprocess image g =
    Normal tt (set_input_data
                 (allocated (fill image (n_pixels g) (Z.to_nat (n_pixels g)) 0 cells)) g).
Proof.
  intros Hd Hn Hmax Himg Hbuf. unfold preprocess.
  erewrite bind_normal by reflexivity.
  unfold for_upto. apply yolox_preprocess_loop_run; try done; lia.
Qed.
End YOLOXLayout.

(** ** What the exported functions of the YOLOX plugin leave alone *)

Module YOLOXFrame.
Import YOLOXPlugin.

Section Frame.
Context {X : Type} (f : globals -> X).
Hypothesis f_calls : forall l g, f (set_calls l g) = f g.

Lemma yolox_via_ort_frame c : preserves f (via_ort c).
Proof.
  intros g. unfold via_ort. destruct (is_null (ort g)); [done|]. apply f_calls.
Qed.

Lemma yolox_direct_frame c : preserves f (direct c).
Proof. intros g. apply f_calls. Qed.

Lemma yolox_PerformInference_after_preprocess w image out len g g1 :
  preprocess image g = Normal tt g1 ->
  match PerformInference w image out len g with
  | Normal _ g2 | Raised _ g2 => f g2 = f g1
  | Undefined _ => True
  end.
Proof.
  intros Hpre. unfold PerformInference. unfold bind at 1. rewrite Hpre.
  refine ((_ : preserves f _) g1).
  repeat first [ apply yolox_via_ort_frame | preserve_step ].
Qed.

Hypothesis f_input_data : forall v g, f (set_input_data v g) = f g.

Lemma free_input_data_frame : preserves f free_input_data.
Proof.
  unfold free_input_data. repeat preserve_step.
  apply preserves_modify. intros g. apply f_input_data.
Qed.

Ltac frame :=
  repeat first
    [ apply yolox_via_ort_frame | apply yolox_direct_frame | apply free_input_data_frame
    | preserve_step ].

Lemma yolox_FreeResources_frame : preserves f FreeResources.
Proof. unfold FreeResources. frame. Qed.

Lemma RefreshMemory_frame : preserves f RefreshMemory.
Proof. unfold RefreshMemory. frame. Qed.

Lemma yolox_preprocess_frame image : preserves f (preprocess image).
Proof.
  unfold preprocess, preprocess_pixel, preprocess_channel, store_input_data.
  frame. apply preserves_modify. intros g. apply f_input_data.
Qed.

Lemma yolox_PerformInference_frame w image out len :
  preserves f (PerformInference w image out len).
Proof.
  unfold PerformInference.
  apply preserves_bind; [apply yolox_preprocess_frame | intros _].
  frame.
Qed.
End Frame.

Lemma LoadModel_provider_count w path prov dims :
  preserves provider_count (LoadModel w path prov dims).
Proof.
  intros g. rewrite YOLOXFacts.yolox_LoadModel_closed.
  unfold YOLOXOutcome.LoadModel_outcome.
  destruct (is_null _); [exact I|].
  destruct (YOLOXOutcome.selection w prov) as [rv settings].
  destruct (negb _); [exact I|].
  destruct (negb _); [exact I|].
  destruct (negb _); [exact I|].
  destruct (malloc_succeeds w); [|reflexivity].
  destruct (_ <=? _); [reflexivity | exact I].
Qed.
End YOLOXFrame.

(** ** Loaded states *)

Module LoadedFacts.

Lemma to_size_t_small z : 0 <= z <= INT_MAX -> to_size_t z = z.
Proof.
  rewrite INT_MAX_value. intros Hz. unfold to_size_t, SIZE_MODULUS.
  apply Z.mod_small. lia.
Qed.

Lemma to_size_t_negative z : INT_MIN <= z < 0 -> to_size_t z = z + 2 ^ 64.
Proof.
  rewrite INT_MIN_value. intros Hz. unfold to_size_t, SIZE_MODULUS.
  symmetry. apply (Z.mod_unique z (2 ^ 64) (-1)); lia.
Qed.

(** What a success of the CV plugin's [LoadModel] says about its run. *)
Lemma cv_LoadModel_success w path prov wd ht g g' :
  CVPlugin.LoadModel w path prov (wd, ht) g = Normal CVOutcome.success g' ->
  0 <= wd * ht * 3 <= INT_MAX /\
  exists settings,
    CVOutcome.selection w prov = Some settings /\
    CVPlugin.input_w g' = wd /\ CVPlugin.input_h g' = ht /\
    CVPlugin.n_pixels g' = wd * ht /\
    CVPlugin.session g' = CVPlugin.new_session w /\
    CVPlugin.env g' = CVPlugin.new_env w /\
    CVPlugin.input_data g' = resized (wd * ht * 3) (CVPlugin.input_data g) /\
    CVPlugin.calls g' =
      CVPlugin.calls g ++ CVOutcome.prologue w ++ settings
        ++ CVOutcome.session_calls w path.
Proof.
  rewrite CVFacts.LoadModel_closed. unfold CVOutcome.LoadModel_outcome.
  cbn [fst snd].
  CVFacts.load_cases w prov; try discriminate.
  intros [= <-].
  match goal with H : in_int (wd * ht * 3) = true |- _ =>
    apply in_int_inv in H; rename H into Hint end.
  match goal with H : (vector_max_size <? _) = false |- _ =>
    apply Z.ltb_ge in H; rename H into Hmax end.
  assert (0 <= wd * ht * 3) as Hpos.
  { destruct (Z_lt_le_dec (wd * ht * 3) 0) as [Hneg|]; [|done].
    rewrite to_size_t_negative in Hmax by lia.
    rewrite INT_MIN_value in Hint.
    rewrite vector_max_size_value in Hmax.
    change (2 ^ 64) with 18446744073709551616 in Hmax. lia. }
  split; [lia|]. exists settings.
  rewrite to_size_t_small by lia.
  repeat split; reflexivity.
Qed.

Lemma cv_LoadModel_loaded w path prov wd ht g g' :
  CVPlugin.LoadModel w path prov (wd, ht) g = Normal CVOutcome.success g' ->
  CVOutcome.loaded wd ht g'.
Proof.
  intros Hrun. apply cv_LoadModel_success in Hrun as (Hsize & settings & Hrun).
  destruct Hrun as (_ & Hw & Hh & Hn & _ & _ & Hd & _).
  repeat split; try done; try lia.
  rewrite Hd. unfold resized. apply length_resize.
Qed.

(** [preprocess] never changes the number of elements of the vector. *)
Lemma cv_preprocess_length image :
  preserves (fun g => length (CVPlugin.input_data g)) (CVPlugin.preprocess image).
Proof.
  unfold CVPlugin.preprocess, CVPlugin.preprocess_pixel.
  repeat preserve_step.
  intros g. unfold CVPlugin.preprocess_channel.
  unfold bind, int_mul, int_add, checked, read_at, gets, undefined, ret.
  destruct (in_int _); [|exact I].
  destruct (in_int _); [|exact I].
  destruct (_ && _); [|exact I].
  destruct (image !! _); [|exact I].
  destruct (in_int _); [|exact I].
  destruct (in_int _); [|exact I].
  unfold write_at. destruct (_ && _); [|exact I].
  cbn. apply length_insert.
Qed.

Lemma cv_PerformInference_loaded w image out len wd ht g g' r :
  CVOutcome.loaded wd ht g ->
  CVPlugin.PerformInference w image out len g = Normal r g' ->
  CVOutcome.loaded wd ht g'.
Proof.
  intros (Hw & Hh & Hn & Hsize & Hlen) Hrun.
  unfold CVOutcome.loaded.
  rewrite (preserves_normal CVPlugin.input_w _ _ _ _
             (CVFrame.PerformInference_frame CVPlugin.input_w (fun _ _ => eq_refl)
                (fun _ _ => eq_refl) w image out len) Hrun).
  rewrite (preserves_normal CVPlugin.input_h _ _ _ _
             (CVFrame.PerformInference_frame CVPlugin.input_h (fun _ _ => eq_refl)
                (fun _ _ => eq_refl) w image out len) Hrun).
  rewrite (preserves_normal CVPlugin.n_pixels _ _ _ _
             (CVFrame.PerformInference_frame CVPlugin.n_pixels (fun _ _ => eq_refl)
                (fun _ _ => eq_refl) w image out len) Hrun).
  repeat split; try done; try lia.
  rewrite <- Hlen.
  unfold CVPlugin.PerformInference in Hrun. unfold bind at 1 in Hrun.
  pose proof (cv_preprocess_length image g) as Hpre.
  destruct (CVPlugin.preprocess image g) as [[] g1|e g1|u]; [|discriminate..].
  cbn beta in Hpre. rewrite <- Hpre.
  match type of Hrun with
  | ?k g1 = _ =>
      assert (preserves (fun g => length (CVPlugin.input_data g)) k) as Hk
  end.
  { repeat first [ apply CVFrame.via_ort_frame; intros; reflexivity
                 | preserve_step ]. }
  exact (preserves_normal _ _ _ _ _ Hk Hrun).
Qed.

End LoadedFacts.

(** ** The transform yields the planar layout *)

Module PlanarFacts.

(** The quotient the code computes is the nearest single-precision number,
    for each of the 256 bytes. *)
Lemma normalize_rounded b :
  is_rounded_quotient (normalize b) (Z.of_N (Byte.to_N b)) 255 = true.
Proof. destruct b; vm_compute; reflexivity. Qed.

Lemma planar_cells n image buf :
  0 <= n -> n * 3 <= Z.of_nat (length image) ->
  length buf = Z.to_nat (n * 3) ->
  (forall p c, 0 <= p < n -> 0 <= c < 3 ->
     buf !! Z.to_nat (c * n + p) = Some (channel_value image p c)) ->
  planar_layout n image buf.
Proof.
  intros Hn Himg Hlen Hcells. split; [exact Hlen|]. split.
  - intros p c Hp Hc. exists (byte_at image (p * 3 + c)). split.
    + apply byte_at_lookup. lia.
    + split; [by apply Hcells | apply normalize_rounded].
  - intros j Hj. rewrite Hlen in Hj.
    destruct (cell_decomposition n (Z.of_nat j)) as (Hp & Hc & Heq); [lia|].
    exists (Z.of_nat j mod n), (Z.of_nat j / n).
    split; [exact Hp|]. split; [exact Hc|]. rewrite <- Heq. lia.
Qed.

(** The vector of the CV plugin, once every pixel has been processed. *)
Lemma fill_planar n image buf :
  0 <= n -> n * 3 <= Z.of_nat (length image) ->
  length buf = Z.to_nat (n * 3) ->
  planar_layout n image (fill image n (Z.to_nat n) 0 buf).
Proof.
  intros Hn Himg Hlen. apply planar_cells; try done.
  - by rewrite length_fill.
  - intros p c Hp Hc. apply fill_written; lia.
Qed.

(** The leading cells of the block of the YOLOX plugin. *)
Lemma fill_take_planar n image cells :
  0 <= n -> n * 3 <= Z.of_nat (length image) ->
  n * 3 <= Z.of_nat (length cells) ->
  planar_layout n image
    (take (Z.to_nat (n * 3)) (fill image n (Z.to_nat n) 0 cells)).
Proof.
  intros Hn Himg Hlen. apply planar_cells; try done.
  - rewrite length_take, length_fill. lia.
  - intros p c Hp Hc. rewrite lookup_take_lt by nia.
    apply fill_written; lia.
Qed.

End PlanarFacts.

Module ExampleFacts.

Lemma cv_loaded_2x1 :
  CVPlugin.LoadModel Examples.CV.first_load "model.onnx" "CPUExecutionProvider"
    (2, 1) Examples.CV.initialised
  = Normal CVOutcome.success Examples.CV.loaded_2x1.
Proof. vm_compute. reflexivity. Qed.

Lemma yolox_loaded_2x1 :
  YOLOXPlugin.LoadModel Examples.YOLOX.first_load "model.onnx"
    "DmlExecutionProvider" (2, 1) Examples.YOLOX.initialised
  = Normal 0 Examples.YOLOX.loaded_2x1.
Proof. vm_compute. reflexivity. Qed.

End ExampleFacts.

(** C1.  In a state loaded for [wd] x [ht] and on an image of at least
    [wd * ht * 3] bytes, the preprocessing of [PerformInference] stores
    [image[p*3 + c] / 255.0f] at index [c * n_pixels + p] for every pixel [p]
    and channel [c], and these stores cover every element of the buffer; this
    holds for both plugins.  The stored value is the single-precision number
    nearest to the quotient of the byte by 255 ([is_rounded_quotient], which
    is stated on integers and owes nothing to the division of the code). *)
Theorem layout_transform :
  (forall wd ht g image,
     CVOutcome.loaded wd ht g ->
     wd * ht * 3 <= Z.of_nat (length image) ->
     cv_transform_done wd ht g image) /\
  (forall wd ht g image,
     YOLOXOutcome.loaded wd ht g ->
     wd * ht * 3 <= Z.of_nat (length image) ->
     yolox_transform_done wd ht g image).
Proof.
  split.
  - intros wd ht g image (Hw & Hh & Hn & Hsize & Hlen) Himg.
    assert (CVPlugin.preprocess image g =
            Normal tt (CVPlugin.set_input_data
                         (fill image (wd * ht) (Z.to_nat (wd * ht)) 0
                            (CVPlugin.input_data g)) g)) as Hpre.
    { rewrite <- Hn. apply CVLayout.preprocess_run; rewrite ?Hn; lia. }
    eexists. split; [exact Hpre|]. split.
    + intros w out len r g2 Hrun.
      pose proof (CVFrame.PerformInference_after_preprocess CVPlugin.input_data
                    (fun _ _ => eq_refl) w image out len g _ Hpre) as Hk.
      by rewrite Hrun in Hk.
    + cbn [CVPlugin.input_data CVPlugin.set_input_data].
      apply PlanarFacts.fill_planar; lia.
  - intros wd ht g image
      (Hw & Hh & Hn & Hpos & Hmax & Hsz & cells & Hd & Hlen) Himg.
    assert (YOLOXPlugin.preprocess image g =
            Normal tt (YOLOXPlugin.set_input_data
                         (YOLOXPlugin.allocated
                            (fill image (wd * ht) (Z.to_nat (wd * ht)) 0 cells)) g))
      as Hpre.
    { rewrite <- Hn. apply YOLOXLayout.yolox_preprocess_run; rewrite ?Hn; try done; lia. }
    eexists. split; [exact Hpre|]. split.
    + intros w out len r g2 Hrun.
      pose proof (YOLOXFrame.yolox_PerformInference_after_preprocess
                    YOLOXPlugin.input_data
                    (fun _ _ => eq_refl) w image out len g _ Hpre) as Hk.
      by rewrite Hrun in Hk.
    + cbn [YOLOXPlugin.input_data YOLOXPlugin.set_input_data
           YOLOXPlugin.input_size YOLOXPlugin.tensor_view].
      rewrite Hsz, LoadedFacts.to_size_t_small by lia.
      unfold sizeof_float. rewrite Z.div_mul by lia.
      apply PlanarFacts.fill_take_planar; lia.
Qed.

Lemma layout_transform_witness :
  cv_transform_done 2 1 Examples.CV.loaded_2x1 Examples.image_2x1 /\
  yolox_transform_done 2 1 Examples.YOLOX.loaded_2x1 Examples.image_2x1.
Proof.
  split.
  - apply (proj1 layout_transform 2 1 Examples.CV.loaded_2x1 Examples.image_2x1).
    + unfold CVOutcome.loaded. simpl. rewrite INT_MAX_value. repeat split; lia.
    + simpl. lia.
  - apply (proj2 layout_transform 2 1 Examples.YOLOX.loaded_2x1 Examples.image_2x1).
    + unfold YOLOXOutcome.loaded. simpl. rewrite INT_MAX_value.
      repeat split; try lia. eexists. split; [reflexivity|]. simpl. lia.
    + simpl. lia.
Defined.

(** C8.  When [Run] leaves [output_tensor] null, [PerformInference] releases
    the input tensor and returns: the caller's [output_array] comes back
    exactly as it was passed, nothing is thrown, and the only trace of the
    call is in the log of runtime calls (and in the preprocessing buffer).
    The runtime is reached when the preprocessing has run to its end and the
    API pointer is set. *)
Theorem absent_output_is_silent :
  (forall w image out len g g1,
     CVPlugin.new_output_tensor w = nullptr ->
     is_null (CVPlugin.ort g) = false ->
     CVPlugin.preprocess image g = Normal tt g1 ->
     CVPlugin.PerformInference w image out len g =
       Normal out
         (CVPlugin.set_calls
            (CVPlugin.calls g1 ++ cv_calls_until_run w g1
               ++ [ReleaseValue (CVPlugin.new_input_tensor w)]) g1)) /\
  (forall w image out len g g1,
     YOLOXPlugin.new_output_tensor w = nullptr ->
     is_null (YOLOXPlugin.ort g) = false ->
     YOLOXPlugin.preprocess image g = Normal tt g1 ->
     YOLOXPlugin.PerformInference w image out len g =
       Normal out
         (YOLOXPlugin.set_calls
            (YOLOXPlugin.calls g1 ++ yolox_calls_until_run w g1
               ++ [ReleaseValue (YOLOXPlugin.new_input_tensor w);
                   ReleaseValue nullptr]) g1)).
Proof.
  split.
  - intros w image out len g g1 Hnull Hort Hpre.
    assert (is_null (CVPlugin.ort g1) = false) as Hort1.
    { rewrite (preserves_normal CVPlugin.ort _ _ _ _
                 (CVFrame.preprocess_frame CVPlugin.ort (fun _ _ => eq_refl) image)
                 Hpre). exact Hort. }
    unfold CVPlugin.PerformInference, cv_calls_until_run.
    erewrite bind_normal by exact Hpre.
    do 4 (erewrite bind_normal by reflexivity).
    erewrite bind_normal by (apply CVFacts.via_ort_run; exact Hort1).
    erewrite bind_normal by reflexivity. CVFacts.proj.
    erewrite bind_normal by (apply CVFacts.via_ort_run; exact Hort1).
    erewrite bind_normal by (apply CVFacts.via_ort_run; exact Hort1).
    erewrite bind_normal by reflexivity. CVFacts.proj.
    erewrite bind_normal by (apply CVFacts.via_ort_run; exact Hort1).
    rewrite Hnull. cbn [is_null].
    erewrite bind_normal by (apply CVFacts.via_ort_run; exact Hort1).
    unfold ret. CVFacts.proj. rewrite <- !app_assoc. cbn [app].
    by destruct g1.
  - intros w image out len g g1 Hnull Hort Hpre.
    assert (is_null (YOLOXPlugin.ort g1) = false) as Hort1.
    { rewrite (preserves_normal YOLOXPlugin.ort _ _ _ _
                 (YOLOXFrame.yolox_preprocess_frame YOLOXPlugin.ort (fun _ _ => eq_refl)
                    image) Hpre). exact Hort. }
    unfold YOLOXPlugin.PerformInference, yolox_calls_until_run.
    erewrite bind_normal by exact Hpre.
    do 4 (erewrite bind_normal by reflexivity).
    erewrite bind_normal by (apply YOLOXFacts.yolox_via_ort_run; exact Hort1).
    do 2 (erewrite bind_normal by reflexivity). YOLOXFacts.proj.
    erewrite bind_normal by (apply YOLOXFacts.yolox_via_ort_run; exact Hort1).
    erewrite bind_normal by (apply YOLOXFacts.yolox_via_ort_run; exact Hort1).
    erewrite bind_normal by reflexivity. YOLOXFacts.proj.
    erewrite bind_normal by (apply YOLOXFacts.yolox_via_ort_run; exact Hort1).
    rewrite Hnull. cbn [is_null].
    erewrite bind_normal by (apply YOLOXFacts.yolox_via_ort_run; exact Hort1).
    erewrite bind_normal by (apply YOLOXFacts.yolox_via_ort_run; exact Hort1).
    unfold ret. YOLOXFacts.proj. rewrite <- !app_assoc. cbn [app].
    by destruct g1.
Qed.

Lemma absent_output_is_silent_witness :
  CVPlugin.PerformInference Examples.CV.no_output Examples.image_2x1
      (Examples.ones 3) 3 Examples.CV.loaded_2x1 =
    Normal (Examples.ones 3)
      (CVPlugin.set_calls
         (CVPlugin.calls Examples.cv_preprocessed_2x1
            ++ cv_calls_until_run Examples.CV.no_output Examples.cv_preprocessed_2x1
            ++ [ReleaseValue (handle 9)])
         Examples.cv_preprocessed_2x1) /\
  YOLOXPlugin.PerformInference Examples.YOLOX.no_output Examples.image_2x1
      (Examples.ones 3) 3 Examples.YOLOX.loaded_2x1 =
    Normal (Examples.ones 3)
      (YOLOXPlugin.set_calls
         (YOLOXPlugin.calls Examples.yolox_preprocessed_2x1
            ++ yolox_calls_until_run Examples.YOLOX.no_output
                 Examples.yolox_preprocessed_2x1
            ++ [ReleaseValue (handle 9); ReleaseValue nullptr])
         Examples.yolox_preprocessed_2x1).
Proof.
  split.
  - apply (proj1 absent_output_is_silent Examples.CV.no_output Examples.image_2x1
             (Examples.ones 3) 3 Examples.CV.loaded_2x1 Examples.cv_preprocessed_2x1).
    + reflexivity.
    + reflexivity.
    + vm_compute. reflexivity.
  - apply (proj2 absent_output_is_silent Examples.YOLOX.no_output Examples.image_2x1
             (Examples.ones 3) 3 Examples.YOLOX.loaded_2x1
             Examples.yolox_preprocessed_2x1).
    + reflexivity.
    + reflexivity.
    + vm_compute. reflexivity.
Defined.

(** ** The registry before initialisation *)

Module HostFacts.

Lemma cv_serve_provider_names r :
  CVHost.is_init r = false -> preserves CVPlugin.provider_names (CVHost.serve r).
Proof.
  destruct r as [w| |index| |w path prov dims|w image out len];
    intros Hr; try discriminate; cbn [CVHost.serve].
  - repeat preserve_step.
  - repeat preserve_step.
  - apply CVFrame.FreeResources_frame. reflexivity.
  - apply preserves_bind; [apply CVFrame.LoadModel_provider_names|].
    intros _. apply preserves_ret.
  - apply preserves_bind; [|intros _; apply preserves_ret].
    apply CVFrame.PerformInference_frame; reflexivity.
Qed.

Lemma cv_serve_all_provider_names rs :
  Forall (fun r => CVHost.is_init r = false) rs ->
  preserves CVPlugin.provider_names (CVHost.serve_all rs).
Proof.
  induction 1 as [|r rs Hr _ IH]; cbn [CVHost.serve_all].
  - apply preserves_ret.
  - apply preserves_bind; [by apply cv_serve_provider_names | intros _; exact IH].
Qed.

Lemma yolox_serve_provider_count r :
  YOLOXHost.is_init r = false ->
  preserves YOLOXPlugin.provider_count (YOLOXHost.serve r).
Proof.
  destruct r as [w| |index| | |w path prov dims|w image out len];
    intros Hr; try discriminate; cbn [YOLOXHost.serve].
  - repeat preserve_step.
  - unfold YOLOXPlugin.GetProviderName. repeat preserve_step.
  - apply YOLOXFrame.RefreshMemory_frame; reflexivity.
  - apply YOLOXFrame.yolox_FreeResources_frame; reflexivity.
  - apply preserves_bind; [apply YOLOXFrame.LoadModel_provider_count|].
    intros _. apply preserves_ret.
  - apply preserves_bind; [|intros _; apply preserves_ret].
    apply YOLOXFrame.yolox_PerformInference_frame; reflexivity.
Qed.

Lemma yolox_serve_all_provider_count rs :
  Forall (fun r => YOLOXHost.is_init r = false) rs ->
  preserves YOLOXPlugin.provider_count (YOLOXHost.serve_all rs).
Proof.
  induction 1 as [|r rs Hr _ IH]; cbn [YOLOXHost.serve_all].
  - apply preserves_ret.
  - apply preserves_bind; [by apply yolox_serve_provider_count | intros _; exact IH].
Qed.

End HostFacts.

(** C10.  As long as [InitOrtAPI] has not been called, [GetProviderCount]
    returns 0 in both plugins: the list of names starts empty, the counter
    starts at zero, and no other exported function assigns them. *)
Theorem provider_count_zero_before_init :
  (forall rs g,
     Forall (fun r => CVHost.is_init r = false) rs ->
     CVHost.serve_all rs CVPlugin.initial = Normal tt g ->
     CVPlugin.GetProviderCount g = 0) /\
  (forall rs g,
     Forall (fun r => YOLOXHost.is_init r = false) rs ->
     YOLOXHost.serve_all rs YOLOXPlugin.initial = Normal tt g ->
     YOLOXPlugin.GetProviderCount g = 0).
Proof.
  split; intros rs g Hrs Hrun.
  - unfold CVPlugin.GetProviderCount.
    rewrite (preserves_normal _ _ _ _ _
               (HostFacts.cv_serve_all_provider_names rs Hrs) Hrun).
    reflexivity.
  - unfold YOLOXPlugin.GetProviderCount.
    rewrite (preserves_normal _ _ _ _ _
               (HostFacts.yolox_serve_all_provider_count rs Hrs) Hrun).
    reflexivity.
Qed.

Lemma provider_count_zero_before_init_witness :
  CVPlugin.GetProviderCount CVPlugin.initial = 0 /\
  YOLOXPlugin.GetProviderCount YOLOXPlugin.initial = 0.
Proof.
  split.
  - apply (proj1 provider_count_zero_before_init
             [CVHost.CallGetProviderName 0; CVHost.CallFreeResources]
             CVPlugin.initial).
    + repeat constructor.
    + reflexivity.
  - apply (proj2 provider_count_zero_before_init
             [YOLOXHost.CallGetProviderCount; YOLOXHost.CallRefreshMemory]
             YOLOXPlugin.initial).
    + repeat constructor.
    + reflexivity.
Defined.

(** ** The log of a load *)

Module LogFacts.

Lemma cv_selection_cases w prov settings :
  CVOutcome.selection w prov = Some settings ->
  settings = [] \/ settings = CVOutcome.dml_calls (CVPlugin.new_session_options w).
Proof.
  unfold CVOutcome.selection.
  destruct (CVPlugin.dml_iterated_first w), (contains prov "CPU"),
    (contains prov "Dml"); intros [= <-]; auto.
Qed.

(** Every returning [LoadModel] of the CV plugin, successful or not, has
    made the opening calls, and the settings and session calls when a key
    was found. *)
Lemma cv_LoadModel_log w path prov dims g r g' :
  CVPlugin.LoadModel w path prov dims g = Normal r g' ->
  CVPlugin.calls g' =
    CVPlugin.calls g ++ CVOutcome.prologue w ++
      match CVOutcome.selection w prov with
      | Some settings => settings ++ CVOutcome.session_calls w path
      | None => []
      end.
Proof.
  rewrite CVFacts.LoadModel_closed. unfold CVOutcome.LoadModel_outcome.
  CVFacts.load_cases w prov; try discriminate; intros [= <- <-];
    cbn [CVPlugin.calls CVPlugin.set_calls CVPlugin.set_input_data
         CVPlugin.set_n_pixels CVPlugin.set_input_h CVPlugin.set_input_w
         CVPlugin.set_output_name CVPlugin.set_input_name];
    rewrite ?app_nil_r; reflexivity.
Qed.

Lemma yolox_LoadModel_log w path prov dims g r g' :
  YOLOXPlugin.LoadModel w path prov dims g = Normal r g' ->
  r = fst (YOLOXOutcome.selection w prov) /\
  YOLOXPlugin.session g' = YOLOXPlugin.new_session w /\
  YOLOXPlugin.calls g' =
    YOLOXPlugin.calls g ++ YOLOXOutcome.prologue w ++
      snd (YOLOXOutcome.selection w prov) ++ YOLOXOutcome.session_calls w path.
Proof.
  rewrite YOLOXFacts.yolox_LoadModel_closed. unfold YOLOXOutcome.LoadModel_outcome.
  destruct (is_null _); [discriminate|].
  destruct (YOLOXOutcome.selection w prov) as [rv settings].
  destruct (negb _); [discriminate|].
  destruct (negb _); [discriminate|].
  destruct (negb _); [discriminate|].
  destruct (YOLOXPlugin.malloc_succeeds w).
  - destruct (_ <=? _); [|discriminate]. intros [= <- <-]. by destruct g.
  - intros [= <- <-]. by destruct g.
Qed.

Lemma yolox_selection_cases w prov :
  snd (YOLOXOutcome.selection w prov) = [] \/
  snd (YOLOXOutcome.selection w prov)
    = YOLOXOutcome.dml_calls (YOLOXPlugin.new_session_options w).
Proof.
  unfold YOLOXOutcome.selection.
  destruct (contains prov "CPU"), (contains prov "Dml"); auto.
Qed.

(** Calls other than releases never shorten the lists of live handles. *)
Lemma track_env_grows added : forall live,
  Forall (fun c => is_release c = false) added ->
  exists more, fold_left track_env added live = live ++ more.
Proof.
  induction added as [|c added IH]; intros live Hadded; simpl.
  - exists []. by rewrite app_nil_r.
  - inversion Hadded as [|? ? Hc Hrest]; subst.
    destruct (IH (track_env live c) Hrest) as [more Hmore]. rewrite Hmore.
    destruct c; try discriminate; simpl; try (by exists more).
    destruct out; [by exists more|].
    eexists. by rewrite <- app_assoc.
Qed.

Lemma track_session_grows added : forall live,
  Forall (fun c => is_release c = false) added ->
  exists more, fold_left track_session added live = live ++ more.
Proof.
  induction added as [|c added IH]; intros live Hadded; simpl.
  - exists []. by rewrite app_nil_r.
  - inversion Hadded as [|? ? Hc Hrest]; subst.
    destruct (IH (track_session live c) Hrest) as [more Hmore]. rewrite Hmore.
    destruct c; try discriminate; simpl; try (by exists more).
    destruct out; [by exists more|].
    eexists. by rewrite <- app_assoc.
Qed.

Lemma live_handles_persist log added :
  Forall (fun c => is_release c = false) added ->
  (forall p, In p (live_envs log) -> In p (live_envs (log ++ added))) /\
  (forall p, In p (live_sessions log) -> In p (live_sessions (log ++ added))).
Proof.
  intros Hadded. unfold live_envs, live_sessions. rewrite !fold_left_app.
  destruct (track_env_grows added (fold_left track_env log []) Hadded) as [m1 ->].
  destruct (track_session_grows added (fold_left track_session log []) Hadded)
    as [m2 ->].
  split; intros p Hp; apply in_or_app; by left.
Qed.

End LogFacts.

(** C3, as stated, fails on the CV plugin: [resize] keeps the elements that
    fit.  Reloading for 1x1 after a 2x1 frame has been preprocessed leaves
    the first three values of that frame in the buffer, where a buffer of
    zeros would have left zeros. *)
Lemma reload_keeps_old_contents :
  ~ AsStated.cv_load_discards_old_contents Examples.CV.second_load "model.onnx"
      "CPUExecutionProvider" (1, 1) Examples.cv_preprocessed_2x1.
Proof.
  intros Hclaim.
  specialize (Hclaim (replicate 6 float_zero) Examples.cv_reloaded_1x1
                Examples.cv_reloaded_1x1_from_zeros).
  assert (CVPlugin.input_data Examples.cv_reloaded_1x1_from_zeros
          = CVPlugin.input_data Examples.cv_reloaded_1x1) as Heq.
  { apply Hclaim; vm_compute; reflexivity. }
  vm_compute in Heq. discriminate Heq.
Qed.

(** C3, amended.  After a successful [LoadModel] of the CV plugin with
    dimensions [(wd, ht)] the buffer holds exactly [wd * ht * 3] elements,
    whatever it held before; the elements of the old buffer that fit are
    kept, and the added ones are zero. *)
Theorem buffer_sizing (w : CVPlugin.load_world) (path prov : string)
    (wd ht : Z) (g g' : CVPlugin.globals) :
  CVPlugin.LoadModel w path prov (wd, ht) g = Normal CVOutcome.success g' ->
  0 <= wd * ht * 3 /\
  length (CVPlugin.input_data g') = Z.to_nat (wd * ht * 3) /\
  (forall i, (i < length (CVPlugin.input_data g))%nat ->
             (i < Z.to_nat (wd * ht * 3))%nat ->
             CVPlugin.input_data g' !! i = CVPlugin.input_data g !! i) /\
  (forall i, (length (CVPlugin.input_data g) <= i)%nat ->
             (i < Z.to_nat (wd * ht * 3))%nat ->
             CVPlugin.input_data g' !! i = Some float_zero).
Proof.
  intros Hrun.
  apply LoadedFacts.cv_LoadModel_success in Hrun as (Hsize & settings & Hrun).
  destruct Hrun as (_ & _ & _ & _ & _ & _ & Hd & _).
  rewrite Hd. unfold resized.
  split; [lia|]. split; [apply length_resize|]. split.
  - intros i Hold Hnew. by apply lookup_resize.
  - intros i Hold Hnew. by apply lookup_resize_new.
Qed.

Lemma buffer_sizing_witness :
  0 <= 1 * 1 * 3 /\
  length (CVPlugin.input_data Examples.cv_reloaded_1x1) = Z.to_nat (1 * 1 * 3) /\
  (forall i, (i < length (CVPlugin.input_data Examples.cv_preprocessed_2x1))%nat ->
             (i < Z.to_nat (1 * 1 * 3))%nat ->
             CVPlugin.input_data Examples.cv_reloaded_1x1 !! i
             = CVPlugin.input_data Examples.cv_preprocessed_2x1 !! i) /\
  (forall i, (length (CVPlugin.input_data Examples.cv_preprocessed_2x1) <= i)%nat ->
             (i < Z.to_nat (1 * 1 * 3))%nat ->
             CVPlugin.input_data Examples.cv_reloaded_1x1 !! i = Some float_zero).
Proof.
  apply (buffer_sizing Examples.CV.second_load "model.onnx" "CPUExecutionProvider"
           1 1 Examples.cv_preprocessed_2x1 Examples.cv_reloaded_1x1).
  vm_compute. reflexivity.
Defined.

(** C5, as stated, fails on the CV plugin: a load whose buffer cannot be
    sized (here a negative width) leaves through the handler, which does not
    return the success message, and the session created earlier in the call
    stays in [session]. *)
Lemma failed_load_keeps_session :
  ~ AsStated.cv_failed_load_leaves_session_unset Examples.CV.first_load
      "model.onnx" "CPUExecutionProvider" (-1, 1) Examples.CV.initialised.
Proof.
  intros Hclaim.
  specialize (Hclaim (what length_error) Examples.cv_failed_load).
  assert (CVPlugin.session Examples.cv_failed_load = nullptr) as Heq.
  { apply Hclaim; [vm_compute; reflexivity | discriminate]. }
  vm_compute in Heq. discriminate Heq.
Qed.

(** C5, amended.  Every [LoadModel] of the CV plugin that returns falls in
    one of four cases.  No key is found in the selector: the value returned
    is the literal for an unknown provider, the caller reads that text, and
    [session] is what it was.  A key is found, and then [session] is the new
    session and either the value returned is the success literal, the caller
    reads that text and the buffer has [wd * ht * 3] elements, or
    [wd * ht * 3] is negative and the handler was entered with a
    [length_error], or the buffer had to grow, the allocation failed and the
    handler was entered with a [bad_alloc].  In the last two cases the value
    returned is the pointer [what()] gave, which is not one of the two
    literals; nothing is said of what can be read through it. *)
Theorem load_status (w : CVPlugin.load_world) (path prov : string)
    (wd ht : Z) (g g' : CVPlugin.globals) (r : c_string) :
  CVPlugin.LoadModel w path prov (wd, ht) g = Normal r g' ->
  (CVOutcome.selection w prov = None /\
   r = CVOutcome.unknown /\
   read_c_string r g' = Normal "Unknown execution provider specified."%string g' /\
   CVPlugin.session g' = CVPlugin.session g)
  \/
  (CVOutcome.selection w prov <> None /\
   CVPlugin.session g' = CVPlugin.new_session w /\
   ((r = CVOutcome.success /\
     read_c_string r g' = Normal "Model loaded successfully."%string g' /\
     0 <= wd * ht * 3 /\
     length (CVPlugin.input_data g') = Z.to_nat (wd * ht * 3))
    \/ (r = what length_error /\ wd * ht * 3 < 0)
    \/ (r = what bad_alloc /\ CVPlugin.allocation_succeeds w = false /\
        Z.of_nat (length (CVPlugin.input_data g)) < wd * ht * 3))).
Proof.
  intros Hrun. pose proof Hrun as Hcopy. revert Hrun.
  rewrite CVFacts.LoadModel_closed. unfold CVOutcome.LoadModel_outcome.
  cbn [fst snd].
  CVFacts.load_cases w prov; try discriminate; intros [= <- <-].
  - right. split; [done|]. split; [reflexivity|]. right. left.
    split; [done|].
    match goal with H : in_int (wd * ht * 3) = true |- _ =>
      apply in_int_inv in H; rename H into Hint end.
    match goal with H : (vector_max_size <? _) = true |- _ =>
      apply Z.ltb_lt in H; rename H into Hmax end.
    destruct (Z_lt_le_dec (wd * ht * 3) 0) as [|Hpos]; [done|].
    rewrite LoadedFacts.to_size_t_small in Hmax by lia.
    rewrite INT_MAX_value in Hint.
    rewrite vector_max_size_value in Hmax. lia.
  - right. split; [done|]. split; [reflexivity|]. left.
    apply LoadedFacts.cv_LoadModel_success in Hcopy as (Hsize & st & Hcopy).
    destruct Hcopy as (_ & _ & _ & _ & _ & _ & Hd & _).
    split; [done|]. split; [reflexivity|]. split; [lia|].
    rewrite Hd. apply length_resize.
  - right. split; [done|]. split; [reflexivity|]. right. right.
    split; [done|].
    match goal with H : in_int (wd * ht * 3) = true |- _ =>
      apply in_int_inv in H; rename H into Hint end.
    match goal with H : (vector_max_size <? _) = false |- _ =>
      apply Z.ltb_ge in H; rename H into Hmax end.
    match goal with H : (_ || _) = false |- _ =>
      apply orb_false_iff in H as [Hlen Halloc] end.
    split; [exact Halloc|]. apply Z.leb_gt in Hlen.
    destruct (Z_lt_le_dec (wd * ht * 3) 0) as [Hneg|Hpos].
    + rewrite LoadedFacts.to_size_t_negative in Hmax by lia.
      rewrite INT_MIN_value in Hint.
      rewrite vector_max_size_value in Hmax.
      change (2 ^ 64) with 18446744073709551616 in Hmax. lia.
    + rewrite LoadedFacts.to_size_t_small in Hlen by lia.
      cbn [CVPlugin.input_data] in Hlen. lia.
  - left. split; [done|]. split; [reflexivity|]. split; reflexivity.
Qed.

Lemma load_status_witness :
  (CVOutcome.selection Examples.CV.first_load "CPUExecutionProvider" = None /\
   what length_error = CVOutcome.unknown /\
   read_c_string (what length_error) Examples.cv_failed_load
   = Normal "Unknown execution provider specified."%string Examples.cv_failed_load /\
   CVPlugin.session Examples.cv_failed_load
   = CVPlugin.session Examples.CV.initialised)
  \/
  (CVOutcome.selection Examples.CV.first_load "CPUExecutionProvider" <> None /\
   CVPlugin.session Examples.cv_failed_load
   = CVPlugin.new_session Examples.CV.first_load /\
   ((what length_error = CVOutcome.success /\
     read_c_string (what length_error) Examples.cv_failed_load
     = Normal "Model loaded successfully."%string Examples.cv_failed_load /\
     0 <= -1 * 1 * 3 /\
     length (CVPlugin.input_data Examples.cv_failed_load) = Z.to_nat (-1 * 1 * 3))
    \/ (what length_error = what length_error /\ -1 * 1 * 3 < 0)
    \/ (what length_error = what bad_alloc /\
        CVPlugin.allocation_succeeds Examples.CV.first_load = false /\
        Z.of_nat (length (CVPlugin.input_data Examples.CV.initialised))
        < -1 * 1 * 3))).
Proof.
  apply (load_status Examples.CV.first_load "model.onnx" "CPUExecutionProvider"
           (-1) 1 Examples.CV.initialised Examples.cv_failed_load
           (what length_error)).
  vm_compute. reflexivity.
Defined.

(** C6, as stated, fails: [LoadModel] of the CV plugin called on a loaded
    state creates a second environment and a second session while the first
    ones are still live. *)
Lemma reload_leaves_two_live :
  ~ AsStated.cv_load_keeps_one_live Examples.CV.second_load "model.onnx"
      "CPUExecutionProvider" (1, 1) Examples.cv_preprocessed_2x1.
Proof.
  intros Hclaim.
  destruct (Hclaim CVOutcome.success Examples.cv_reloaded_1x1) as [Henv _].
  { vm_compute. reflexivity. }
  vm_compute in Henv. lia.
Qed.

(** C6, amended.  In both plugins [LoadModel] releases nothing: the calls it
    adds to the log contain no [ReleaseSession] and no [ReleaseEnv], so every
    environment and every session that was live before the call is still
    live after it.  The previous handles are released only by
    [FreeResources] (or [RefreshMemory]), which the host has to call before
    it loads again. *)
Theorem load_releases_nothing :
  (forall w path prov dims g r g',
     CVPlugin.LoadModel w path prov dims g = Normal r g' ->
     exists added,
       CVPlugin.calls g' = CVPlugin.calls g ++ added /\
       Forall (fun c => is_release c = false) added /\
       (forall p, In p (live_envs (CVPlugin.calls g)) ->
                  In p (live_envs (CVPlugin.calls g'))) /\
       (forall p, In p (live_sessions (CVPlugin.calls g)) ->
                  In p (live_sessions (CVPlugin.calls g')))) /\
  (forall w path prov dims g r g',
     YOLOXPlugin.LoadModel w path prov dims g = Normal r g' ->
     exists added,
       YOLOXPlugin.calls g' = YOLOXPlugin.calls g ++ added /\
       Forall (fun c => is_release c = false) added /\
       (forall p, In p (live_envs (YOLOXPlugin.calls g)) ->
                  In p (live_envs (YOLOXPlugin.calls g'))) /\
       (forall p, In p (live_sessions (YOLOXPlugin.calls g)) ->
                  In p (live_sessions (YOLOXPlugin.calls g')))).
Proof.
  split.
  - intros w path prov dims g r g' Hrun.
    apply LogFacts.cv_LoadModel_log in Hrun. eexists. split; [exact Hrun|].
    assert (Forall (fun c => is_release c = false)
              (CVOutcome.prologue w ++
               match CVOutcome.selection w prov with
               | Some settings => settings ++ CVOutcome.session_calls w path
               | None => []
               end)) as Hadded.
    { destruct (CVOutcome.selection w prov) as [settings|] eqn:Hsel.
      - destruct (LogFacts.cv_selection_cases _ _ _ Hsel) as [-> | ->];
          repeat constructor.
      - repeat constructor. }
    split; [exact Hadded|]. rewrite Hrun.
    by apply LogFacts.live_handles_persist.
  - intros w path prov dims g r g' Hrun.
    apply LogFacts.yolox_LoadModel_log in Hrun as (_ & _ & Hrun).
    eexists. split; [exact Hrun|].
    assert (Forall (fun c => is_release c = false)
              (YOLOXOutcome.prologue w ++
               snd (YOLOXOutcome.selection w prov) ++
               YOLOXOutcome.session_calls w path)) as Hadded.
    { destruct (LogFacts.yolox_selection_cases w prov) as [-> | ->];
        repeat constructor. }
    split; [exact Hadded|]. rewrite Hrun.
    by apply LogFacts.live_handles_persist.
Qed.

Lemma load_releases_nothing_witness :
  (exists added,
     CVPlugin.calls Examples.cv_reloaded_1x1
     = CVPlugin.calls Examples.cv_preprocessed_2x1 ++ added /\
     Forall (fun c => is_release c = false) added /\
     (forall p, In p (live_envs (CVPlugin.calls Examples.cv_preprocessed_2x1)) ->
                In p (live_envs (CVPlugin.calls Examples.cv_reloaded_1x1))) /\
     (forall p, In p (live_sessions (CVPlugin.calls Examples.cv_preprocessed_2x1)) ->
                In p (live_sessions (CVPlugin.calls Examples.cv_reloaded_1x1)))) /\
  (exists added,
     YOLOXPlugin.calls Examples.yolox_reloaded
     = YOLOXPlugin.calls Examples.YOLOX.loaded_2x1 ++ added /\
     Forall (fun c => is_release c = false) added /\
     (forall p, In p (live_envs (YOLOXPlugin.calls Examples.YOLOX.loaded_2x1)) ->
                In p (live_envs (YOLOXPlugin.calls Examples.yolox_reloaded))) /\
     (forall p, In p (live_sessions (YOLOXPlugin.calls Examples.YOLOX.loaded_2x1)) ->
                In p (live_sessions (YOLOXPlugin.calls Examples.yolox_reloaded)))).
Proof.
  split.
  - apply (proj1 load_releases_nothing Examples.CV.second_load "model.onnx"%string
             "CPUExecutionProvider"%string (1, 1) Examples.cv_preprocessed_2x1
             CVOutcome.success Examples.cv_reloaded_1x1).
    vm_compute. reflexivity.
  - apply (proj2 load_releases_nothing Examples.YOLOX.second_load "model.onnx"%string
             "DmlExecutionProvider"%string (1, 1) Examples.YOLOX.loaded_2x1
             0 Examples.yolox_reloaded).
    vm_compute. reflexivity.
Defined.

(** C7, as stated, fails: a selector in which both keys occur cannot get
    both configurations.  With "Dml,CPU" the YOLOX plugin tests "CPU" first
    and applies no flag although the selector matches "Dml"; the CV plugin
    does the same when its map yields "CPU" first, and applies the DirectML
    flags although the selector matches "CPU" when its map yields "Dml"
    first. *)
Lemma selector_matching_both_keys :
  ~ yolox_configuration_by_match Examples.YOLOX.first_load "model.onnx" "Dml,CPU"
      (2, 1) Examples.YOLOX.initialised /\
  ~ cv_configuration_by_match Examples.CV.first_load "model.onnx" "Dml,CPU"
      (2, 1) Examples.CV.initialised /\
  ~ cv_configuration_by_match Examples.CV.dml_first_load "model.onnx" "Dml,CPU"
      (2, 1) Examples.CV.initialised.
Proof.
  split; [|split]; intros Hclaim.
  - destruct (Hclaim 1 Examples.yolox_loaded_both) as [_ Hdml].
    { vm_compute. reflexivity. }
    specialize (Hdml eq_refl). vm_compute in Hdml. discriminate Hdml.
  - destruct (Hclaim CVOutcome.success Examples.cv_loaded_both) as [_ Hdml].
    { vm_compute. reflexivity. }
    specialize (Hdml eq_refl). vm_compute in Hdml. discriminate Hdml.
  - destruct (Hclaim CVOutcome.success Examples.cv_loaded_both_dml_first)
      as [Hcpu _].
    { vm_compute. reflexivity. }
    specialize (Hcpu eq_refl). vm_compute in Hcpu. discriminate Hcpu.
Qed.

(** C7, amended.  The settings applied by a returning [LoadModel] are a
    function of which keys occur in the selector.  "CPU" without "Dml": none.
    "Dml" without "CPU": [DisableMemPattern], then
    [SetSessionExecutionMode] with [ORT_SEQUENTIAL], then the DirectML
    provider with device 0, all on the new session options, and nothing
    else.  Both keys: the YOLOX plugin applies none, and the CV plugin does
    what the key that its map yields first asks for. *)
Theorem backend_configuration :
  (forall w path prov dims g r g',
     CVPlugin.LoadModel w path prov dims g = Normal r g' ->
     settings_applied (CVPlugin.calls g) (CVPlugin.calls g') =
       match contains prov "CPU", contains prov "Dml" with
       | true, false => []
       | false, true => CVOutcome.dml_calls (CVPlugin.new_session_options w)
       | true, true =>
           if CVPlugin.dml_iterated_first w
           then CVOutcome.dml_calls (CVPlugin.new_session_options w)
           else []
       | false, false => []
       end) /\
  (forall w path prov dims g r g',
     YOLOXPlugin.LoadModel w path prov dims g = Normal r g' ->
     settings_applied (YOLOXPlugin.calls g) (YOLOXPlugin.calls g') =
       match contains prov "CPU", contains prov "Dml" with
       | false, true => YOLOXOutcome.dml_calls (YOLOXPlugin.new_session_options w)
       | _, _ => []
       end).
Proof.
  split.
  - intros w path prov dims g r g' Hrun.
    apply LogFacts.cv_LoadModel_log in Hrun. rewrite Hrun.
    unfold settings_applied. rewrite drop_app_length.
    unfold CVOutcome.selection.
    destruct (CVPlugin.dml_iterated_first w), (contains prov "CPU"),
      (contains prov "Dml"); reflexivity.
  - intros w path prov dims g r g' Hrun.
    apply LogFacts.yolox_LoadModel_log in Hrun as (_ & _ & Hrun). rewrite Hrun.
    unfold settings_applied. rewrite drop_app_length.
    unfold YOLOXOutcome.selection.
    destruct (contains prov "CPU"), (contains prov "Dml"); reflexivity.
Qed.

Lemma backend_configuration_witness :
  settings_applied (CVPlugin.calls Examples.CV.initialised)
    (CVPlugin.calls Examples.cv_loaded_both) = [] /\
  settings_applied (YOLOXPlugin.calls Examples.YOLOX.initialised)
    (YOLOXPlugin.calls Examples.YOLOX.loaded_2x1)
  = YOLOXOutcome.dml_calls (handle 3).
Proof.
  split.
  - apply (proj1 backend_configuration Examples.CV.first_load "model.onnx"%string
             "Dml,CPU"%string (2, 1) Examples.CV.initialised CVOutcome.success
             Examples.cv_loaded_both).
    vm_compute. reflexivity.
  - apply (proj2 backend_configuration Examples.YOLOX.first_load "model.onnx"%string
             "DmlExecutionProvider"%string (2, 1) Examples.YOLOX.initialised 0
             Examples.YOLOX.loaded_2x1).
    vm_compute. reflexivity.
Defined.

(** ** Loaded states of the YOLOX plugin *)

Module YOLOXLoadedFacts.

(** A negative byte count sent through [memset] overruns any block that
    [malloc] can have returned for it. *)
Lemma negative_size_overruns size :
  INT_MIN <= size < 0 ->
  (to_size_t size <=? (to_size_t size * sizeof_pointer) mod SIZE_MODULUS) = false.
Proof.
  intros Hsize. rewrite LoadedFacts.to_size_t_negative by exact Hsize.
  rewrite INT_MIN_value in Hsize. unfold sizeof_pointer, SIZE_MODULUS.
  rewrite <- (Z.mod_unique ((size + 2 ^ 64) * 8) (2 ^ 64) 7 (8 * size + 2 ^ 64));
    [apply Z.leb_gt; lia | lia | lia].
Qed.

(** A returning [LoadModel] whose [malloc] succeeded leaves a loaded state. *)
Lemma yolox_LoadModel_loaded w path prov wd ht g r g' :
  YOLOXPlugin.malloc_succeeds w = true ->
  YOLOXPlugin.LoadModel w path prov (wd, ht) g = Normal r g' ->
  YOLOXOutcome.loaded wd ht g'.
Proof.
  intros Hmalloc. rewrite YOLOXFacts.yolox_LoadModel_closed.
  unfold YOLOXOutcome.LoadModel_outcome. cbn [fst snd]. rewrite Hmalloc.
  destruct (is_null _); [discriminate|].
  destruct (YOLOXOutcome.selection w prov) as [rv settings].
  destruct (in_int (wd * ht)) eqn:Hn; cbn [negb]; [|discriminate].
  destruct (in_int (wd * ht * 3)) eqn:Hn3; cbn [negb]; [|discriminate].
  destruct (in_int (wd * ht * 3 * 4)) eqn:Hsize; cbn [negb]; [|discriminate].
  destruct (_ <=? _) eqn:Hfits; [|discriminate].
  intros [= <- <-].
  apply in_int_inv in Hsize.
  assert (0 <= wd * ht * 3 * 4) as Hpos.
  { destruct (Z_lt_le_dec (wd * ht * 3 * 4) 0) as [Hneg|]; [|done].
    rewrite negative_size_overruns in Hfits by lia. discriminate. }
  unfold YOLOXOutcome.loaded.
  cbn [YOLOXPlugin.input_w YOLOXPlugin.input_h YOLOXPlugin.n_pixels
       YOLOXPlugin.input_size YOLOXPlugin.input_data
       YOLOXPlugin.set_input_data YOLOXPlugin.set_input_size
       YOLOXPlugin.set_n_pixels YOLOXPlugin.set_input_h YOLOXPlugin.set_input_w].
  repeat split; try lia.
  eexists. split; [reflexivity|].
  unfold YOLOXOutcome.fresh_block.
  rewrite length_app, length_replicate.
  rewrite LoadedFacts.to_size_t_small by lia.
  unfold sizeof_float. rewrite Z.div_mul by lia. lia.
Qed.

(** The block of the example has eight times the cells the tensor covers. *)
Lemma yolox_block_is_oversized :
  exists cells,
    YOLOXPlugin.input_data Examples.YOLOX.loaded_2x1 = YOLOXPlugin.allocated cells /\
    length cells = 48%nat /\
    length (YOLOXPlugin.tensor_view (YOLOXPlugin.input_data Examples.YOLOX.loaded_2x1)
              (to_size_t (YOLOXPlugin.input_size Examples.YOLOX.loaded_2x1)))
    = 6%nat.
Proof. eexists. split; [reflexivity|]. split; reflexivity. Qed.

End YOLOXLoadedFacts.

(** ** Two more runs *)

Module RunFacts.

(** With an output tensor of two floats and [length = 2], the first two
    elements of [output_array] are overwritten and the third is kept. *)
Lemma cv_inference_copies_output :
  exists g',
    CVPlugin.PerformInference Examples.CV.some_output Examples.image_2x1
      (Examples.ones 3) 2 Examples.CV.loaded_2x1
    = Normal [float_zero; float_zero; float_of_int 1] g' /\
    CVPlugin.input_data g' = CVPlugin.input_data Examples.cv_preprocessed_2x1.
Proof. eexists. split; vm_compute; reflexivity. Qed.

(** Asking for more floats than the output tensor holds reads outside it. *)
Lemma cv_inference_overlong_copy :
  CVPlugin.PerformInference Examples.CV.some_output Examples.image_2x1
    (Examples.ones 3) 3 Examples.CV.loaded_2x1
  = Undefined OutOfBounds.
Proof. vm_compute. reflexivity. Qed.

(** When the map yields "Dml" first, the selector "Dml,CPU" gets the
    DirectML settings. *)
Lemma cv_both_keys_dml_first :
  exists g',
    CVPlugin.LoadModel Examples.CV.dml_first_load "model.onnx" "Dml,CPU" (2, 1)
      Examples.CV.initialised = Normal CVOutcome.success g' /\
    settings_applied (CVPlugin.calls Examples.CV.initialised) (CVPlugin.calls g')
    = CVOutcome.dml_calls (handle 3).
Proof. eexists. split; vm_compute; reflexivity. Qed.

(** The YOLOX plugin returns 1 for a load on the CPU and 0 for a load with
    DirectML. *)
Lemma yolox_return_values :
  (exists g', YOLOXPlugin.LoadModel Examples.YOLOX.first_load "model.onnx"
                "CPUExecutionProvider" (2, 1) Examples.YOLOX.initialised
              = Normal 1 g') /\
  (exists g', YOLOXPlugin.LoadModel Examples.YOLOX.first_load "model.onnx"
                "DmlExecutionProvider" (2, 1) Examples.YOLOX.initialised
              = Normal 0 g').
Proof. split; eexists; vm_compute; reflexivity. Qed.

(** [FreeResources] between two loads of the CV plugin leaves one live
    environment and one live session after the second load. *)
Lemma cv_unload_then_reload :
  exists g',
    bind CVPlugin.FreeResources
      (fun _ => CVPlugin.LoadModel Examples.CV.second_load "model.onnx"
                  "CPUExecutionProvider" (1, 1))
      Examples.cv_preprocessed_2x1 = Normal CVOutcome.success g' /\
    live_envs (CVPlugin.calls g') = [handle 5] /\
    live_sessions (CVPlugin.calls g') = [handle 7].
Proof. eexists. split; [|split]; vm_compute; reflexivity. Qed.

End RunFacts.

(** ** [PerformInference] keeps the YOLOX plugin loaded *)

Module YOLOXKeepFacts.

(** The number of cells of the block, when there is one. *)
Lemma yolox_preprocess_cells image :
  preserves
    (fun g => match YOLOXPlugin.input_data g with
              | YOLOXPlugin.allocated cells => Some (length cells)
              | _ => None
              end)
    (YOLOXPlugin.preprocess image).
Proof.
  unfold YOLOXPlugin.preprocess, YOLOXPlugin.preprocess_pixel.
  repeat preserve_step.
  intros g. unfold YOLOXPlugin.preprocess_channel, YOLOXPlugin.store_input_data.
  unfold bind, int_mul, int_add, checked, read_at, gets, undefined, ret.
  destruct (in_int _); [|exact I].
  destruct (in_int _); [|exact I].
  destruct (_ && _); [|exact I].
  destruct (image !! _); [|exact I].
  destruct (in_int _); [|exact I].
  destruct (in_int _); [|exact I].
  destruct (YOLOXPlugin.input_data g) as [|cells|] eqn:Hd; try exact I.
  unfold write_at. destruct (_ && _); [|exact I].
  cbn. by rewrite length_insert.
Qed.

Lemma yolox_PerformInference_loaded w image out len wd ht g g' r :
  YOLOXOutcome.loaded wd ht g ->
  YOLOXPlugin.PerformInference w image out len g = Normal r g' ->
  YOLOXOutcome.loaded wd ht g'.
Proof.
  intros (Hw & Hh & Hn & Hpos & Hmax & Hsz & cells & Hd & Hlen) Hrun.
  unfold YOLOXOutcome.loaded.
  rewrite (preserves_normal YOLOXPlugin.input_w _ _ _ _
             (YOLOXFrame.yolox_PerformInference_frame YOLOXPlugin.input_w
                (fun _ _ => eq_refl) (fun _ _ => eq_refl) w image out len) Hrun).
  rewrite (preserves_normal YOLOXPlugin.input_h _ _ _ _
             (YOLOXFrame.yolox_PerformInference_frame YOLOXPlugin.input_h
                (fun _ _ => eq_refl) (fun _ _ => eq_refl) w image out len) Hrun).
  rewrite (preserves_normal YOLOXPlugin.n_pixels _ _ _ _
             (YOLOXFrame.yolox_PerformInference_frame YOLOXPlugin.n_pixels
                (fun _ _ => eq_refl) (fun _ _ => eq_refl) w image out len) Hrun).
  rewrite (preserves_normal YOLOXPlugin.input_size _ _ _ _
             (YOLOXFrame.yolox_PerformInference_frame YOLOXPlugin.input_size
                (fun _ _ => eq_refl) (fun _ _ => eq_refl) w image out len) Hrun).
  repeat split; try done.
  unfold YOLOXPlugin.PerformInference in Hrun. unfold bind at 1 in Hrun.
  pose proof (yolox_preprocess_cells image g) as Hpre.
  destruct (YOLOXPlugin.preprocess image g) as [[] g1|e g1|u]; [|discriminate..].
  cbn beta in Hpre. rewrite Hd in Hpre.
  assert (YOLOXPlugin.input_data g' = YOLOXPlugin.input_data g1) as Hsame.
  { match type of Hrun with
    | ?k g1 = _ => assert (preserves YOLOXPlugin.input_data k) as Hpres
    end.
    { repeat first [ apply YOLOXFrame.yolox_via_ort_frame; intros; reflexivity
                   | preserve_step ]. }
    exact (preserves_normal _ _ _ _ _ Hpres Hrun). }
  rewrite Hsame.
  destruct (YOLOXPlugin.input_data g1) as [|cells1|]; try discriminate.
  injection Hpre as Hpre. exists cells1. split; [reflexivity|]. lia.
Qed.

End YOLOXKeepFacts.

(** ** An image that is too short *)

Module ShortImageFacts.

(** With five bytes for two pixels, the loop reads outside the image. *)
Lemma cv_short_image :
  CVPlugin.PerformInference Examples.CV.no_output (take 5 Examples.image_2x1)
    (Examples.ones 3) 3 Examples.CV.loaded_2x1
  = Undefined OutOfBounds.
Proof. vm_compute. reflexivity. Qed.

End ShortImageFacts.

(** * Further properties of the exported functions *)

(** ** The registry after [InitOrtAPI] *)

Module InitFacts.

Lemma to_int_small z : 0 <= z <= INT_MAX -> to_int z = z.
Proof.
  rewrite INT_MAX_value. intros Hz. unfold to_int.
  rewrite Z.mod_small by lia. lia.
Qed.

Lemma cv_InitOrtAPI_run w g :
  is_null (CVPlugin.api w) = false ->
  CVPlugin.InitOrtAPI w g =
    Normal tt
      (CVPlugin.set_provider_names (CVPlugin.available_providers w)
         (CVPlugin.set_calls (CVPlugin.calls g ++ [GetAvailableProviders])
            (CVPlugin.set_ort (CVPlugin.api w) g))).
Proof.
  intros Hapi. unfold CVPlugin.InitOrtAPI.
  erewrite bind_normal by reflexivity.
  erewrite bind_normal by (apply CVFacts.via_ort_run; exact Hapi).
  reflexivity.
Qed.

Lemma yolox_InitOrtAPI_run w g :
  is_null (YOLOXPlugin.api w) = false ->
  YOLOXPlugin.InitOrtAPI w g =
    Normal tt
      (YOLOXPlugin.set_providers (YOLOXPlugin.available_providers w)
         (Z.of_nat (length (YOLOXPlugin.available_providers w)))
         (YOLOXPlugin.set_calls (YOLOXPlugin.calls g ++ [GetAvailableProviders])
            (YOLOXPlugin.set_ort (YOLOXPlugin.api w) g))).
Proof.
  intros Hapi. unfold YOLOXPlugin.InitOrtAPI.
  erewrite bind_normal by reflexivity.
  erewrite bind_normal by (apply YOLOXFacts.yolox_via_ort_run; exact Hapi).
  reflexivity.
Qed.

End InitFacts.

(** X1.  [InitOrtAPI] of the CV plugin, run in any state with a runtime that
    hands out its API, replaces the cached names by the ones the runtime
    reports.  Afterwards [GetProviderCount] is their number,
    [GetProviderName] returns the name at every index inside
    [0, GetProviderCount), and it returns [nullptr] at every other index. *)
Theorem cv_registry_round_trip (w : CVPlugin.init_world) (g : CVPlugin.globals) :
  is_null (CVPlugin.api w) = false ->
  Z.of_nat (length (CVPlugin.available_providers w)) <= INT_MAX ->
  exists g',
    CVPlugin.InitOrtAPI w g = Normal tt g' /\
    CVPlugin.GetProviderCount g'
    = Z.of_nat (length (CVPlugin.available_providers w)) /\
    (forall index name,
       CVPlugin.available_providers w !! Z.to_nat index = Some name ->
       0 <= index ->
       CVPlugin.GetProviderName g' index = Some name) /\
    (forall index,
       ~ (0 <= index < CVPlugin.GetProviderCount g') ->
       CVPlugin.GetProviderName g' index = None).
Proof.
  intros Hapi Hlen. eexists. split; [by apply InitFacts.cv_InitOrtAPI_run|].
  assert (CVPlugin.GetProviderCount
            (CVPlugin.set_provider_names (CVPlugin.available_providers w)
               (CVPlugin.set_calls (CVPlugin.calls g ++ [GetAvailableProviders])
                  (CVPlugin.set_ort (CVPlugin.api w) g)))
          = Z.of_nat (length (CVPlugin.available_providers w))) as Hcount.
  { unfold CVPlugin.GetProviderCount. cbn [CVPlugin.provider_names
      CVPlugin.set_provider_names]. apply InitFacts.to_int_small. lia. }
  split; [exact Hcount|]. split.
  - intros index name Hname Hpos.
    assert (Z.to_nat index < length (CVPlugin.available_providers w))%nat as Hin
      by (apply lookup_lt_is_Some; eauto).
    destruct (RegistryFacts.cv_GetProviderName_inside
                (CVPlugin.set_provider_names (CVPlugin.available_providers w)
                   (CVPlugin.set_calls (CVPlugin.calls g ++ [GetAvailableProviders])
                      (CVPlugin.set_ort (CVPlugin.api w) g))) index)
      as (name' & Hname' & Hget).
    + cbn [CVPlugin.provider_names CVPlugin.set_provider_names] in *. lia.
    + cbn [CVPlugin.provider_names CVPlugin.set_provider_names]. lia.
    + cbn [CVPlugin.provider_names CVPlugin.set_provider_names] in Hname'.
      congruence.
  - intros index Hout. rewrite Hcount in Hout.
    apply RegistryFacts.cv_GetProviderName_outside.
    cbn [CVPlugin.provider_names CVPlugin.set_provider_names]. exact Hout.
Qed.

Lemma cv_registry_round_trip_witness :
  exists g',
    CVPlugin.InitOrtAPI Examples.CV.runtime Examples.CV.loaded_2x1 = Normal tt g' /\
    CVPlugin.GetProviderCount g' = 2 /\
    (forall index name,
       Examples.providers !! Z.to_nat index = Some name ->
       0 <= index ->
       CVPlugin.GetProviderName g' index = Some name) /\
    (forall index,
       ~ (0 <= index < CVPlugin.GetProviderCount g') ->
       CVPlugin.GetProviderName g' index = None).
Proof.
  apply (cv_registry_round_trip Examples.CV.runtime Examples.CV.loaded_2x1).
  - reflexivity.
  - rewrite INT_MAX_value. simpl. lia.
Defined.

(** X2.  [InitOrtAPI] of the YOLOX plugin stores the array of names the
    runtime reports together with its length: [GetProviderCount] is then the
    number of names, and [GetProviderName] at an index inside
    [0, GetProviderCount) returns the name at that index and changes
    nothing. *)
Theorem yolox_registry_round_trip (w : YOLOXPlugin.init_world)
    (g : YOLOXPlugin.globals) :
  is_null (YOLOXPlugin.api w) = false ->
  exists g',
    YOLOXPlugin.InitOrtAPI w g = Normal tt g' /\
    YOLOXPlugin.GetProviderCount g'
    = Z.of_nat (length (YOLOXPlugin.available_providers w)) /\
    (forall index name,
       YOLOXPlugin.available_providers w !! Z.to_nat index = Some name ->
       0 <= index ->
       YOLOXPlugin.GetProviderName index g' = Normal name g').
Proof.
  intros Hapi. eexists. split; [by apply InitFacts.yolox_InitOrtAPI_run|].
  split; [reflexivity|].
  intros index name Hname Hpos. unfold YOLOXPlugin.GetProviderName.
  erewrite bind_normal by reflexivity.
  cbn [YOLOXPlugin.provider_names YOLOXPlugin.set_providers].
  by apply read_at_normal.
Qed.

Lemma yolox_registry_round_trip_witness :
  exists g',
    YOLOXPlugin.InitOrtAPI Examples.YOLOX.runtime YOLOXPlugin.initial
    = Normal tt g' /\
    YOLOXPlugin.GetProviderCount g' = 2 /\
    (forall index name,
       Examples.providers !! Z.to_nat index = Some name ->
       0 <= index ->
       YOLOXPlugin.GetProviderName index g' = Normal name g').
Proof.
  apply (yolox_registry_round_trip Examples.YOLOX.runtime YOLOXPlugin.initial).
  reflexivity.
Defined.

(** ** Releasing, once and twice *)

Module ReleaseTwiceFacts.

(** The guards of the CV plugin's [FreeResources], for any two handles. *)
Lemma cv_FreeResources_run g :
  is_null (CVPlugin.ort g) = false ->
  CVPlugin.FreeResources g =
    Normal tt
      (CVPlugin.set_calls
         (CVPlugin.calls g ++ guarded_releases (CVPlugin.session g) (CVPlugin.env g))
         g).
Proof.
  intros Hort. unfold CVPlugin.FreeResources, guarded_releases.
  erewrite bind_normal by reflexivity.
  destruct (CVPlugin.session g) as [|s] eqn:Hs; cbn [is_null].
  - erewrite bind_normal by reflexivity.
    erewrite bind_normal by reflexivity.
    destruct (CVPlugin.env g) as [|e] eqn:He; cbn [is_null].
    + unfold ret. rewrite app_nil_r. by destruct g.
    + rewrite CVFacts.via_ort_run by exact Hort. reflexivity.
  - erewrite bind_normal by (apply CVFacts.via_ort_run; exact Hort).
    erewrite bind_normal by reflexivity. CVFacts.proj.
    destruct (CVPlugin.env g) as [|e] eqn:He; cbn [is_null].
    + unfold ret. by destruct g.
    + rewrite CVFacts.via_ort_run by exact Hort. CVFacts.proj.
      rewrite <- app_assoc. by destruct g.
Qed.

End ReleaseTwiceFacts.

(** X3.  [FreeResources] of the CV plugin tests each handle before it touches
    the runtime.  With no session and no environment it does nothing at all,
    even when [InitOrtAPI] has never run; otherwise it releases the session
    if there is one and then the environment if there is one, and changes
    nothing else: the globals [session] and [env] keep the released
    handles. *)
Theorem cv_FreeResources_guarded (g : CVPlugin.globals) :
  (CVPlugin.session g = nullptr -> CVPlugin.env g = nullptr ->
   CVPlugin.FreeResources g = Normal tt g) /\
  (is_null (CVPlugin.ort g) = false ->
   CVPlugin.FreeResources g =
     Normal tt
       (CVPlugin.set_calls
          (CVPlugin.calls g
             ++ guarded_releases (CVPlugin.session g) (CVPlugin.env g)) g)).
Proof.
  split.
  - apply ReleaseFacts.cv_FreeResources_nothing_loaded.
  - apply ReleaseTwiceFacts.cv_FreeResources_run.
Qed.

Lemma cv_FreeResources_guarded_witness :
  (CVPlugin.FreeResources CVPlugin.initial = Normal tt CVPlugin.initial) /\
  (CVPlugin.FreeResources Examples.CV.loaded_2x1 =
     Normal tt
       (CVPlugin.set_calls
          (CVPlugin.calls Examples.CV.loaded_2x1
             ++ guarded_releases (handle 4) (handle 2))
          Examples.CV.loaded_2x1)).
Proof.
  split.
  - apply (proj1 (cv_FreeResources_guarded CVPlugin.initial)); reflexivity.
  - apply (proj2 (cv_FreeResources_guarded Examples.CV.loaded_2x1)). reflexivity.
Defined.

(** X4.  Because [FreeResources] of the CV plugin does not reset [session]
    and [env], calling it a second time hands the same two handles, already
    released, to [ReleaseSession] and [ReleaseEnv] again. *)
Theorem cv_FreeResources_twice (g : CVPlugin.globals) (s e : nat) :
  is_null (CVPlugin.ort g) = false ->
  CVPlugin.session g = handle s ->
  CVPlugin.env g = handle e ->
  bind CVPlugin.FreeResources (fun _ => CVPlugin.FreeResources) g =
    Normal tt
      (CVPlugin.set_calls
         (CVPlugin.calls g
            ++ [ReleaseSession (handle s); ReleaseEnv (handle e);
                ReleaseSession (handle s); ReleaseEnv (handle e)]) g).
Proof.
  intros Hort Hs He.
  erewrite bind_normal by (apply ReleaseTwiceFacts.cv_FreeResources_run; exact Hort).
  rewrite ReleaseTwiceFacts.cv_FreeResources_run by exact Hort.
  CVFacts.proj. rewrite Hs, He. unfold guarded_releases. cbn [is_null app].
  rewrite <- app_assoc. by destruct g.
Qed.

Lemma cv_FreeResources_twice_witness :
  bind CVPlugin.FreeResources (fun _ => CVPlugin.FreeResources)
    Examples.CV.loaded_2x1 =
    Normal tt
      (CVPlugin.set_calls
         (CVPlugin.calls Examples.CV.loaded_2x1
            ++ [ReleaseSession (handle 4); ReleaseEnv (handle 2);
                ReleaseSession (handle 4); ReleaseEnv (handle 2)])
         Examples.CV.loaded_2x1).
Proof.
  apply (cv_FreeResources_twice Examples.CV.loaded_2x1 4 2); reflexivity.
Defined.

(** X5.  [RefreshMemory] of the YOLOX plugin is guarded like the CV plugin's
    [FreeResources]: with no block, no session and no environment it does
    nothing.  On a state with a block, a session and an environment it frees
    the block, then releases the session, then the environment.  It resets
    none of the three globals, so a second call frees the block again. *)
Theorem yolox_RefreshMemory_guarded (g : YOLOXPlugin.globals) :
  (YOLOXPlugin.input_data g = YOLOXPlugin.null_block ->
   YOLOXPlugin.session g = nullptr -> YOLOXPlugin.env g = nullptr ->
   YOLOXPlugin.RefreshMemory g = Normal tt g) /\
  (forall cells s e,
     is_null (YOLOXPlugin.ort g) = false ->
     YOLOXPlugin.input_data g = YOLOXPlugin.allocated cells ->
     YOLOXPlugin.session g = handle s ->
     YOLOXPlugin.env g = handle e ->
     YOLOXPlugin.RefreshMemory g =
       Normal tt
         (YOLOXPlugin.set_calls
            (YOLOXPlugin.calls g ++ [ReleaseSession (handle s); ReleaseEnv (handle e)])
            (YOLOXPlugin.set_input_data YOLOXPlugin.freed g)) /\
     bind YOLOXPlugin.RefreshMemory (fun _ => YOLOXPlugin.RefreshMemory) g
     = Undefined UseAfterFree).
Proof.
  split; [apply ReleaseFacts.yolox_RefreshMemory_nothing_loaded|].
  intros cells s e Hort Hd Hs He.
  assert (YOLOXPlugin.RefreshMemory g =
          Normal tt
            (YOLOXPlugin.set_calls
               (YOLOXPlugin.calls g ++ [ReleaseSession (handle s); ReleaseEnv (handle e)])
               (YOLOXPlugin.set_input_data YOLOXPlugin.freed g))) as Hrun.
  { unfold YOLOXPlugin.RefreshMemory, YOLOXPlugin.free_input_data.
    erewrite bind_normal by reflexivity. rewrite Hd.
    erewrite bind_normal
      by (erewrite bind_normal by reflexivity; rewrite Hd; reflexivity).
    erewrite bind_normal by reflexivity. YOLOXFacts.proj. rewrite Hs. cbn [is_null].
    erewrite bind_normal by (apply YOLOXFacts.yolox_via_ort_run; exact Hort).
    erewrite bind_normal by reflexivity. YOLOXFacts.proj. rewrite He. cbn [is_null].
    rewrite YOLOXFacts.yolox_via_ort_run by exact Hort. YOLOXFacts.proj.
    rewrite <- app_assoc. by destruct g. }
  split; [exact Hrun|].
  erewrite bind_normal by exact Hrun.
  unfold YOLOXPlugin.RefreshMemory, YOLOXPlugin.free_input_data.
  erewrite bind_normal by reflexivity. YOLOXFacts.proj.
  apply bind_undefined. YOLOXFacts.proj.
  erewrite bind_normal by reflexivity. reflexivity.
Qed.

Lemma yolox_RefreshMemory_guarded_witness :
  (YOLOXPlugin.RefreshMemory YOLOXPlugin.initial = Normal tt YOLOXPlugin.initial) /\
  (YOLOXPlugin.RefreshMemory Examples.YOLOX.loaded_2x1 =
     Normal tt
       (YOLOXPlugin.set_calls
          (YOLOXPlugin.calls Examples.YOLOX.loaded_2x1
             ++ [ReleaseSession (handle 4); ReleaseEnv (handle 2)])
          (YOLOXPlugin.set_input_data YOLOXPlugin.freed Examples.YOLOX.loaded_2x1)) /\
   bind YOLOXPlugin.RefreshMemory (fun _ => YOLOXPlugin.RefreshMemory)
     Examples.YOLOX.loaded_2x1 = Undefined UseAfterFree).
Proof.
  split.
  - apply (proj1 (yolox_RefreshMemory_guarded YOLOXPlugin.initial)); reflexivity.
  - eapply (proj2 (yolox_RefreshMemory_guarded Examples.YOLOX.loaded_2x1));
      reflexivity.
Defined.

(** ** More on [LoadModel] of the CV plugin *)

(** X6.  When the selector holds neither key, [LoadModel] of the CV plugin
    has by then created an environment and session options and returns
    without releasing either: [env] is overwritten, the session options are
    left allocated, and the session, the names, the dimensions and the
    buffer of a previous load stay as they were. *)
Theorem cv_unknown_selector_frame (w : CVPlugin.load_world) (path prov : string)
    (dims : Z * Z) (g : CVPlugin.globals) :
  is_null (CVPlugin.ort g) = false ->
  contains prov "CPU" = false -> contains prov "Dml" = false ->
  exists g',
    CVPlugin.LoadModel w path prov dims g = Normal CVOutcome.unknown g' /\
    CVPlugin.calls g' =
      CVPlugin.calls g ++
        [CreateEnv ORT_LOGGING_LEVEL_WARNING "inference-session" (CVPlugin.new_env w);
         DisableTelemetryEvents (CVPlugin.new_env w);
         CreateSessionOptions (CVPlugin.new_session_options w)] /\
    CVPlugin.env g' = CVPlugin.new_env w /\
    CVPlugin.session_options g' = CVPlugin.new_session_options w /\
    CVPlugin.session g' = CVPlugin.session g /\
    CVPlugin.input_name g' = CVPlugin.input_name g /\
    CVPlugin.output_name g' = CVPlugin.output_name g /\
    CVPlugin.input_w g' = CVPlugin.input_w g /\
    CVPlugin.input_h g' = CVPlugin.input_h g /\
    CVPlugin.n_pixels g' = CVPlugin.n_pixels g /\
    CVPlugin.input_data g' = CVPlugin.input_data g.
Proof.
  intros Hort Hcpu Hdml. eexists.
  split; [by apply SelectorFacts.cv_LoadModel_unrecognized|].
  repeat split; reflexivity.
Qed.

Lemma cv_unknown_selector_frame_witness :
  exists g',
    CVPlugin.LoadModel Examples.CV.second_load "model.onnx" "TensorRT" (1, 1)
      Examples.CV.loaded_2x1 = Normal CVOutcome.unknown g' /\
    CVPlugin.calls g' =
      CVPlugin.calls Examples.CV.loaded_2x1 ++
        [CreateEnv ORT_LOGGING_LEVEL_WARNING "inference-session" (handle 5);
         DisableTelemetryEvents (handle 5);
         CreateSessionOptions (handle 6)] /\
    CVPlugin.env g' = handle 5 /\
    CVPlugin.session_options g' = handle 6 /\
    CVPlugin.session g' = CVPlugin.session Examples.CV.loaded_2x1 /\
    CVPlugin.input_name g' = CVPlugin.input_name Examples.CV.loaded_2x1 /\
    CVPlugin.output_name g' = CVPlugin.output_name Examples.CV.loaded_2x1 /\
    CVPlugin.input_w g' = CVPlugin.input_w Examples.CV.loaded_2x1 /\
    CVPlugin.input_h g' = CVPlugin.input_h Examples.CV.loaded_2x1 /\
    CVPlugin.n_pixels g' = CVPlugin.n_pixels Examples.CV.loaded_2x1 /\
    CVPlugin.input_data g' = CVPlugin.input_data Examples.CV.loaded_2x1.
Proof.
  apply (cv_unknown_selector_frame Examples.CV.second_load "model.onnx" "TensorRT"
           (1, 1) Examples.CV.loaded_2x1); reflexivity.
Defined.

(** X7.  A successful [LoadModel] of the CV plugin has made, in this order
    and with nothing in between but the settings of the chosen backend: the
    environment at warning level, telemetry off, the session options, the
    session for the given path, the release of the session options, and the
    lookups of input 0 and output 0.  It caches the two names the runtime
    gave and the dimensions, and leaves the API pointer and the provider
    names alone. *)
Theorem cv_successful_load (w : CVPlugin.load_world) (path prov : string)
    (wd ht : Z) (g g' : CVPlugin.globals) :
  CVPlugin.LoadModel w path prov (wd, ht) g = Normal CVOutcome.success g' ->
  exists settings,
    (settings = [] \/
     settings =
       [DisableMemPattern (CVPlugin.new_session_options w);
        SetSessionExecutionMode (CVPlugin.new_session_options w) ORT_SEQUENTIAL;
        OrtSessionOptionsAppendExecutionProvider_DML
          (CVPlugin.new_session_options w) 0]) /\
    CVPlugin.calls g' =
      CVPlugin.calls g ++
        [CreateEnv ORT_LOGGING_LEVEL_WARNING "inference-session" (CVPlugin.new_env w);
         DisableTelemetryEvents (CVPlugin.new_env w);
         CreateSessionOptions (CVPlugin.new_session_options w)]
        ++ settings ++
        [CreateSession (CVPlugin.new_env w) path (CVPlugin.new_session_options w)
           (CVPlugin.new_session w);
         ReleaseSessionOptions (CVPlugin.new_session_options w);
         SessionGetInputName (CVPlugin.new_session w) 0;
         SessionGetOutputName (CVPlugin.new_session w) 0] /\
    CVPlugin.model_input_name w = Some (CVPlugin.input_name g') /\
    CVPlugin.model_output_name w = Some (CVPlugin.output_name g') /\
    CVPlugin.input_w g' = wd /\ CVPlugin.input_h g' = ht /\
    CVPlugin.n_pixels g' = wd * ht /\
    CVPlugin.ort g' = CVPlugin.ort g /\
    CVPlugin.provider_names g' = CVPlugin.provider_names g.
Proof.
  rewrite CVFacts.LoadModel_closed. unfold CVOutcome.LoadModel_outcome.
  cbn [fst snd].
  CVFacts.load_cases w prov; try discriminate. intros [= <-].
  exists settings. split.
  { match goal with H : CVOutcome.selection w prov = Some settings |- _ =>
      apply LogFacts.cv_selection_cases in H as [-> | ->] end; auto. }
  repeat split.
Qed.

Lemma cv_successful_load_witness :
  exists settings,
    (settings = [] \/
     settings =
       [DisableMemPattern (handle 3);
        SetSessionExecutionMode (handle 3) ORT_SEQUENTIAL;
        OrtSessionOptionsAppendExecutionProvider_DML (handle 3) 0]) /\
    CVPlugin.calls Examples.CV.loaded_2x1 =
      CVPlugin.calls Examples.CV.initialised ++
        [CreateEnv ORT_LOGGING_LEVEL_WARNING "inference-session" (handle 2);
         DisableTelemetryEvents (handle 2);
         CreateSessionOptions (handle 3)]
        ++ settings ++
        [CreateSession (handle 2) "model.onnx" (handle 3) (handle 4);
         ReleaseSessionOptions (handle 3);
         SessionGetInputName (handle 4) 0;
         SessionGetOutputName (handle 4) 0] /\
    Some "input"%string = Some (CVPlugin.input_name Examples.CV.loaded_2x1) /\
    Some "output"%string = Some (CVPlugin.output_name Examples.CV.loaded_2x1) /\
    CVPlugin.input_w Examples.CV.loaded_2x1 = 2 /\
    CVPlugin.input_h Examples.CV.loaded_2x1 = 1 /\
    CVPlugin.n_pixels Examples.CV.loaded_2x1 = 2 * 1 /\
    CVPlugin.ort Examples.CV.loaded_2x1 = CVPlugin.ort Examples.CV.initialised /\
    CVPlugin.provider_names Examples.CV.loaded_2x1
    = CVPlugin.provider_names Examples.CV.initialised.
Proof.
  apply (cv_successful_load Examples.CV.first_load "model.onnx"
           "CPUExecutionProvider" 2 1 Examples.CV.initialised
           Examples.CV.loaded_2x1).
  vm_compute. reflexivity.
Defined.

Module SizingFacts.

(** When [resize] gets past the test against [max_size()] and finds that the
    vector has to grow, the requested size is above the current one. *)
Lemma grow_needed x len (a : bool) :
  in_int x = true ->
  (vector_max_size <? to_size_t x) = false ->
  (to_size_t x <=? len) || a = false ->
  len < x.
Proof.
  intros Hint%in_int_inv Hmax%Z.ltb_ge [Hlen _]%orb_false_iff.
  apply Z.leb_gt in Hlen.
  destruct (Z_lt_le_dec x 0) as [Hneg|Hpos].
  - rewrite LoadedFacts.to_size_t_negative in Hmax by lia.
    rewrite INT_MIN_value in Hint. rewrite vector_max_size_value in Hmax.
    change (2 ^ 64) with 18446744073709551616 in Hmax. lia.
  - rewrite LoadedFacts.to_size_t_small in Hlen by lia. exact Hlen.
Qed.

End SizingFacts.

(** X8.  When sizing the buffer throws, [LoadModel] of the CV plugin has
    already stored the new dimensions and has not touched the buffer: it
    returns with [n_pixels = wd * ht] and the old buffer.  After
    [bad_alloc] the buffer is therefore shorter than the [n_pixels * 3]
    elements that [PerformInference] writes. *)
Theorem cv_failed_sizing_state (w : CVPlugin.load_world) (path prov : string)
    (wd ht : Z) (g g' : CVPlugin.globals) (e : std_exception) :
  CVPlugin.LoadModel w path prov (wd, ht) g = Normal (what e) g' ->
  CVPlugin.input_w g' = wd /\ CVPlugin.input_h g' = ht /\
  CVPlugin.n_pixels g' = wd * ht /\
  CVPlugin.input_data g' = CVPlugin.input_data g /\
  (e = bad_alloc ->
   Z.of_nat (length (CVPlugin.input_data g')) < CVPlugin.n_pixels g' * 3).
Proof.
  rewrite CVFacts.LoadModel_closed. unfold CVOutcome.LoadModel_outcome.
  cbn [fst snd].
  CVFacts.load_cases w prov; try discriminate; intros [= <- <-].
  - repeat split; try reflexivity. discriminate.
  - repeat split; try reflexivity. intros _.
    cbn [CVPlugin.input_data CVPlugin.n_pixels CVPlugin.set_n_pixels
         CVPlugin.set_input_h CVPlugin.set_input_w CVPlugin.set_output_name
         CVPlugin.set_input_name CVPlugin.set_calls CVPlugin.set_session
         CVPlugin.set_session_options CVPlugin.set_env].
    eapply SizingFacts.grow_needed; eassumption.
Qed.

Lemma cv_failed_sizing_state_witness :
  CVPlugin.input_w MoreExamples.cv_out_of_memory = 2 /\
  CVPlugin.input_h MoreExamples.cv_out_of_memory = 1 /\
  CVPlugin.n_pixels MoreExamples.cv_out_of_memory = 2 * 1 /\
  CVPlugin.input_data MoreExamples.cv_out_of_memory
  = CVPlugin.input_data Examples.CV.initialised /\
  (bad_alloc = bad_alloc ->
   Z.of_nat (length (CVPlugin.input_data MoreExamples.cv_out_of_memory))
   < CVPlugin.n_pixels MoreExamples.cv_out_of_memory * 3).
Proof.
  apply (cv_failed_sizing_state MoreExamples.cv_no_memory "model.onnx"
           "CPUExecutionProvider" 2 1 Examples.CV.initialised
           MoreExamples.cv_out_of_memory bad_alloc).
  vm_compute. reflexivity.
Defined.

(** ** [PerformInference] when the output tensor is there *)

Module CopyFacts.

(** The byte count handed to [memcpy] for an [int] length. *)
Lemma copy_bytes_small len :
  0 <= len <= INT_MAX ->
  (to_size_t len * sizeof_float) mod SIZE_MODULUS = 4 * len.
Proof.
  intros Hlen. rewrite LoadedFacts.to_size_t_small by exact Hlen.
  rewrite INT_MAX_value in Hlen. unfold sizeof_float, SIZE_MODULUS.
  rewrite Z.mod_small by lia. lia.
Qed.

Lemma copy_bytes_negative len :
  INT_MIN <= len < 0 ->
  (to_size_t len * sizeof_float) mod SIZE_MODULUS = 4 * len + 2 ^ 64.
Proof.
  intros Hlen. rewrite LoadedFacts.to_size_t_negative by exact Hlen.
  rewrite INT_MIN_value in Hlen. unfold sizeof_float, SIZE_MODULUS.
  symmetry. apply (Z.mod_unique ((len + 2 ^ 64) * 4) (2 ^ 64) 3); lia.
Qed.

Lemma memcpy_inside {S} (dst src : list float) len (s : S) :
  0 <= len <= INT_MAX ->
  len <= Z.of_nat (length src) -> len <= Z.of_nat (length dst) ->
  memcpy dst src ((to_size_t len * sizeof_float) mod SIZE_MODULUS) s =
    Normal (take (Z.to_nat len) src ++ drop (Z.to_nat len) dst) s.
Proof.
  intros Hlen Hsrc Hdst. rewrite copy_bytes_small by exact Hlen.
  unfold memcpy, sizeof_float.
  replace ((4 * len <=? 4 * Z.of_nat (length src))
           && (4 * len <=? 4 * Z.of_nat (length dst))) with true
    by (symmetry; apply andb_true_iff; lia).
  replace (4 * len / 4) with len by (rewrite Z.mul_comm, Z.div_mul; lia).
  reflexivity.
Qed.

Lemma memcpy_outside {S} (dst src : list float) len (s : S) :
  INT_MIN <= len <= INT_MAX ->
  Z.of_nat (length src) < 2 ^ 61 -> Z.of_nat (length dst) < 2 ^ 61 ->
  len < 0 \/ Z.of_nat (length src) < len \/ Z.of_nat (length dst) < len ->
  memcpy dst src ((to_size_t len * sizeof_float) mod SIZE_MODULUS) s =
    Undefined OutOfBounds.
Proof.
  intros Hlen Hsrc Hdst Hbad. unfold memcpy.
  replace (_ && _) with false; [reflexivity|].
  symmetry. apply andb_false_iff.
  rewrite INT_MIN_value, INT_MAX_value in Hlen.
  change (2 ^ 61) with 2305843009213693952 in *.
  destruct (Z_lt_le_dec len 0) as [Hneg|Hpos].
  - rewrite copy_bytes_negative by (rewrite INT_MIN_value; lia).
    change (2 ^ 64) with 18446744073709551616.
    unfold sizeof_float. left. apply Z.leb_gt. lia.
  - rewrite copy_bytes_small by (rewrite INT_MAX_value; lia).
    unfold sizeof_float.
    destruct Hbad as [Hbad | [Hbad | Hbad]]; [lia | left | right];
      apply Z.leb_gt; lia.
Qed.

(** [PerformInference] of the CV plugin from the end of the preprocessing
    to the copy, when [Run] has produced a tensor with data. *)
Lemma cv_PerformInference_present w image out len g g1 d :
  is_null (CVPlugin.new_output_tensor w) = false ->
  CVPlugin.output_tensor_data w = Some d ->
  is_null (CVPlugin.ort g) = false ->
  CVPlugin.preprocess image g = Normal tt g1 ->
  CVPlugin.PerformInference w image out len g =
    match memcpy out d ((to_size_t len * sizeof_float) mod SIZE_MODULUS) g1 with
    | Normal copied _ =>
        Normal copied
          (CVPlugin.set_calls
             (CVPlugin.calls g1 ++ cv_calls_until_run w g1 ++ cv_calls_after_run w)
             g1)
    | Raised e _ => Raised e g1
    | Undefined f => Undefined f
    end.
Proof.
  intros Hout Hdata Hort Hpre.
  assert (is_null (CVPlugin.ort g1) = false) as Hort1.
  { rewrite (preserves_normal CVPlugin.ort _ _ _ _
               (CVFrame.preprocess_frame CVPlugin.ort (fun _ _ => eq_refl) image)
               Hpre). exact Hort. }
  unfold CVPlugin.PerformInference, cv_calls_until_run, cv_calls_after_run.
  erewrite bind_normal by exact Hpre.
  do 4 (erewrite bind_normal by reflexivity).
  erewrite bind_normal by (apply CVFacts.via_ort_run; exact Hort1).
  erewrite bind_normal by reflexivity. CVFacts.proj.
  erewrite bind_normal by (apply CVFacts.via_ort_run; exact Hort1).
  erewrite bind_normal by (apply CVFacts.via_ort_run; exact Hort1).
  erewrite bind_normal by reflexivity. CVFacts.proj.
  erewrite bind_normal by (apply CVFacts.via_ort_run; exact Hort1).
  rewrite Hout.
  erewrite bind_normal by (apply CVFacts.via_ort_run; exact Hort1).
  rewrite Hdata. unfold bind at 1. unfold memcpy.
  destruct (_ && _); [|reflexivity].
  unfold ret.
  erewrite bind_normal by (apply CVFacts.via_ort_run; exact Hort1).
  erewrite bind_normal by (apply CVFacts.via_ort_run; exact Hort1).
  CVFacts.proj. rewrite <- !app_assoc. cbn [app]. by destruct g1.
Qed.

Lemma yolox_PerformInference_present w image out len g g1 d :
  is_null (YOLOXPlugin.new_output_tensor w) = false ->
  YOLOXPlugin.output_dimensions w <= 3 ->
  YOLOXPlugin.output_tensor_data w = Some d ->
  is_null (YOLOXPlugin.ort g) = false ->
  YOLOXPlugin.preprocess image g = Normal tt g1 ->
  YOLOXPlugin.PerformInference w image out len g =
    match memcpy out d ((to_size_t len * sizeof_float) mod SIZE_MODULUS) g1 with
    | Normal copied _ =>
        Normal copied
          (YOLOXPlugin.set_calls
             (YOLOXPlugin.calls g1 ++ yolox_calls_until_run w g1
                ++ yolox_calls_after_run w) g1)
    | Raised e _ => Raised e g1
    | Undefined f => Undefined f
    end.
Proof.
  intros Hout Hdims Hdata Hort Hpre.
  assert (is_null (YOLOXPlugin.ort g1) = false) as Hort1.
  { rewrite (preserves_normal YOLOXPlugin.ort _ _ _ _
               (YOLOXFrame.yolox_preprocess_frame YOLOXPlugin.ort
                  (fun _ _ => eq_refl) image) Hpre). exact Hort. }
  unfold YOLOXPlugin.PerformInference, yolox_calls_until_run, yolox_calls_after_run.
  erewrite bind_normal by exact Hpre.
  do 4 (erewrite bind_normal by reflexivity).
  erewrite bind_normal by (apply YOLOXFacts.yolox_via_ort_run; exact Hort1).
  do 2 (erewrite bind_normal by reflexivity). YOLOXFacts.proj.
  erewrite bind_normal by (apply YOLOXFacts.yolox_via_ort_run; exact Hort1).
  erewrite bind_normal by (apply YOLOXFacts.yolox_via_ort_run; exact Hort1).
  erewrite bind_normal by reflexivity. YOLOXFacts.proj.
  erewrite bind_normal by (apply YOLOXFacts.yolox_via_ort_run; exact Hort1).
  rewrite Hout.
  erewrite bind_normal by (apply YOLOXFacts.yolox_via_ort_run; exact Hort1).
  erewrite bind_normal by (apply YOLOXFacts.yolox_via_ort_run; exact Hort1).
  erewrite bind_normal by (apply YOLOXFacts.yolox_via_ort_run; exact Hort1).
  replace (3 <? YOLOXPlugin.output_dimensions w) with false
    by (symmetry; apply Z.ltb_ge; lia).
  erewrite bind_normal by (apply YOLOXFacts.yolox_via_ort_run; exact Hort1).
  rewrite Hdata. unfold bind at 1. unfold memcpy.
  destruct (_ && _); [|reflexivity].
  unfold ret.
  erewrite bind_normal by (apply YOLOXFacts.yolox_via_ort_run; exact Hort1).
  erewrite bind_normal by (apply YOLOXFacts.yolox_via_ort_run; exact Hort1).
  YOLOXFacts.proj. rewrite <- !app_assoc. cbn [app]. by destruct g1.
Qed.

End CopyFacts.

(** X9.  When [Run] has produced an output tensor and [length] is
    non-negative and at most the number of floats in the tensor and in
    [output_array], [PerformInference] overwrites the first [length]
    elements of [output_array] with the first [length] floats of the tensor
    and keeps the rest; it then releases the input tensor and the output
    tensor, in this order.  This holds for both plugins (for the YOLOX plugin
    when the output has at most three dimensions). *)
Theorem present_output_is_copied :
  (forall w image out len g g1 d,
     is_null (CVPlugin.new_output_tensor w) = false ->
     CVPlugin.output_tensor_data w = Some d ->
     is_null (CVPlugin.ort g) = false ->
     CVPlugin.preprocess image g = Normal tt g1 ->
     0 <= len <= INT_MAX ->
     len <= Z.of_nat (length d) -> len <= Z.of_nat (length out) ->
     CVPlugin.PerformInference w image out len g =
       Normal (take (Z.to_nat len) d ++ drop (Z.to_nat len) out)
         (CVPlugin.set_calls
            (CVPlugin.calls g1 ++ cv_calls_until_run w g1
               ++ [GetTensorMutableData (CVPlugin.new_output_tensor w);
                   ReleaseValue (CVPlugin.new_input_tensor w);
                   ReleaseValue (CVPlugin.new_output_tensor w)]) g1)) /\
  (forall w image out len g g1 d,
     is_null (YOLOXPlugin.new_output_tensor w) = false ->
     YOLOXPlugin.output_dimensions w <= 3 ->
     YOLOXPlugin.output_tensor_data w = Some d ->
     is_null (YOLOXPlugin.ort g) = false ->
     YOLOXPlugin.preprocess image g = Normal tt g1 ->
     0 <= len <= INT_MAX ->
     len <= Z.of_nat (length d) -> len <= Z.of_nat (length out) ->
     YOLOXPlugin.PerformInference w image out len g =
       Normal (take (Z.to_nat len) d ++ drop (Z.to_nat len) out)
         (YOLOXPlugin.set_calls
            (YOLOXPlugin.calls g1 ++ yolox_calls_until_run w g1
               ++ [GetTensorTypeAndShape (YOLOXPlugin.new_output_tensor w);
                   GetDimensionsCount;
                   GetDimensions;
                   GetTensorMutableData (YOLOXPlugin.new_output_tensor w);
                   ReleaseValue (YOLOXPlugin.new_input_tensor w);
                   ReleaseValue (YOLOXPlugin.new_output_tensor w)]) g1)).
Proof.
  split.
  - intros w image out len g g1 d Hout Hdata Hort Hpre Hlen Hd Ho.
    rewrite (CopyFacts.cv_PerformInference_present w image out len g g1 d)
      by assumption.
    by rewrite CopyFacts.memcpy_inside.
  - intros w image out len g g1 d Hout Hdims Hdata Hort Hpre Hlen Hd Ho.
    rewrite (CopyFacts.yolox_PerformInference_present w image out len g g1 d)
      by assumption.
    by rewrite CopyFacts.memcpy_inside.
Qed.

Lemma present_output_is_copied_witness :
  CVPlugin.PerformInference Examples.CV.some_output Examples.image_2x1
      (Examples.ones 3) 2 Examples.CV.loaded_2x1 =
    Normal (take (Z.to_nat 2) [float_zero; float_zero]
              ++ drop (Z.to_nat 2) (Examples.ones 3))
      (CVPlugin.set_calls
         (CVPlugin.calls Examples.cv_preprocessed_2x1
            ++ cv_calls_until_run Examples.CV.some_output Examples.cv_preprocessed_2x1
            ++ [GetTensorMutableData (handle 10);
                ReleaseValue (handle 9);
                ReleaseValue (handle 10)])
         Examples.cv_preprocessed_2x1) /\
  YOLOXPlugin.PerformInference MoreExamples.yolox_some_output Examples.image_2x1
      (Examples.ones 3) 2 Examples.YOLOX.loaded_2x1 =
    Normal (take (Z.to_nat 2) [float_zero; float_zero]
              ++ drop (Z.to_nat 2) (Examples.ones 3))
      (YOLOXPlugin.set_calls
         (YOLOXPlugin.calls Examples.yolox_preprocessed_2x1
            ++ yolox_calls_until_run MoreExamples.yolox_some_output
                 Examples.yolox_preprocessed_2x1
            ++ [GetTensorTypeAndShape (handle 10);
                GetDimensionsCount;
                GetDimensions;
                GetTensorMutableData (handle 10);
                ReleaseValue (handle 9);
                ReleaseValue (handle 10)])
         Examples.yolox_preprocessed_2x1).
Proof.
  split.
  - apply (proj1 present_output_is_copied Examples.CV.some_output
             Examples.image_2x1 (Examples.ones 3) 2 Examples.CV.loaded_2x1
             Examples.cv_preprocessed_2x1 [float_zero; float_zero]).
    + reflexivity.
    + reflexivity.
    + reflexivity.
    + vm_compute. reflexivity.
    + rewrite INT_MAX_value. lia.
    + simpl. lia.
    + simpl. lia.
  - apply (proj2 present_output_is_copied MoreExamples.yolox_some_output
             Examples.image_2x1 (Examples.ones 3) 2 Examples.YOLOX.loaded_2x1
             Examples.yolox_preprocessed_2x1 [float_zero; float_zero]).
    + reflexivity.
    + simpl. lia.
    + reflexivity.
    + reflexivity.
    + vm_compute. reflexivity.
    + rewrite INT_MAX_value. lia.
    + simpl. lia.
    + simpl. lia.
Defined.

(** X10.  [PerformInference] does not test [length].  When [Run] has
    produced an output tensor and [length] is negative, or larger than the
    number of floats in the tensor, or larger than [output_array], the copy
    runs outside one of the two arrays: a negative [length] becomes a huge
    byte count in the conversion to [size_t].  (Arrays of fewer than 2^61
    floats, as every array in a 64-bit address space is.) *)
Theorem inference_length_unchecked :
  (forall w image out len g g1 d,
     is_null (CVPlugin.new_output_tensor w) = false ->
     CVPlugin.output_tensor_data w = Some d ->
     is_null (CVPlugin.ort g) = false ->
     CVPlugin.preprocess image g = Normal tt g1 ->
     INT_MIN <= len <= INT_MAX ->
     Z.of_nat (length d) < 2 ^ 61 -> Z.of_nat (length out) < 2 ^ 61 ->
     len < 0 \/ Z.of_nat (length d) < len \/ Z.of_nat (length out) < len ->
     CVPlugin.PerformInference w image out len g = Undefined OutOfBounds) /\
  (forall w image out len g g1 d,
     is_null (YOLOXPlugin.new_output_tensor w) = false ->
     YOLOXPlugin.output_dimensions w <= 3 ->
     YOLOXPlugin.output_tensor_data w = Some d ->
     is_null (YOLOXPlugin.ort g) = false ->
     YOLOXPlugin.preprocess image g = Normal tt g1 ->
     INT_MIN <= len <= INT_MAX ->
     Z.of_nat (length d) < 2 ^ 61 -> Z.of_nat (length out) < 2 ^ 61 ->
     len < 0 \/ Z.of_nat (length d) < len \/ Z.of_nat (length out) < len ->
     YOLOXPlugin.PerformInference w image out len g = Undefined OutOfBounds).
Proof.
  split.
  - intros w image out len g g1 d Hout Hdata Hort Hpre Hlen Hd Ho Hbad.
    rewrite (CopyFacts.cv_PerformInference_present w image out len g g1 d)
      by assumption.
    by rewrite CopyFacts.memcpy_outside.
  - intros w image out len g g1 d Hout Hdims Hdata Hort Hpre Hlen Hd Ho Hbad.
    rewrite (CopyFacts.yolox_PerformInference_present w image out len g g1 d)
      by assumption.
    by rewrite CopyFacts.memcpy_outside.
Qed.

Lemma inference_length_unchecked_witness :
  CVPlugin.PerformInference Examples.CV.some_output Examples.image_2x1
    (Examples.ones 3) (-1) Examples.CV.loaded_2x1 = Undefined OutOfBounds /\
  YOLOXPlugin.PerformInference MoreExamples.yolox_some_output Examples.image_2x1
    (Examples.ones 3) 3 Examples.YOLOX.loaded_2x1 = Undefined OutOfBounds.
Proof.
  split.
  - apply (proj1 inference_length_unchecked Examples.CV.some_output
             Examples.image_2x1 (Examples.ones 3) (-1) Examples.CV.loaded_2x1
             Examples.cv_preprocessed_2x1 [float_zero; float_zero]).
    + reflexivity.
    + reflexivity.
    + reflexivity.
    + vm_compute. reflexivity.
    + rewrite INT_MIN_value, INT_MAX_value. lia.
    + simpl. lia.
    + simpl. lia.
    + left. lia.
  - apply (proj2 inference_length_unchecked MoreExamples.yolox_some_output
             Examples.image_2x1 (Examples.ones 3) 3 Examples.YOLOX.loaded_2x1
             Examples.yolox_preprocessed_2x1 [float_zero; float_zero]).
    + reflexivity.
    + simpl. lia.
    + reflexivity.
    + reflexivity.
    + vm_compute. reflexivity.
    + rewrite INT_MIN_value, INT_MAX_value. lia.
    + simpl. lia.
    + simpl. lia.
    + right. left. simpl. lia.
Defined.

(** ** What the runtime is handed *)

Module TensorFacts.

(** The CV half of the layout property, from the loop lemmas. *)
Lemma cv_preprocess_loaded wd ht g image :
  CVOutcome.loaded wd ht g ->
  wd * ht * 3 <= Z.of_nat (length image) ->
  exists g1,
    CVPlugin.preprocess image g = Normal tt g1 /\
    g1 = CVPlugin.set_input_data (CVPlugin.input_data g1) g /\
    planar_layout (wd * ht) image (CVPlugin.input_data g1).
Proof.
  intros (Hw & Hh & Hn & Hsize & Hlen) Himg.
  eexists. split.
  - apply CVLayout.preprocess_run; rewrite ?Hn; lia.
  - split; [reflexivity|].
    cbn [CVPlugin.input_data CVPlugin.set_input_data]. rewrite Hn.
    apply PlanarFacts.fill_planar; lia.
Qed.

Lemma yolox_preprocess_loaded wd ht g image :
  YOLOXOutcome.loaded wd ht g ->
  wd * ht * 3 <= Z.of_nat (length image) ->
  exists g1,
    YOLOXPlugin.preprocess image g = Normal tt g1 /\
    g1 = YOLOXPlugin.set_input_data (YOLOXPlugin.input_data g1) g /\
    planar_layout (wd * ht) image
      (YOLOXPlugin.tensor_view (YOLOXPlugin.input_data g1)
         (to_size_t (YOLOXPlugin.input_size g1))).
Proof.
  intros (Hw & Hh & Hn & Hpos & Hmax & Hsz & cells & Hd & Hlen) Himg.
  eexists. split.
  - eapply YOLOXLayout.yolox_preprocess_run; rewrite ?Hn; try exact Hd; lia.
  - split; [reflexivity|].
    cbn [YOLOXPlugin.input_data YOLOXPlugin.set_input_data
         YOLOXPlugin.input_size YOLOXPlugin.tensor_view].
    rewrite Hsz, Hn, LoadedFacts.to_size_t_small by lia.
    unfold sizeof_float. rewrite Z.div_mul by lia.
    apply PlanarFacts.fill_take_planar; lia.
Qed.

End TensorFacts.

(** The calls up to [Run], written out for a state loaded for [wd] x [ht]. *)
Lemma calls_until_run_described :
  (forall w wd ht g image g1,
     CVOutcome.loaded wd ht g ->
     wd * ht * 3 <= Z.of_nat (length image) ->
     CVPlugin.preprocess image g = Normal tt g1 ->
     planar_layout (wd * ht) image (CVPlugin.input_data g1) /\
     cv_calls_until_run w g1 =
       [CreateCpuMemoryInfo (CVPlugin.new_memory_info w);
        CreateTensorWithDataAsOrtValue (CVPlugin.new_memory_info w)
          (CVPlugin.input_data g1) (wd * ht * 3 * 4) [1; 3; ht; wd]
          (CVPlugin.new_input_tensor w);
        ReleaseMemoryInfo (CVPlugin.new_memory_info w);
        Run (CVPlugin.session g) [Some (CVPlugin.input_name g)]
          [CVPlugin.new_input_tensor w] [Some (CVPlugin.output_name g)]
          (CVPlugin.new_output_tensor w)]) /\
  (forall w wd ht g image g1,
     YOLOXOutcome.loaded wd ht g ->
     wd * ht * 3 <= Z.of_nat (length image) ->
     YOLOXPlugin.preprocess image g = Normal tt g1 ->
     exists data,
       planar_layout (wd * ht) image data /\
       yolox_calls_until_run w g1 =
         [CreateCpuMemoryInfo (YOLOXPlugin.new_memory_info w);
          CreateTensorWithDataAsOrtValue (YOLOXPlugin.new_memory_info w)
            data (wd * ht * 3 * 4) [1; 3; ht; wd]
            (YOLOXPlugin.new_input_tensor w);
          ReleaseMemoryInfo (YOLOXPlugin.new_memory_info w);
          Run (YOLOXPlugin.session g) [YOLOXPlugin.input_name g]
            [YOLOXPlugin.new_input_tensor w] [YOLOXPlugin.output_name g]
            (YOLOXPlugin.new_output_tensor w)]).
Proof.
  split.
  - intros w wd ht g image g1 Hloaded Himg Hpre.
    destruct (TensorFacts.cv_preprocess_loaded wd ht g image Hloaded Himg)
      as (g1' & Hpre' & Hg1 & Hplanar).
    rewrite Hpre in Hpre'. injection Hpre' as <-.
    split; [exact Hplanar|].
    destruct Hplanar as (Hlen & _).
    destruct Hloaded as (Hw & Hh & Hn & Hsize & _).
    unfold cv_calls_until_run. rewrite Hg1. CVFacts.proj. rewrite Hlen, Hw, Hh.
    rewrite Z2Nat.id by lia. unfold sizeof_float, SIZE_MODULUS.
    rewrite INT_MAX_value in Hsize. rewrite Z.mod_small by lia. reflexivity.
  - intros w wd ht g image g1 Hloaded Himg Hpre.
    destruct (TensorFacts.yolox_preprocess_loaded wd ht g image Hloaded Himg)
      as (g1' & Hpre' & Hg1 & Hplanar).
    rewrite Hpre in Hpre'. injection Hpre' as <-.
    eexists. split; [exact Hplanar|].
    destruct Hloaded as (Hw & Hh & Hn & Hpos & Hmax & Hsz & _).
    unfold yolox_calls_until_run. rewrite Hg1 at 2 3 4 5 6 7.
    YOLOXFacts.proj. rewrite Hsz, Hw, Hh.
    rewrite LoadedFacts.to_size_t_small by lia.
    rewrite Hg1. YOLOXFacts.proj. rewrite Hsz.
    rewrite LoadedFacts.to_size_t_small by lia. reflexivity.
Qed.

(** ** A call of [PerformInference] that meets its preconditions *)

Module ContractFacts.

Lemma neutral_calls_keep_live log added :
  Forall (fun c => is_neutral c = true) added ->
  live_handles (log ++ added) = live_handles log.
Proof.
  intros Hadded. unfold live_handles, live_envs, live_sessions.
  rewrite !fold_left_app.
  generalize (fold_left track_env log []) (fold_left track_session log []).
  induction Hadded as [|c added Hc _ IH]; intros es ss; [reflexivity|].
  cbn [fold_left]. destruct c; try discriminate Hc; apply IH.
Qed.

Lemma cv_inference_calls_neutral w g1 :
  Forall (fun c => is_neutral c = true)
    (cv_calls_until_run w g1 ++ cv_calls_after_run w).
Proof. unfold cv_calls_until_run, cv_calls_after_run. repeat constructor. Qed.

Lemma yolox_inference_calls_neutral w g1 :
  Forall (fun c => is_neutral c = true)
    (yolox_calls_until_run w g1 ++ yolox_calls_after_run w).
Proof. unfold yolox_calls_until_run, yolox_calls_after_run. repeat constructor. Qed.

End ContractFacts.

(** X12.  A sufficient condition for [PerformInference] to succeed, for both
    plugins: the state is loaded for [wd] x [ht], the API pointer is set, the
    image has at least [wd * ht * 3] bytes, [Run] produced an output tensor
    (for the YOLOX plugin, of at most three dimensions), and [length] is
    between 0 and the sizes of the tensor and of [output_array].  Then the
    call returns normally with the first [length] floats of the tensor
    copied into the array; the state is still loaded for [wd] x [ht]; the
    session, the environment and the cached names are the ones from before;
    and the log shows the same live environments and sessions as before. *)
Theorem inference_contract :
  (forall w image out len wd ht g d,
     CVOutcome.loaded wd ht g ->
     is_null (CVPlugin.ort g) = false ->
     wd * ht * 3 <= Z.of_nat (length image) ->
     is_null (CVPlugin.new_output_tensor w) = false ->
     CVPlugin.output_tensor_data w = Some d ->
     0 <= len <= INT_MAX ->
     len <= Z.of_nat (length d) -> len <= Z.of_nat (length out) ->
     exists g',
       CVPlugin.PerformInference w image out len g =
         Normal (take (Z.to_nat len) d ++ drop (Z.to_nat len) out) g' /\
       CVOutcome.loaded wd ht g' /\
       CVPlugin.session g' = CVPlugin.session g /\
       CVPlugin.env g' = CVPlugin.env g /\
       CVPlugin.input_name g' = CVPlugin.input_name g /\
       CVPlugin.output_name g' = CVPlugin.output_name g /\
       live_handles (CVPlugin.calls g') = live_handles (CVPlugin.calls g)) /\
  (forall w image out len wd ht g d,
     YOLOXOutcome.loaded wd ht g ->
     is_null (YOLOXPlugin.ort g) = false ->
     wd * ht * 3 <= Z.of_nat (length image) ->
     is_null (YOLOXPlugin.new_output_tensor w) = false ->
     YOLOXPlugin.output_dimensions w <= 3 ->
     YOLOXPlugin.output_tensor_data w = Some d ->
     0 <= len <= INT_MAX ->
     len <= Z.of_nat (length d) -> len <= Z.of_nat (length out) ->
     exists g',
       YOLOXPlugin.PerformInference w image out len g =
         Normal (take (Z.to_nat len) d ++ drop (Z.to_nat len) out) g' /\
       YOLOXOutcome.loaded wd ht g' /\
       YOLOXPlugin.session g' = YOLOXPlugin.session g /\
       YOLOXPlugin.env g' = YOLOXPlugin.env g /\
       YOLOXPlugin.input_name g' = YOLOXPlugin.input_name g /\
       YOLOXPlugin.output_name g' = YOLOXPlugin.output_name g /\
       live_handles (YOLOXPlugin.calls g') = live_handles (YOLOXPlugin.calls g)).
Proof.
  split.
  - intros w image out len wd ht g d Hloaded Hort Himg Hout Hdata Hlen Hd Ho.
    destruct (TensorFacts.cv_preprocess_loaded wd ht g image Hloaded Himg)
      as (g1 & Hpre & Hg1 & _).
    pose proof (CopyFacts.cv_PerformInference_present w image out len g g1 d
                  Hout Hdata Hort Hpre) as Hrun.
    rewrite CopyFacts.memcpy_inside in Hrun by assumption.
    eexists. split; [exact Hrun|].
    split; [exact (LoadedFacts.cv_PerformInference_loaded _ _ _ _ _ _ _ _ _
                     Hloaded Hrun)|].
    rewrite Hg1. CVFacts.proj. repeat split.
    apply ContractFacts.neutral_calls_keep_live,
      ContractFacts.cv_inference_calls_neutral.
  - intros w image out len wd ht g d Hloaded Hort Himg Hout Hdims Hdata Hlen Hd Ho.
    destruct (TensorFacts.yolox_preprocess_loaded wd ht g image Hloaded Himg)
      as (g1 & Hpre & Hg1 & _).
    pose proof (CopyFacts.yolox_PerformInference_present w image out len g g1 d
                  Hout Hdims Hdata Hort Hpre) as Hrun.
    rewrite CopyFacts.memcpy_inside in Hrun by assumption.
    eexists. split; [exact Hrun|].
    split; [exact (YOLOXKeepFacts.yolox_PerformInference_loaded _ _ _ _ _ _ _ _ _
                     Hloaded Hrun)|].
    rewrite Hg1. YOLOXFacts.proj. repeat split.
    apply ContractFacts.neutral_calls_keep_live,
      ContractFacts.yolox_inference_calls_neutral.
Qed.

Lemma inference_contract_witness :
  (exists g',
     CVPlugin.PerformInference Examples.CV.some_output Examples.image_2x1
         (Examples.ones 3) 2 Examples.CV.loaded_2x1 =
       Normal (take (Z.to_nat 2) [float_zero; float_zero]
                 ++ drop (Z.to_nat 2) (Examples.ones 3)) g' /\
     CVOutcome.loaded 2 1 g' /\
     CVPlugin.session g' = CVPlugin.session Examples.CV.loaded_2x1 /\
     CVPlugin.env g' = CVPlugin.env Examples.CV.loaded_2x1 /\
     CVPlugin.input_name g' = CVPlugin.input_name Examples.CV.loaded_2x1 /\
     CVPlugin.output_name g' = CVPlugin.output_name Examples.CV.loaded_2x1 /\
     live_handles (CVPlugin.calls g') =
       live_handles (CVPlugin.calls Examples.CV.loaded_2x1)) /\
  (exists g',
     YOLOXPlugin.PerformInference MoreExamples.yolox_some_output
         Examples.image_2x1 (Examples.ones 3) 2 Examples.YOLOX.loaded_2x1 =
       Normal (take (Z.to_nat 2) [float_zero; float_zero]
                 ++ drop (Z.to_nat 2) (Examples.ones 3)) g' /\
     YOLOXOutcome.loaded 2 1 g' /\
     YOLOXPlugin.session g' = YOLOXPlugin.session Examples.YOLOX.loaded_2x1 /\
     YOLOXPlugin.env g' = YOLOXPlugin.env Examples.YOLOX.loaded_2x1 /\
     YOLOXPlugin.input_name g' = YOLOXPlugin.input_name Examples.YOLOX.loaded_2x1 /\
     YOLOXPlugin.output_name g' = YOLOXPlugin.output_name Examples.YOLOX.loaded_2x1 /\
     live_handles (YOLOXPlugin.calls g') =
       live_handles (YOLOXPlugin.calls Examples.YOLOX.loaded_2x1)).
Proof.
  split.
  - apply (proj1 inference_contract Examples.CV.some_output Examples.image_2x1
             (Examples.ones 3) 2 2 1 Examples.CV.loaded_2x1
             [float_zero; float_zero]).
    + unfold CVOutcome.loaded. simpl. rewrite INT_MAX_value. repeat split; lia.
    + reflexivity.
    + simpl. lia.
    + reflexivity.
    + reflexivity.
    + rewrite INT_MAX_value. lia.
    + simpl. lia.
    + simpl. lia.
  - apply (proj2 inference_contract MoreExamples.yolox_some_output
             Examples.image_2x1 (Examples.ones 3) 2 2 1
             Examples.YOLOX.loaded_2x1 [float_zero; float_zero]).
    + unfold YOLOXOutcome.loaded. simpl. rewrite INT_MAX_value.
      repeat split; try lia. eexists. split; [reflexivity|]. simpl. lia.
    + reflexivity.
    + simpl. lia.
    + reflexivity.
    + simpl. lia.
    + reflexivity.
    + rewrite INT_MAX_value. lia.
    + simpl. lia.
    + simpl. lia.
Defined.

(** ** The block of the YOLOX plugin *)

Module BlockFacts.

Lemma yolox_sizes_fit wd ht :
  0 <= wd * ht * 3 * 4 <= INT_MAX ->
  in_int (wd * ht) = true /\ in_int (wd * ht * 3) = true /\
  in_int (wd * ht * 3 * 4) = true.
Proof.
  intros Hsize. pose proof INT_MIN_value. pose proof INT_MAX_value.
  repeat split; apply in_int_true; lia.
Qed.

(** The byte count of the request: [(size_t) input_size * sizeof(float* )]. *)
Lemma yolox_request_bytes size :
  0 <= size <= INT_MAX ->
  (to_size_t size * sizeof_pointer) mod SIZE_MODULUS = size * 8.
Proof.
  intros Hsize. rewrite LoadedFacts.to_size_t_small by exact Hsize.
  rewrite INT_MAX_value in Hsize. unfold sizeof_pointer, SIZE_MODULUS.
  apply Z.mod_small. lia.
Qed.

Lemma request_cells x : x * 4 * 8 / 4 = x * 8.
Proof. replace (x * 4 * 8) with (x * 8 * 4) by lia. apply Z.div_mul. lia. Qed.

(** With a null block, the first store of the preprocessing loop is a null
    dereference. *)
Lemma yolox_preprocess_null b image g :
  YOLOXPlugin.input_data g = YOLOXPlugin.null_block ->
  1 <= YOLOXPlugin.n_pixels g <= INT_MAX ->
  image !! 0%nat = Some b ->
  YOLOXPlugin.preprocess image g = Undefined NullDereference.
Proof.
  intros Hnull Hn Himg. pose proof INT_MIN_value. pose proof INT_MAX_value.
  unfold YOLOXPlugin.preprocess.
  erewrite bind_normal by reflexivity.
  unfold for_upto.
  destruct (Z.to_nat (YOLOXPlugin.n_pixels g)) as [|k] eqn:Hk; [lia|].
  rewrite for_loop_succ. apply bind_undefined.
  unfold YOLOXPlugin.preprocess_pixel, for_upto, YOLOXPlugin.n_channels.
  change (Z.to_nat 3) with 3%nat.
  rewrite for_loop_succ. apply bind_undefined.
  unfold YOLOXPlugin.preprocess_channel, YOLOXPlugin.n_channels.
  erewrite bind_normal by (apply int_mul_normal; lia).
  erewrite bind_normal by (apply int_add_normal; lia).
  erewrite bind_normal by (apply read_at_normal; [lia | exact Himg]).
  erewrite bind_normal by reflexivity.
  erewrite bind_normal by (apply int_mul_normal; lia).
  erewrite bind_normal by (apply int_add_normal; lia).
  unfold YOLOXPlugin.store_input_data.
  erewrite bind_normal by reflexivity. by rewrite Hnull.
Qed.

End BlockFacts.

(** X13.  [LoadModel] of the YOLOX plugin, called with the API pointer set,
    dimensions with [0 <= wd * ht * 3 * 4 <= INT_MAX] and a [malloc] that
    succeeds, returns (1 or 0 as the selector decides) and leaves a state
    loaded for [wd] x [ht].  The block it allocates has [wd * ht * 3 * 8]
    cells, eight times the [wd * ht * 3] floats the input tensor covers
    (the size in bytes is multiplied by [sizeof(float* )]); the floats the
    tensor covers are zero and the cells after them are as [malloc] left
    them. *)
Theorem yolox_successful_load w path prov wd ht g :
  is_null (YOLOXPlugin.ort g) = false ->
  YOLOXPlugin.malloc_succeeds w = true ->
  0 <= wd * ht * 3 * 4 <= INT_MAX ->
  exists cells g',
    YOLOXPlugin.LoadModel w path prov (wd, ht) g =
      Normal (fst (YOLOXOutcome.selection w prov)) g' /\
    YOLOXOutcome.loaded wd ht g' /\
    YOLOXPlugin.input_data g' = YOLOXPlugin.allocated cells /\
    Z.of_nat (length cells) = wd * ht * 3 * 8 /\
    YOLOXPlugin.tensor_view (YOLOXPlugin.input_data g')
        (to_size_t (YOLOXPlugin.input_size g')) =
      replicate (Z.to_nat (wd * ht * 3)) float_zero /\
    (forall i, (Z.to_nat (wd * ht * 3) <= i < Z.to_nat (wd * ht * 3 * 8))%nat ->
               cells !! i = Some (YOLOXPlugin.junk w i)).
Proof.
  intros Hort Hmalloc Hsize.
  destruct (BlockFacts.yolox_sizes_fit wd ht Hsize) as (Hn & Hn3 & Hn12).
  assert (YOLOXPlugin.LoadModel w path prov (wd, ht) g =
            Normal (fst (YOLOXOutcome.selection w prov))
              (final_state g (YOLOXPlugin.LoadModel w path prov (wd, ht) g)) /\
          YOLOXPlugin.input_data
              (final_state g (YOLOXPlugin.LoadModel w path prov (wd, ht) g)) =
            YOLOXPlugin.allocated (YOLOXOutcome.fresh_block w (wd * ht * 3 * 4)) /\
          YOLOXPlugin.input_size
              (final_state g (YOLOXPlugin.LoadModel w path prov (wd, ht) g)) =
            wd * ht * 3 * 4) as (Hrun & Hdata & Hsz).
  { rewrite YOLOXFacts.yolox_LoadModel_closed.
    unfold YOLOXOutcome.LoadModel_outcome. cbn [fst snd].
    rewrite Hort, Hmalloc, Hn, Hn3, Hn12. cbn [negb].
    rewrite BlockFacts.yolox_request_bytes by exact Hsize.
    rewrite LoadedFacts.to_size_t_small by exact Hsize.
    replace (wd * ht * 3 * 4 <=? wd * ht * 3 * 4 * 8) with true
      by (symmetry; apply Z.leb_le; lia).
    destruct (YOLOXOutcome.selection w prov) as [rv settings].
    cbn [fst final_state]. YOLOXFacts.proj. done. }
  assert (length (YOLOXOutcome.fresh_block w (wd * ht * 3 * 4)) =
            Z.to_nat (wd * ht * 3 * 8)) as Hlen.
  { unfold YOLOXOutcome.fresh_block.
    rewrite BlockFacts.yolox_request_bytes by exact Hsize.
    rewrite LoadedFacts.to_size_t_small by exact Hsize.
    rewrite length_app, length_replicate, length_drop, length_map, length_seq.
    unfold sizeof_float.
    rewrite (BlockFacts.request_cells (wd * ht * 3)).
    rewrite Z.div_mul by lia. lia. }
  eexists _, _. split; [exact Hrun|].
  split; [exact (YOLOXLoadedFacts.yolox_LoadModel_loaded _ _ _ _ _ _ _ _
                   Hmalloc Hrun)|].
  split; [exact Hdata|].
  split; [rewrite Hlen; lia|].
  split.
  - rewrite Hdata, Hsz. unfold YOLOXPlugin.tensor_view, YOLOXOutcome.fresh_block.
    rewrite LoadedFacts.to_size_t_small by exact Hsize.
    unfold sizeof_float. rewrite Z.div_mul by lia.
    rewrite take_app_length'; [reflexivity | by rewrite length_replicate].
  - intros i Hi. unfold YOLOXOutcome.fresh_block.
    rewrite BlockFacts.yolox_request_bytes by exact Hsize.
    rewrite LoadedFacts.to_size_t_small by exact Hsize.
    unfold sizeof_float. rewrite Z.div_mul by lia.
    rewrite (BlockFacts.request_cells (wd * ht * 3)).
    rewrite lookup_app_r by (rewrite length_replicate; lia).
    rewrite length_replicate, lookup_drop.
    replace (Z.to_nat (wd * ht * 3) + (i - Z.to_nat (wd * ht * 3)))%nat with i
      by lia.
    rewrite list_lookup_fmap, lookup_seq_lt by lia. reflexivity.
Qed.

Lemma yolox_successful_load_witness :
  exists cells g',
    YOLOXPlugin.LoadModel Examples.YOLOX.first_load "model.onnx"
        "DmlExecutionProvider" (2, 1) Examples.YOLOX.initialised =
      Normal (fst (YOLOXOutcome.selection Examples.YOLOX.first_load
                     "DmlExecutionProvider")) g' /\
    YOLOXOutcome.loaded 2 1 g' /\
    YOLOXPlugin.input_data g' = YOLOXPlugin.allocated cells /\
    Z.of_nat (length cells) = 2 * 1 * 3 * 8 /\
    YOLOXPlugin.tensor_view (YOLOXPlugin.input_data g')
        (to_size_t (YOLOXPlugin.input_size g')) =
      replicate (Z.to_nat (2 * 1 * 3)) float_zero /\
    (forall i, (Z.to_nat (2 * 1 * 3) <= i < Z.to_nat (2 * 1 * 3 * 8))%nat ->
               cells !! i = Some (YOLOXPlugin.junk Examples.YOLOX.first_load i)).
Proof.
  apply (yolox_successful_load Examples.YOLOX.first_load "model.onnx"%string
           "DmlExecutionProvider"%string 2 1 Examples.YOLOX.initialised).
  - reflexivity.
  - reflexivity.
  - rewrite INT_MAX_value. lia.
Defined.

(** X14.  When [malloc] fails, [LoadModel] of the YOLOX plugin does not
    report it: it returns the same value as a load that succeeded, with the
    session created and [input_data] null.  The next [PerformInference] on a
    model of at least one pixel and an image of at least one byte then
    dereferences the null pointer. *)
Theorem yolox_failed_allocation_is_silent w path prov wd ht g :
  is_null (YOLOXPlugin.ort g) = false ->
  YOLOXPlugin.malloc_succeeds w = false ->
  0 <= wd * ht * 3 * 4 <= INT_MAX ->
  exists g',
    YOLOXPlugin.LoadModel w path prov (wd, ht) g =
      Normal (fst (YOLOXOutcome.selection w prov)) g' /\
    YOLOXPlugin.session g' = YOLOXPlugin.new_session w /\
    YOLOXPlugin.input_data g' = YOLOXPlugin.null_block /\
    (forall w' image out len b,
       1 <= wd * ht -> image !! 0%nat = Some b ->
       YOLOXPlugin.PerformInference w' image out len g' =
         Undefined NullDereference).
Proof.
  intros Hort Hmalloc Hsize.
  destruct (BlockFacts.yolox_sizes_fit wd ht Hsize) as (Hn & Hn3 & Hn12).
  assert (YOLOXPlugin.LoadModel w path prov (wd, ht) g =
            Normal (fst (YOLOXOutcome.selection w prov))
              (final_state g (YOLOXPlugin.LoadModel w path prov (wd, ht) g)) /\
          YOLOXPlugin.input_data
              (final_state g (YOLOXPlugin.LoadModel w path prov (wd, ht) g)) =
            YOLOXPlugin.null_block /\
          YOLOXPlugin.n_pixels
              (final_state g (YOLOXPlugin.LoadModel w path prov (wd, ht) g)) =
            wd * ht) as (Hrun & Hdata & Hpix).
  { rewrite YOLOXFacts.yolox_LoadModel_closed.
    unfold YOLOXOutcome.LoadModel_outcome. cbn [fst snd].
    rewrite Hort, Hmalloc, Hn, Hn3, Hn12. cbn [negb].
    destruct (YOLOXOutcome.selection w prov) as [rv settings].
    cbn [fst final_state]. YOLOXFacts.proj. done. }
  eexists. split; [exact Hrun|].
  split; [exact (proj1 (proj2 (LogFacts.yolox_LoadModel_log _ _ _ _ _ _ _ Hrun)))|].
  split; [exact Hdata|].
  intros w' image out len b Hpixels Himg.
  unfold YOLOXPlugin.PerformInference. apply bind_undefined.
  apply (BlockFacts.yolox_preprocess_null b); [exact Hdata | | exact Himg].
  rewrite Hpix. apply in_int_inv in Hn. lia.
Qed.

Lemma yolox_failed_allocation_is_silent_witness :
  exists g',
    YOLOXPlugin.LoadModel MoreExamples.yolox_no_memory "model.onnx"
        "DmlExecutionProvider" (2, 1) Examples.YOLOX.initialised =
      Normal (fst (YOLOXOutcome.selection MoreExamples.yolox_no_memory
                     "DmlExecutionProvider")) g' /\
    YOLOXPlugin.session g' = YOLOXPlugin.new_session MoreExamples.yolox_no_memory /\
    YOLOXPlugin.input_data g' = YOLOXPlugin.null_block /\
    (forall w' image out len b,
       1 <= 2 * 1 -> image !! 0%nat = Some b ->
       YOLOXPlugin.PerformInference w' image out len g' =
         Undefined NullDereference).
Proof.
  apply (yolox_failed_allocation_is_silent MoreExamples.yolox_no_memory
           "model.onnx"%string "DmlExecutionProvider"%string 2 1
           Examples.YOLOX.initialised).
  - reflexivity.
  - reflexivity.
  - rewrite INT_MAX_value. lia.
Defined.

(** ** Calls made before [InitOrtAPI] *)

(** X15.  As long as the API pointer is null (no [InitOrtAPI] yet),
    [LoadModel] of either plugin dereferences it at its first runtime call,
    [CreateEnv]; the [try] block of the CV plugin does not turn this into a
    message.  [PerformInference] of either plugin does not return normally
    either: what follows its preprocessing loop starts with a call through
    the pointer. *)
Theorem calls_before_init :
  (forall w path prov dims g,
     is_null (CVPlugin.ort g) = true ->
     CVPlugin.LoadModel w path prov dims g = Undefined NullDereference) /\
  (forall w path prov dims g,
     is_null (YOLOXPlugin.ort g) = true ->
     YOLOXPlugin.LoadModel w path prov dims g = Undefined NullDereference) /\
  (forall w image out len g,
     is_null (CVPlugin.ort g) = true ->
     forall r g', CVPlugin.PerformInference w image out len g <> Normal r g') /\
  (forall w image out len g,
     is_null (YOLOXPlugin.ort g) = true ->
     forall r g', YOLOXPlugin.PerformInference w image out len g <> Normal r g').
Proof.
  repeat split.
  - intros w path prov dims g Hort. rewrite CVFacts.LoadModel_closed.
    unfold CVOutcome.LoadModel_outcome. by rewrite Hort.
  - intros w path prov dims g Hort. rewrite YOLOXFacts.yolox_LoadModel_closed.
    unfold YOLOXOutcome.LoadModel_outcome. by rewrite Hort.
  - intros w image out len g Hort r g'. unfold CVPlugin.PerformInference.
    unfold bind at 1.
    destruct (CVPlugin.preprocess image g) as [[] g1|e g1|f] eqn:Hpre; [|done..].
    assert (is_null (CVPlugin.ort g1) = true) as Hort1.
    { rewrite (preserves_normal CVPlugin.ort _ _ _ _
                 (CVFrame.preprocess_frame CVPlugin.ort (fun _ _ => eq_refl) image)
                 Hpre). exact Hort. }
    do 4 (erewrite bind_normal by reflexivity).
    erewrite bind_undefined by (apply CVFacts.via_ort_null; exact Hort1).
    discriminate.
  - intros w image out len g Hort r g'. unfold YOLOXPlugin.PerformInference.
    unfold bind at 1.
    destruct (YOLOXPlugin.preprocess image g) as [[] g1|e g1|f] eqn:Hpre; [|done..].
    assert (is_null (YOLOXPlugin.ort g1) = true) as Hort1.
    { rewrite (preserves_normal YOLOXPlugin.ort _ _ _ _
                 (YOLOXFrame.yolox_preprocess_frame YOLOXPlugin.ort
                    (fun _ _ => eq_refl) image) Hpre). exact Hort. }
    do 4 (erewrite bind_normal by reflexivity).
    erewrite bind_undefined by (apply YOLOXFacts.yolox_via_ort_null; exact Hort1).
    discriminate.
Qed.

Lemma calls_before_init_witness :
  CVPlugin.LoadModel Examples.CV.first_load "model.onnx" "CPUExecutionProvider"
    (2, 1) CVPlugin.initial = Undefined NullDereference /\
  YOLOXPlugin.LoadModel Examples.YOLOX.first_load "model.onnx"
    "CPUExecutionProvider" (2, 1) YOLOXPlugin.initial = Undefined NullDereference /\
  (forall r g',
     CVPlugin.PerformInference Examples.CV.some_output Examples.image_2x1
       (Examples.ones 3) 2 CVPlugin.initial <> Normal r g') /\
  (forall r g',
     YOLOXPlugin.PerformInference MoreExamples.yolox_some_output
       Examples.image_2x1 (Examples.ones 3) 2 YOLOXPlugin.initial <> Normal r g').
Proof.
  split; [|split; [|split]].
  - apply (proj1 calls_before_init Examples.CV.first_load "model.onnx"%string
             "CPUExecutionProvider"%string (2, 1) CVPlugin.initial).
    reflexivity.
  - apply (proj1 (proj2 calls_before_init) Examples.YOLOX.first_load
             "model.onnx"%string "CPUExecutionProvider"%string (2, 1)
             YOLOXPlugin.initial).
    reflexivity.
  - apply (proj1 (proj2 (proj2 calls_before_init)) Examples.CV.some_output
             Examples.image_2x1 (Examples.ones 3) 2 CVPlugin.initial).
    reflexivity.
  - apply (proj2 (proj2 (proj2 calls_before_init)) MoreExamples.yolox_some_output
             Examples.image_2x1 (Examples.ones 3) 2 YOLOXPlugin.initial).
    reflexivity.
Defined.

(** ** The normalisation *)

Module NormalizeFacts.

Lemma byte_value_below b : (Byte.to_N b < 256)%N.
Proof. by destruct b. Qed.

Lemma normalize_as_value b : normalize b = normalize_value (Byte.to_N b).
Proof. reflexivity. Qed.

Lemma normalized_values_table :
  map (fun i => normalize_value (N.of_nat i)) (seq 0 256) = normalized_values.
Proof. vm_compute. reflexivity. Qed.

Lemma normalized_values_lookup b :
  normalized_values !! N.to_nat (Byte.to_N b) = Some (normalize b).
Proof.
  rewrite <- normalized_values_table, list_lookup_fmap.
  rewrite lookup_seq_lt by (pose proof (byte_value_below b); lia).
  cbn [fmap option_fmap option_map Nat.add]. by rewrite N2Nat.id.
Qed.

Lemma lookup_In {A} (l : list A) i x : l !! i = Some x -> In x l.
Proof.
  revert i. induction l as [|z l IH]; intros [|i] Hx; try done.
  - injection Hx as <-. by left.
  - right. exact (IH i Hx).
Qed.

Lemma increasing_lookup l :
  increasing l = true ->
  forall i j x y, (i < j)%nat -> l !! i = Some x -> l !! j = Some y ->
                  float_lt x y = true.
Proof.
  induction l as [|z l IH]; intros Hl i j x y Hij Hx Hy.
  - by rewrite lookup_nil in Hx.
  - cbn [increasing] in Hl. apply andb_true_iff in Hl as [Hz Hl].
    destruct j as [|j]; [lia|]. cbn in Hy.
    destruct i as [|i].
    + injection Hx as <-. rewrite forallb_forall in Hz.
      apply Hz. exact (lookup_In l j y Hy).
    + cbn in Hx. apply (IH Hl i j); [lia | exact Hx | exact Hy].
Qed.

Lemma normalized_values_increasing : increasing normalized_values = true.
Proof. vm_compute. reflexivity. Qed.

End NormalizeFacts.

(** X16.  The value written for a byte, [b / 255.0f] in single precision,
    lies between 0 and 1 for every byte; byte 0 gives exactly +0 and byte
    255 gives exactly 1. *)
Theorem normalize_in_unit_interval :
  (forall b, float_le float_zero (normalize b) = true /\
             float_le (normalize b) (float_of_int 1) = true) /\
  normalize "000"%byte = float_zero /\
  normalize "255"%byte = float_of_int 1.
Proof.
  split; [|split; reflexivity].
  intros b. destruct b; split; vm_compute; reflexivity.
Qed.

(** X17.  The normalisation is strictly increasing: a larger byte gives a
    larger float, so the 256 byte values are mapped to 256 distinct floats. *)
Theorem normalize_strictly_increasing a b :
  (Byte.to_N a < Byte.to_N b)%N ->
  float_lt (normalize a) (normalize b) = true.
Proof.
  intros Hab.
  apply (NormalizeFacts.increasing_lookup normalized_values
           NormalizeFacts.normalized_values_increasing
           (N.to_nat (Byte.to_N a)) (N.to_nat (Byte.to_N b)));
    [lia | apply NormalizeFacts.normalized_values_lookup..].
Qed.

Lemma normalize_strictly_increasing_witness :
  float_lt (normalize "a"%byte) (normalize "b"%byte) = true.
Proof.
  apply (normalize_strictly_increasing "a"%byte "b"%byte). vm_compute. reflexivity.
Defined.

(** ** Release after a load *)

Module LifecycleFacts.

Lemma yolox_preprocess_freed b image g :
  YOLOXPlugin.input_data g = YOLOXPlugin.freed ->
  1 <= YOLOXPlugin.n_pixels g <= INT_MAX ->
  image !! 0%nat = Some b ->
  YOLOXPlugin.preprocess image g = Undefined UseAfterFree.
Proof.
  intros Hfreed Hn Himg. pose proof INT_MIN_value. pose proof INT_MAX_value.
  unfold YOLOXPlugin.preprocess.
  erewrite bind_normal by reflexivity.
  unfold for_upto.
  destruct (Z.to_nat (YOLOXPlugin.n_pixels g)) as [|k] eqn:Hk; [lia|].
  rewrite for_loop_succ. apply bind_undefined.
  unfold YOLOXPlugin.preprocess_pixel, for_upto, YOLOXPlugin.n_channels.
  change (Z.to_nat 3) with 3%nat.
  rewrite for_loop_succ. apply bind_undefined.
  unfold YOLOXPlugin.preprocess_channel, YOLOXPlugin.n_channels.
  erewrite bind_normal by (apply int_mul_normal; lia).
  erewrite bind_normal by (apply int_add_normal; lia).
  erewrite bind_normal by (apply read_at_normal; [lia | exact Himg]).
  erewrite bind_normal by reflexivity.
  erewrite bind_normal by (apply int_mul_normal; lia).
  erewrite bind_normal by (apply int_add_normal; lia).
  unfold YOLOXPlugin.store_input_data.
  erewrite bind_normal by reflexivity. by rewrite Hfreed.
Qed.

Lemma neutral_calls_keep_envs added live :
  Forall (fun c => is_neutral c = true) added ->
  fold_left track_env added live = live.
Proof.
  intros Hadded. revert live.
  induction Hadded as [|c added Hc _ IH]; intros live; [reflexivity|].
  cbn [fold_left]. destruct c; try discriminate Hc; apply IH.
Qed.

Lemma neutral_calls_keep_sessions added live :
  Forall (fun c => is_neutral c = true) added ->
  fold_left track_session added live = live.
Proof.
  intros Hadded. revert live.
  induction Hadded as [|c added Hc _ IH]; intros live; [reflexivity|].
  cbn [fold_left]. destruct c; try discriminate Hc; apply IH.
Qed.

(** The log of one load followed by the two releases shows nothing live,
    when nothing was live before. *)
Lemma released_log log logid path o e s settings :
  live_handles log = ([], []) ->
  Forall (fun c => is_neutral c = true) settings ->
  live_handles
    (log ++ [CreateEnv ORT_LOGGING_LEVEL_WARNING logid (handle e);
             DisableTelemetryEvents (handle e);
             CreateSessionOptions o]
         ++ settings
         ++ [CreateSession (handle e) path o (handle s);
             ReleaseSessionOptions o;
             SessionGetInputName (handle s) 0;
             SessionGetOutputName (handle s) 0]
         ++ [ReleaseSession (handle s); ReleaseEnv (handle e)]) = ([], []).
Proof.
  intros Hlog Hsettings.
  unfold live_handles, live_envs, live_sessions in *.
  injection Hlog as Henvs Hsessions.
  rewrite !fold_left_app, Henvs, Hsessions.
  cbn [fold_left track_env track_session app].
  rewrite neutral_calls_keep_envs, neutral_calls_keep_sessions by exact Hsettings.
  cbn [fold_left track_env track_session app remove_ptr ptr_eqb].
  by rewrite !Nat.eqb_refl.
Qed.

End LifecycleFacts.

(** X18.  [FreeResources] of the YOLOX plugin frees the block and leaves
    [input_data], [session] and [env] as they were: the pointer dangles.  A
    [PerformInference] that follows, on a model of at least one pixel and an
    image of at least one byte, writes through the freed pointer. *)
Theorem yolox_inference_after_release g cells :
  is_null (YOLOXPlugin.ort g) = false ->
  YOLOXPlugin.input_data g = YOLOXPlugin.allocated cells ->
  1 <= YOLOXPlugin.n_pixels g <= INT_MAX ->
  exists g',
    YOLOXPlugin.FreeResources g = Normal tt g' /\
    YOLOXPlugin.input_data g' = YOLOXPlugin.freed /\
    YOLOXPlugin.session g' = YOLOXPlugin.session g /\
    YOLOXPlugin.env g' = YOLOXPlugin.env g /\
    (forall w image out len b,
       image !! 0%nat = Some b ->
       YOLOXPlugin.PerformInference w image out len g' = Undefined UseAfterFree).
Proof.
  intros Hort Hdata Hn.
  eexists. split; [exact (ReleaseFacts.yolox_FreeResources_order g cells Hort Hdata)|].
  YOLOXFacts.proj. repeat split.
  intros w image out len b Himg.
  unfold YOLOXPlugin.PerformInference. apply bind_undefined.
  apply (LifecycleFacts.yolox_preprocess_freed b); [reflexivity | exact Hn | exact Himg].
Qed.

Lemma yolox_inference_after_release_witness :
  exists g',
    YOLOXPlugin.FreeResources Examples.YOLOX.loaded_2x1 = Normal tt g' /\
    YOLOXPlugin.input_data g' = YOLOXPlugin.freed /\
    YOLOXPlugin.session g' = YOLOXPlugin.session Examples.YOLOX.loaded_2x1 /\
    YOLOXPlugin.env g' = YOLOXPlugin.env Examples.YOLOX.loaded_2x1 /\
    (forall w image out len b,
       image !! 0%nat = Some b ->
       YOLOXPlugin.PerformInference w image out len g' = Undefined UseAfterFree).
Proof.
  destruct (YOLOXLoadedFacts.yolox_block_is_oversized) as (cells & Hcells & _).
  apply (yolox_inference_after_release Examples.YOLOX.loaded_2x1 cells).
  - reflexivity.
  - exact Hcells.
  - rewrite INT_MAX_value. simpl. lia.
Defined.

(** X19.  One load followed by [FreeResources] leaves nothing live.  If the
    log shows no live environment and no live session, [LoadModel] of the CV
    plugin succeeds and the runtime gave it an environment and a session,
    then [FreeResources] returns and the log again shows no live environment
    and no live session. *)
Theorem cv_load_then_release w path prov wd ht g g' e s :
  live_handles (CVPlugin.calls g) = ([], []) ->
  CVPlugin.new_env w = handle e ->
  CVPlugin.new_session w = handle s ->
  CVPlugin.LoadModel w path prov (wd, ht) g = Normal CVOutcome.success g' ->
  exists g'',
    CVPlugin.FreeResources g' = Normal tt g'' /\
    live_handles (CVPlugin.calls g'') = ([], []).
Proof.
  intros Hlive He Hs Hrun.
  pose proof (LogFacts.cv_LoadModel_log _ _ _ _ _ _ _ Hrun) as Hlog.
  assert (is_null (CVPlugin.ort g') = false /\
          CVPlugin.session g' = handle s /\ CVPlugin.env g' = handle e /\
          exists settings, CVOutcome.selection w prov = Some settings)
    as (Hort & Hsession & Henv & settings & Hsel).
  { revert Hrun. rewrite CVFacts.LoadModel_closed.
    unfold CVOutcome.LoadModel_outcome. cbn [fst snd].
    CVFacts.load_cases w prov; try discriminate. intros [= <-].
    CVFacts.proj. rewrite He, Hs. eauto. }
  rewrite Hsel in Hlog.
  eexists. split; [exact (ReleaseTwiceFacts.cv_FreeResources_run g' Hort)|].
  CVFacts.proj. rewrite Hlog, Hsession, Henv.
  unfold guarded_releases. cbn [is_null app].
  unfold CVOutcome.prologue, CVOutcome.session_calls. rewrite He, Hs.
  rewrite <- !app_assoc.
  apply (LifecycleFacts.released_log (CVPlugin.calls g)); [exact Hlive|].
  apply LogFacts.cv_selection_cases in Hsel as [-> | ->]; repeat constructor.
Qed.

Lemma cv_load_then_release_witness :
  exists g'',
    CVPlugin.FreeResources Examples.CV.loaded_2x1 = Normal tt g'' /\
    live_handles (CVPlugin.calls g'') = ([], []).
Proof.
  apply (cv_load_then_release Examples.CV.first_load "model.onnx"%string
           "CPUExecutionProvider"%string 2 1 Examples.CV.initialised
           Examples.CV.loaded_2x1 2 4).
  - reflexivity.
  - reflexivity.
  - reflexivity.
  - vm_compute. reflexivity.
Defined.

(** ** What a returning [PerformInference] has read and written *)

Module NeedFacts.

Section Loops.
Context {S X : Type} (f : S -> X) (body : Z -> M S unit).
Hypothesis body_keeps : forall i s s', body i s = Normal tt s' -> f s' = f s.

Lemma bind_normal_inv {A B} (m : M S A) (k : A -> M S B) s b s' :
  bind m k s = Normal b s' ->
  exists a s1, m s = Normal a s1 /\ k a s1 = Normal b s'.
Proof. unfold bind. destruct (m s) as [a s1| |]; [eauto | done..]. Qed.

Lemma for_loop_keeps k : forall i s s',
  for_loop k i body s = Normal tt s' -> f s' = f s.
Proof.
  induction k as [|k IH]; intros i s s' Hrun.
  - by injection Hrun as <-.
  - rewrite for_loop_succ in Hrun.
    apply bind_normal_inv in Hrun as ([] & s1 & Hbody & Hrest).
    rewrite (IH _ _ _ Hrest). by apply (body_keeps i).
Qed.

(** A loop that returns has run each of its iterations to the end. *)
Lemma for_loop_reaches k : forall i s s',
  for_loop k i body s = Normal tt s' ->
  forall j, (j < k)%nat ->
  exists s0 s1, f s0 = f s /\ body (i + Z.of_nat j) s0 = Normal tt s1.
Proof.
  induction k as [|k IH]; intros i s s' Hrun j Hj; [lia|].
  rewrite for_loop_succ in Hrun.
  apply bind_normal_inv in Hrun as ([] & s1 & Hbody & Hrest).
  destruct j as [|j].
  - exists s, s1. split; [reflexivity|]. by rewrite Z.add_0_r.
  - destruct (IH _ _ _ Hrest j ltac:(lia)) as (s0 & s2 & Hf & Hj').
    exists s0, s2. split.
    + rewrite Hf. by apply (body_keeps i).
    + by replace (i + Z.of_nat (Datatypes.S j)) with (i + 1 + Z.of_nat j) by lia.
Qed.
End Loops.

Lemma checked_inv {S} z (s : S) a s' :
  checked z s = Normal a s' -> a = z /\ s' = s.
Proof. unfold checked. destruct (in_int z); [|done]. by intros [= <- <-]. Qed.

Lemma read_at_inv {S A} (l : list A) i (s : S) a s' :
  read_at l i s = Normal a s' -> 0 <= i < Z.of_nat (length l) /\ s' = s.
Proof.
  unfold read_at. destruct (_ && _) eqn:Hi; [|done].
  apply andb_true_iff in Hi. destruct (l !! Z.to_nat i); [|done].
  intros [= <- <-]. split; [lia | reflexivity].
Qed.

Lemma write_at_inv {A} (l : list A) i x l' :
  write_at l i x = Some l' ->
  0 <= i < Z.of_nat (length l) /\ length l' = length l.
Proof.
  unfold write_at. destruct (_ && _) eqn:Hi; [|done].
  apply andb_true_iff in Hi. intros [= <-].
  rewrite length_insert. split; [lia | reflexivity].
Qed.

(** One assignment of the CV plugin's loop that returns has read
    [image_data[p * 3 + ch]] and written [input_data[ch * n_pixels + p]]
    inside their arrays. *)
Lemma cv_channel_inv image p ch g g' :
  CVPlugin.preprocess_channel image p ch g = Normal tt g' ->
  (CVPlugin.n_pixels g', length (CVPlugin.input_data g')) =
    (CVPlugin.n_pixels g, length (CVPlugin.input_data g)) /\
  0 <= p * 3 + ch < Z.of_nat (length image) /\
  0 <= ch * CVPlugin.n_pixels g + p < Z.of_nat (length (CVPlugin.input_data g)).
Proof.
  unfold CVPlugin.preprocess_channel, CVPlugin.n_channels, int_mul, int_add.
  intros Hrun.
  apply bind_normal_inv in Hrun as (x & s1 & [-> ->]%checked_inv & Hrun).
  apply bind_normal_inv in Hrun as (src & s1 & [-> ->]%checked_inv & Hrun).
  apply bind_normal_inv in Hrun as (b & s1 & [Hsrc ->]%read_at_inv & Hrun).
  apply bind_normal_inv in Hrun as (n & s1 & [= <- <-] & Hrun).
  apply bind_normal_inv in Hrun as (y & s1 & [-> ->]%checked_inv & Hrun).
  apply bind_normal_inv in Hrun as (dst & s1 & [-> ->]%checked_inv & Hrun).
  apply bind_normal_inv in Hrun as (v & s1 & [= <- <-] & Hrun).
  destruct (write_at _ _ _) as [v'|] eqn:Hwrite; [|done].
  apply write_at_inv in Hwrite as [Hdst Hlen].
  injection Hrun as <-. CVFacts.proj. rewrite Hlen. done.
Qed.

Lemma cv_pixel_keeps image p g g' :
  CVPlugin.preprocess_pixel image p g = Normal tt g' ->
  (CVPlugin.n_pixels g', length (CVPlugin.input_data g')) =
    (CVPlugin.n_pixels g, length (CVPlugin.input_data g)).
Proof.
  apply (for_loop_keeps
           (fun g => (CVPlugin.n_pixels g, length (CVPlugin.input_data g)))).
  intros ch s s' Hrun. by apply cv_channel_inv in Hrun as [? _].
Qed.

Lemma cv_preprocess_needs image g g1 :
  1 <= CVPlugin.n_pixels g ->
  CVPlugin.preprocess image g = Normal tt g1 ->
  3 * CVPlugin.n_pixels g <= Z.of_nat (length image) /\
  3 * CVPlugin.n_pixels g <= Z.of_nat (length (CVPlugin.input_data g)).
Proof.
  intros Hn Hrun. unfold CVPlugin.preprocess, for_upto in Hrun.
  apply bind_normal_inv in Hrun as (n & s1 & [= <- <-] & Hrun).
  destruct (for_loop_reaches
              (fun g => (CVPlugin.n_pixels g, length (CVPlugin.input_data g)))
              _ (cv_pixel_keeps image) _ _ _ _ Hrun
              (Z.to_nat (CVPlugin.n_pixels g) - 1)%nat ltac:(lia))
    as (s0 & s1 & Hs0 & Hpixel).
  unfold CVPlugin.preprocess_pixel, for_upto, CVPlugin.n_channels in Hpixel.
  destruct (for_loop_reaches
              (fun g => (CVPlugin.n_pixels g, length (CVPlugin.input_data g)))
              _ (fun ch s s' H => proj1 (cv_channel_inv image _ ch s s' H))
              _ _ _ _ Hpixel 2%nat ltac:(lia))
    as (s2 & s3 & Hs2 & Hchannel).
  apply cv_channel_inv in Hchannel as (_ & Hread & Hwrite).
  rewrite Hs0 in Hs2. injection Hs2 as Hpix Hlen.
  rewrite Hpix, Hlen in Hwrite. lia.
Qed.

(** The same for the YOLOX plugin: the block is there, and the store is
    inside it. *)
Lemma yolox_channel_inv image p ch g g' :
  YOLOXPlugin.preprocess_channel image p ch g = Normal tt g' ->
  YOLOXPlugin.n_pixels g' = YOLOXPlugin.n_pixels g /\
  0 <= p * 3 + ch < Z.of_nat (length image) /\
  exists cells cells',
    YOLOXPlugin.input_data g = YOLOXPlugin.allocated cells /\
    YOLOXPlugin.input_data g' = YOLOXPlugin.allocated cells' /\
    length cells' = length cells /\
    0 <= ch * YOLOXPlugin.n_pixels g + p < Z.of_nat (length cells).
Proof.
  unfold YOLOXPlugin.preprocess_channel, YOLOXPlugin.n_channels, int_mul, int_add.
  intros Hrun.
  apply bind_normal_inv in Hrun as (x & s1 & [-> ->]%checked_inv & Hrun).
  apply bind_normal_inv in Hrun as (src & s1 & [-> ->]%checked_inv & Hrun).
  apply bind_normal_inv in Hrun as (b & s1 & [Hsrc ->]%read_at_inv & Hrun).
  apply bind_normal_inv in Hrun as (n & s1 & [= <- <-] & Hrun).
  apply bind_normal_inv in Hrun as (y & s1 & [-> ->]%checked_inv & Hrun).
  apply bind_normal_inv in Hrun as (dst & s1 & [-> ->]%checked_inv & Hrun).
  unfold YOLOXPlugin.store_input_data in Hrun.
  apply bind_normal_inv in Hrun as (blk & s1 & [= <- <-] & Hrun).
  destruct (YOLOXPlugin.input_data g) as [|cells|] eqn:Hblock; [done| |done].
  destruct (write_at _ _ _) as [cells'|] eqn:Hwrite; [|done].
  apply write_at_inv in Hwrite as [Hdst Hlen].
  injection Hrun as <-. YOLOXFacts.proj. eauto 10.
Qed.

Lemma yolox_channel_keeps image p ch g g' :
  YOLOXPlugin.preprocess_channel image p ch g = Normal tt g' ->
  (YOLOXPlugin.n_pixels g', yolox_capacity g') =
    (YOLOXPlugin.n_pixels g, yolox_capacity g).
Proof.
  intros (Hn & _ & cells & cells' & Hg & Hg' & Hlen & _)%yolox_channel_inv.
  unfold yolox_capacity. by rewrite Hn, Hg, Hg', Hlen.
Qed.

Lemma yolox_pixel_keeps image p g g' :
  YOLOXPlugin.preprocess_pixel image p g = Normal tt g' ->
  (YOLOXPlugin.n_pixels g', yolox_capacity g') =
    (YOLOXPlugin.n_pixels g, yolox_capacity g).
Proof.
  apply (for_loop_keeps (fun g => (YOLOXPlugin.n_pixels g, yolox_capacity g))).
  intros ch s s'. apply yolox_channel_keeps.
Qed.

Lemma yolox_preprocess_needs image g g1 :
  1 <= YOLOXPlugin.n_pixels g ->
  YOLOXPlugin.preprocess image g = Normal tt g1 ->
  3 * YOLOXPlugin.n_pixels g <= Z.of_nat (length image) /\
  exists cells,
    YOLOXPlugin.input_data g = YOLOXPlugin.allocated cells /\
    3 * YOLOXPlugin.n_pixels g <= Z.of_nat (length cells).
Proof.
  intros Hn Hrun. unfold YOLOXPlugin.preprocess, for_upto in Hrun.
  apply bind_normal_inv in Hrun as (n & s1 & [= <- <-] & Hrun).
  destruct (for_loop_reaches
              (fun g => (YOLOXPlugin.n_pixels g, yolox_capacity g))
              _ (yolox_pixel_keeps image) _ _ _ _ Hrun
              (Z.to_nat (YOLOXPlugin.n_pixels g) - 1)%nat ltac:(lia))
    as (s0 & s1 & Hs0 & Hpixel).
  unfold YOLOXPlugin.preprocess_pixel, for_upto, YOLOXPlugin.n_channels in Hpixel.
  destruct (for_loop_reaches
              (fun g => (YOLOXPlugin.n_pixels g, yolox_capacity g))
              _ (fun ch s s' => yolox_channel_keeps image _ ch s s')
              _ _ _ _ Hpixel 2%nat ltac:(lia))
    as (s2 & s3 & Hs2 & Hchannel).
  apply yolox_channel_inv in Hchannel
    as (_ & Hread & cells2 & _ & Hblock2 & _ & _ & Hwrite).
  rewrite Hs0 in Hs2. injection Hs2 as Hpix Hcap.
  unfold yolox_capacity in Hcap. rewrite Hblock2 in Hcap.
  destruct (YOLOXPlugin.input_data g) as [|cells|]; [done| |done].
  injection Hcap as Hcap. rewrite Hpix in Hwrite.
  split; [lia|]. exists cells. split; [reflexivity | lia].
Qed.

End NeedFacts.

(** X20.  [PerformInference] has no way to test the size of [image_data].
    With at least one pixel to process, whenever the call returns, the image
    had at least [3 * n_pixels] bytes and the buffer had at least
    [3 * n_pixels] floats (for the YOLOX plugin: [input_data] pointed to a
    block of at least that many cells).  With a shorter image or buffer the
    call does not return normally. *)
Theorem inference_needs_full_arrays :
  (forall w image out len g r g',
     1 <= CVPlugin.n_pixels g ->
     CVPlugin.PerformInference w image out len g = Normal r g' ->
     3 * CVPlugin.n_pixels g <= Z.of_nat (length image) /\
     3 * CVPlugin.n_pixels g <= Z.of_nat (length (CVPlugin.input_data g))) /\
  (forall w image out len g r g',
     1 <= YOLOXPlugin.n_pixels g ->
     YOLOXPlugin.PerformInference w image out len g = Normal r g' ->
     3 * YOLOXPlugin.n_pixels g <= Z.of_nat (length image) /\
     exists cells,
       YOLOXPlugin.input_data g = YOLOXPlugin.allocated cells /\
       3 * YOLOXPlugin.n_pixels g <= Z.of_nat (length cells)).
Proof.
  split; intros w image out len g r g' Hn Hrun.
  - unfold CVPlugin.PerformInference in Hrun.
    apply NeedFacts.bind_normal_inv in Hrun as ([] & g1 & Hpre & _).
    exact (NeedFacts.cv_preprocess_needs image g g1 Hn Hpre).
  - unfold YOLOXPlugin.PerformInference in Hrun.
    apply NeedFacts.bind_normal_inv in Hrun as ([] & g1 & Hpre & _).
    exact (NeedFacts.yolox_preprocess_needs image g g1 Hn Hpre).
Qed.

Lemma inference_needs_full_arrays_witness :
  (3 * CVPlugin.n_pixels Examples.CV.loaded_2x1
     <= Z.of_nat (length Examples.image_2x1) /\
   3 * CVPlugin.n_pixels Examples.CV.loaded_2x1
     <= Z.of_nat (length (CVPlugin.input_data Examples.CV.loaded_2x1))) /\
  (3 * YOLOXPlugin.n_pixels Examples.YOLOX.loaded_2x1
     <= Z.of_nat (length Examples.image_2x1) /\
   exists cells,
     YOLOXPlugin.input_data Examples.YOLOX.loaded_2x1 =
       YOLOXPlugin.allocated cells /\
     3 * YOLOXPlugin.n_pixels Examples.YOLOX.loaded_2x1
       <= Z.of_nat (length cells)).
Proof.
  split.
  - apply (proj1 inference_needs_full_arrays Examples.CV.some_output
             Examples.image_2x1 (Examples.ones 3) 2 Examples.CV.loaded_2x1
             [float_zero; float_zero; float_of_int 1]
             (final_state Examples.CV.loaded_2x1
                (CVPlugin.PerformInference Examples.CV.some_output
                   Examples.image_2x1 (Examples.ones 3) 2
                   Examples.CV.loaded_2x1))).
    + simpl. lia.
    + vm_compute. reflexivity.
  - apply (proj2 inference_needs_full_arrays MoreExamples.yolox_some_output
             Examples.image_2x1 (Examples.ones 3) 2 Examples.YOLOX.loaded_2x1
             [float_zero; float_zero; float_of_int 1]
             (final_state Examples.YOLOX.loaded_2x1
                (YOLOXPlugin.PerformInference MoreExamples.yolox_some_output
                   Examples.image_2x1 (Examples.ones 3) 2
                   Examples.YOLOX.loaded_2x1))).
    + simpl. lia.
    + vm_compute. reflexivity.
Defined.

(** ** The tensor a returning [PerformInference] has handed over *)

Module DescriptionFacts.

(** Whatever follows [Run], the log of a call that returns starts with the
    calls up to [Run]. *)
Lemma cv_PerformInference_log w image out len g g1 r g' :
  CVPlugin.preprocess image g = Normal tt g1 ->
  CVPlugin.PerformInference w image out len g = Normal r g' ->
  exists rest,
    CVPlugin.calls g' = CVPlugin.calls g1 ++ cv_calls_until_run w g1 ++ rest.
Proof.
  intros Hpre. unfold CVPlugin.PerformInference, cv_calls_until_run.
  erewrite bind_normal by exact Hpre.
  do 4 (erewrite bind_normal by reflexivity).
  destruct (is_null (CVPlugin.ort g1)) eqn:Hort1.
  { erewrite bind_undefined by (apply CVFacts.via_ort_null; exact Hort1).
    discriminate. }
  erewrite bind_normal by (apply CVFacts.via_ort_run; exact Hort1).
  erewrite bind_normal by reflexivity. CVFacts.proj.
  erewrite bind_normal by (apply CVFacts.via_ort_run; exact Hort1).
  erewrite bind_normal by (apply CVFacts.via_ort_run; exact Hort1).
  erewrite bind_normal by reflexivity. CVFacts.proj.
  erewrite bind_normal by (apply CVFacts.via_ort_run; exact Hort1).
  destruct (is_null (CVPlugin.new_output_tensor w)).
  - erewrite bind_normal by (apply CVFacts.via_ort_run; exact Hort1).
    unfold ret. intros [= <- <-]. CVFacts.proj.
    eexists. rewrite <- !app_assoc. cbn [app]. reflexivity.
  - erewrite bind_normal by (apply CVFacts.via_ort_run; exact Hort1).
    destruct (CVPlugin.output_tensor_data w) as [d|]; [|discriminate].
    unfold bind at 1. unfold memcpy.
    destruct (_ && _); [|discriminate].
    unfold ret.
    erewrite bind_normal by (apply CVFacts.via_ort_run; exact Hort1).
    erewrite bind_normal by (apply CVFacts.via_ort_run; exact Hort1).
    intros [= <- <-]. CVFacts.proj.
    eexists. rewrite <- !app_assoc. cbn [app]. reflexivity.
Qed.

Lemma yolox_PerformInference_log w image out len g g1 r g' :
  YOLOXPlugin.preprocess image g = Normal tt g1 ->
  YOLOXPlugin.PerformInference w image out len g = Normal r g' ->
  exists rest,
    YOLOXPlugin.calls g' =
      YOLOXPlugin.calls g1 ++ yolox_calls_until_run w g1 ++ rest.
Proof.
  intros Hpre. unfold YOLOXPlugin.PerformInference, yolox_calls_until_run.
  erewrite bind_normal by exact Hpre.
  do 4 (erewrite bind_normal by reflexivity).
  destruct (is_null (YOLOXPlugin.ort g1)) eqn:Hort1.
  { erewrite bind_undefined by (apply YOLOXFacts.yolox_via_ort_null; exact Hort1).
    discriminate. }
  erewrite bind_normal by (apply YOLOXFacts.yolox_via_ort_run; exact Hort1).
  do 2 (erewrite bind_normal by reflexivity). YOLOXFacts.proj.
  erewrite bind_normal by (apply YOLOXFacts.yolox_via_ort_run; exact Hort1).
  erewrite bind_normal by (apply YOLOXFacts.yolox_via_ort_run; exact Hort1).
  erewrite bind_normal by reflexivity. YOLOXFacts.proj.
  erewrite bind_normal by (apply YOLOXFacts.yolox_via_ort_run; exact Hort1).
  destruct (is_null (YOLOXPlugin.new_output_tensor w)).
  - erewrite bind_normal by (apply YOLOXFacts.yolox_via_ort_run; exact Hort1).
    erewrite bind_normal by (apply YOLOXFacts.yolox_via_ort_run; exact Hort1).
    unfold ret. intros [= <- <-]. YOLOXFacts.proj.
    eexists. rewrite <- !app_assoc. cbn [app]. reflexivity.
  - erewrite bind_normal by (apply YOLOXFacts.yolox_via_ort_run; exact Hort1).
    erewrite bind_normal by (apply YOLOXFacts.yolox_via_ort_run; exact Hort1).
    erewrite bind_normal by (apply YOLOXFacts.yolox_via_ort_run; exact Hort1).
    destruct (3 <? YOLOXPlugin.output_dimensions w); [discriminate|].
    erewrite bind_normal by (apply YOLOXFacts.yolox_via_ort_run; exact Hort1).
    destruct (YOLOXPlugin.output_tensor_data w) as [d|]; [|discriminate].
    unfold bind at 1. unfold memcpy.
    destruct (_ && _); [|discriminate].
    unfold ret.
    erewrite bind_normal by (apply YOLOXFacts.yolox_via_ort_run; exact Hort1).
    erewrite bind_normal by (apply YOLOXFacts.yolox_via_ort_run; exact Hort1).
    intros [= <- <-]. YOLOXFacts.proj.
    eexists. rewrite <- !app_assoc. cbn [app]. reflexivity.
Qed.

(** A returning call on a loaded state had an image of full length. *)
Lemma cv_image_covers wd ht g image g1 :
  CVOutcome.loaded wd ht g ->
  CVPlugin.preprocess image g = Normal tt g1 ->
  wd * ht * 3 <= Z.of_nat (length image).
Proof.
  intros (Hw & Hh & Hn & Hsize & Hlen) Hpre.
  destruct (Z_lt_le_dec (wd * ht) 1) as [Hnone|Hsome]; [lia|].
  apply NeedFacts.cv_preprocess_needs in Hpre; rewrite Hn in *; lia.
Qed.

Lemma yolox_image_covers wd ht g image g1 :
  YOLOXOutcome.loaded wd ht g ->
  YOLOXPlugin.preprocess image g = Normal tt g1 ->
  wd * ht * 3 <= Z.of_nat (length image).
Proof.
  intros (Hw & Hh & Hn & Hpos & Hmax & Hsz & cells & Hd & Hlen) Hpre.
  destruct (Z_lt_le_dec (wd * ht) 1) as [Hnone|Hsome]; [lia|].
  apply NeedFacts.yolox_preprocess_needs in Hpre as [Himg _];
    rewrite Hn in *; lia.
Qed.

End DescriptionFacts.

(** X11.  Whenever [PerformInference] returns from a state loaded for
    [wd] x [ht], the calls it has added to the log start with
    [CreateCpuMemoryInfo], then [CreateTensorWithDataAsOrtValue] over the
    preprocessed image in planar layout, declared with [wd * ht * 3 * 4]
    bytes and the shape [1, 3, ht, wd] (height before width), then
    [ReleaseMemoryInfo], then [Run] on the session and with the one input
    name and the one output name that the load cached.  This holds for both
    plugins. *)
Theorem input_tensor_description :
  (forall w image out len wd ht g r g',
     CVOutcome.loaded wd ht g ->
     CVPlugin.PerformInference w image out len g = Normal r g' ->
     exists data rest,
       planar_layout (wd * ht) image data /\
       CVPlugin.calls g' =
         CVPlugin.calls g ++
           [CreateCpuMemoryInfo (CVPlugin.new_memory_info w);
            CreateTensorWithDataAsOrtValue (CVPlugin.new_memory_info w)
              data (wd * ht * 3 * 4) [1; 3; ht; wd]
              (CVPlugin.new_input_tensor w);
            ReleaseMemoryInfo (CVPlugin.new_memory_info w);
            Run (CVPlugin.session g) [Some (CVPlugin.input_name g)]
              [CVPlugin.new_input_tensor w] [Some (CVPlugin.output_name g)]
              (CVPlugin.new_output_tensor w)] ++ rest) /\
  (forall w image out len wd ht g r g',
     YOLOXOutcome.loaded wd ht g ->
     YOLOXPlugin.PerformInference w image out len g = Normal r g' ->
     exists data rest,
       planar_layout (wd * ht) image data /\
       YOLOXPlugin.calls g' =
         YOLOXPlugin.calls g ++
           [CreateCpuMemoryInfo (YOLOXPlugin.new_memory_info w);
            CreateTensorWithDataAsOrtValue (YOLOXPlugin.new_memory_info w)
              data (wd * ht * 3 * 4) [1; 3; ht; wd]
              (YOLOXPlugin.new_input_tensor w);
            ReleaseMemoryInfo (YOLOXPlugin.new_memory_info w);
            Run (YOLOXPlugin.session g) [YOLOXPlugin.input_name g]
              [YOLOXPlugin.new_input_tensor w] [YOLOXPlugin.output_name g]
              (YOLOXPlugin.new_output_tensor w)] ++ rest).
Proof.
  split.
  - intros w image out len wd ht g r g' Hloaded Hrun.
    pose proof Hrun as Hpre. unfold CVPlugin.PerformInference in Hpre.
    apply NeedFacts.bind_normal_inv in Hpre as ([] & g1 & Hpre & _).
    pose proof (DescriptionFacts.cv_image_covers wd ht g image g1 Hloaded Hpre)
      as Himg.
    destruct (proj1 calls_until_run_described w wd ht g image g1
                Hloaded Himg Hpre) as (Hplanar & Hcalls).
    destruct (DescriptionFacts.cv_PerformInference_log
                w image out len g g1 r g' Hpre Hrun) as (rest & Hlog).
    exists (CVPlugin.input_data g1), rest. split; [exact Hplanar|].
    rewrite Hlog, Hcalls.
    by rewrite (preserves_normal CVPlugin.calls _ _ _ _
                  (CVFrame.preprocess_frame CVPlugin.calls (fun _ _ => eq_refl)
                     image) Hpre).
  - intros w image out len wd ht g r g' Hloaded Hrun.
    pose proof Hrun as Hpre. unfold YOLOXPlugin.PerformInference in Hpre.
    apply NeedFacts.bind_normal_inv in Hpre as ([] & g1 & Hpre & _).
    pose proof (DescriptionFacts.yolox_image_covers wd ht g image g1 Hloaded Hpre)
      as Himg.
    destruct (proj2 calls_until_run_described w wd ht g image g1
                Hloaded Himg Hpre) as (data & Hplanar & Hcalls).
    destruct (DescriptionFacts.yolox_PerformInference_log
                w image out len g g1 r g' Hpre Hrun) as (rest & Hlog).
    exists data, rest. split; [exact Hplanar|].
    rewrite Hlog, Hcalls.
    by rewrite (preserves_normal YOLOXPlugin.calls _ _ _ _
                  (YOLOXFrame.yolox_preprocess_frame YOLOXPlugin.calls
                     (fun _ _ => eq_refl) image) Hpre).
Qed.

Lemma input_tensor_description_witness :
  (exists data rest,
     planar_layout (2 * 1) Examples.image_2x1 data /\
     CVPlugin.calls
         (final_state Examples.CV.loaded_2x1
            (CVPlugin.PerformInference Examples.CV.some_output
               Examples.image_2x1 (Examples.ones 3) 2 Examples.CV.loaded_2x1)) =
       CVPlugin.calls Examples.CV.loaded_2x1 ++
         [CreateCpuMemoryInfo (CVPlugin.new_memory_info Examples.CV.some_output);
          CreateTensorWithDataAsOrtValue
            (CVPlugin.new_memory_info Examples.CV.some_output)
            data (2 * 1 * 3 * 4) [1; 3; 1; 2]
            (CVPlugin.new_input_tensor Examples.CV.some_output);
          ReleaseMemoryInfo (CVPlugin.new_memory_info Examples.CV.some_output);
          Run (CVPlugin.session Examples.CV.loaded_2x1)
            [Some (CVPlugin.input_name Examples.CV.loaded_2x1)]
            [CVPlugin.new_input_tensor Examples.CV.some_output]
            [Some (CVPlugin.output_name Examples.CV.loaded_2x1)]
            (CVPlugin.new_output_tensor Examples.CV.some_output)] ++ rest) /\
  (exists data rest,
     planar_layout (2 * 1) Examples.image_2x1 data /\
     YOLOXPlugin.calls
         (final_state Examples.YOLOX.loaded_2x1
            (YOLOXPlugin.PerformInference MoreExamples.yolox_some_output
               Examples.image_2x1 (Examples.ones 3) 2
               Examples.YOLOX.loaded_2x1)) =
       YOLOXPlugin.calls Examples.YOLOX.loaded_2x1 ++
         [CreateCpuMemoryInfo
            (YOLOXPlugin.new_memory_info MoreExamples.yolox_some_output);
          CreateTensorWithDataAsOrtValue
            (YOLOXPlugin.new_memory_info MoreExamples.yolox_some_output)
            data (2 * 1 * 3 * 4) [1; 3; 1; 2]
            (YOLOXPlugin.new_input_tensor MoreExamples.yolox_some_output);
          ReleaseMemoryInfo
            (YOLOXPlugin.new_memory_info MoreExamples.yolox_some_output);
          Run (YOLOXPlugin.session Examples.YOLOX.loaded_2x1)
            [YOLOXPlugin.input_name Examples.YOLOX.loaded_2x1]
            [YOLOXPlugin.new_input_tensor MoreExamples.yolox_some_output]
            [YOLOXPlugin.output_name Examples.YOLOX.loaded_2x1]
            (YOLOXPlugin.new_output_tensor MoreExamples.yolox_some_output)]
         ++ rest).
Proof.
  split.
  - apply (proj1 input_tensor_description Examples.CV.some_output
             Examples.image_2x1 (Examples.ones 3) 2 2 1 Examples.CV.loaded_2x1
             [float_zero; float_zero; float_of_int 1]).
    + unfold CVOutcome.loaded. simpl. rewrite INT_MAX_value. repeat split; lia.
    + vm_compute. reflexivity.
  - apply (proj2 input_tensor_description MoreExamples.yolox_some_output
             Examples.image_2x1 (Examples.ones 3) 2 2 1
             Examples.YOLOX.loaded_2x1
             [float_zero; float_zero; float_of_int 1]).
    + unfold YOLOXOutcome.loaded. simpl. rewrite INT_MAX_value.
      repeat split; try lia. eexists. split; [reflexivity|]. simpl. lia.
    + vm_compute. reflexivity.
Defined.

(** ** The status of a load that could not size its buffer *)

Module StatusFacts.

(** A negative element count, converted to [size_t], is beyond what a
    vector can hold. *)
Lemma negative_count_too_long z :
  INT_MIN <= z < 0 -> (vector_max_size <? to_size_t z) = true.
Proof.
  intros Hz. rewrite LoadedFacts.to_size_t_negative by exact Hz.
  rewrite INT_MIN_value in Hz. rewrite vector_max_size_value.
  change (2 ^ 64) with 18446744073709551616. apply Z.ltb_lt. lia.
Qed.

Lemma cv_negative_size_run w path prov wd ht g settings iname oname :
  is_null (CVPlugin.ort g) = false ->
  CVOutcome.selection w prov = Some settings ->
  CVPlugin.model_input_name w = Some iname ->
  CVPlugin.model_output_name w = Some oname ->
  INT_MIN <= wd * ht <= INT_MAX ->
  INT_MIN <= wd * ht * 3 < 0 ->
  exists g',
    CVPlugin.LoadModel w path prov (wd, ht) g = Normal (what length_error) g' /\
    CVPlugin.session g' = CVPlugin.new_session w.
Proof.
  intros Hort Hsel Hin Hout Hn Hn3.
  rewrite CVFacts.LoadModel_closed. unfold CVOutcome.LoadModel_outcome.
  cbn [fst snd]. rewrite Hort, Hsel, Hin, Hout.
  rewrite (in_int_true (wd * ht)) by exact Hn.
  rewrite (in_int_true (wd * ht * 3)) by lia. cbn [negb].
  rewrite negative_count_too_long by exact Hn3.
  eexists. split; reflexivity.
Qed.

End StatusFacts.

(** X21.  When the dimensions make [n_pixels * 3] negative, [LoadModel] of
    the CV plugin (API pointer set, a key found in the selector, both names
    given by the runtime) creates the session and then leaves through the
    handler of [length_error].  The value it returns is the pointer
    [e.what()] gave, and the exception object is gone when the caller has
    it: a host that reads the returned status reads released storage.  With
    a selector that holds neither key the value is a literal, and the host
    reads "Unknown execution provider specified.". *)
Theorem failed_sizing_status_dangles :
  (forall w path prov wd ht g settings iname oname,
     is_null (CVPlugin.ort g) = false ->
     CVOutcome.selection w prov = Some settings ->
     CVPlugin.model_input_name w = Some iname ->
     CVPlugin.model_output_name w = Some oname ->
     INT_MIN <= wd * ht <= INT_MAX ->
     INT_MIN <= wd * ht * 3 < 0 ->
     (exists g',
        CVPlugin.LoadModel w path prov (wd, ht) g
          = Normal (what length_error) g' /\
        CVPlugin.session g' = CVPlugin.new_session w) /\
     bind (CVPlugin.LoadModel w path prov (wd, ht)) read_c_string g
       = Undefined UseAfterFree) /\
  (forall w path prov dims g,
     is_null (CVPlugin.ort g) = false ->
     contains prov "CPU" = false -> contains prov "Dml" = false ->
     exists g',
       bind (CVPlugin.LoadModel w path prov dims) read_c_string g
         = Normal "Unknown execution provider specified."%string g').
Proof.
  split.
  - intros w path prov wd ht g settings iname oname Hort Hsel Hin Hout Hn Hn3.
    destruct (StatusFacts.cv_negative_size_run w path prov wd ht g settings
                iname oname Hort Hsel Hin Hout Hn Hn3) as (g' & Hrun & Hsession).
    split; [by exists g'|].
    erewrite bind_normal by exact Hrun. reflexivity.
  - intros w path prov dims g Hort Hcpu Hdml.
    eexists.
    erewrite bind_normal
      by (apply SelectorFacts.cv_LoadModel_unrecognized; assumption).
    reflexivity.
Qed.

Lemma failed_sizing_status_dangles_witness :
  ((exists g',
      CVPlugin.LoadModel Examples.CV.first_load "model.onnx"
          "CPUExecutionProvider" (-1, 1) Examples.CV.initialised
        = Normal (what length_error) g' /\
      CVPlugin.session g' = CVPlugin.new_session Examples.CV.first_load) /\
   bind (CVPlugin.LoadModel Examples.CV.first_load "model.onnx"
           "CPUExecutionProvider" (-1, 1)) read_c_string Examples.CV.initialised
     = Undefined UseAfterFree) /\
  (exists g',
     bind (CVPlugin.LoadModel Examples.CV.first_load "model.onnx" "TensorRT"
             (2, 1)) read_c_string Examples.CV.initialised
       = Normal "Unknown execution provider specified."%string g').
Proof.
  split.
  - apply (proj1 failed_sizing_status_dangles Examples.CV.first_load
             "model.onnx"%string "CPUExecutionProvider"%string (-1) 1
             Examples.CV.initialised [] "input"%string "output"%string).
    + reflexivity.
    + reflexivity.
    + reflexivity.
    + reflexivity.
    + rewrite INT_MIN_value, INT_MAX_value. lia.
    + rewrite INT_MIN_value. lia.
  - apply (proj2 failed_sizing_status_dangles Examples.CV.first_load
             "model.onnx"%string "TensorRT"%string (2, 1)
             Examples.CV.initialised); reflexivity.
Defined.
